(** * University management system

    A shallow embedding of the route handlers of [app/routes] (auth,
    students, instructors, courses, enrollments) over the tables declared in
    [app/models.py], followed by the properties of the access-control and
    business-rule logic.

    Conventions.
    - A table is the list of its rows in insertion order; [select(...).first()]
      is [find], [func.count] is the length of a [filter].
    - A handler is a function from the store to a response and a store
      (state passing with exceptions); [raise] leaves the store as it is,
      and only [session.add]/[session.delete] followed by [session.commit]
      write to it.
    - [int] is [Z], [str] is [string], [datetime] is a [Z] time stamp,
      [float] is a binary64 float, [Optional[T]] is [option T]. *)

From Stdlib Require Import ZArith List String Bool Lia Floats.
Import ListNotations.
Local Open Scope string_scope.
Local Open Scope list_scope.
Local Open Scope Z_scope.

(** ** models.py: enumerations *)

Definition datetime := Z.

Module UserRole.
Inductive t := ADMIN | STUDENT | INSTRUCTOR.
Definition eqb (a b : t) : bool :=
  match a, b with
  | ADMIN, ADMIN | STUDENT, STUDENT | INSTRUCTOR, INSTRUCTOR => true
  | _, _ => false
  end.
End UserRole.

Module GenderEnum.
Inductive t := MALE | FEMALE | OTHER.
End GenderEnum.

Module CourseStatusEnum.
Inductive t := ACTIVE | INACTIVE | COMPLETED.
End CourseStatusEnum.

Module EnrollmentStatusEnum.
Inductive t := ENROLLED | COMPLETED | DROPPED | FAILED.
Definition eqb (a b : t) : bool :=
  match a, b with
  | ENROLLED, ENROLLED | COMPLETED, COMPLETED
  | DROPPED, DROPPED | FAILED, FAILED => true
  | _, _ => false
  end.
End EnrollmentStatusEnum.

(** The credential service is a black box: a stored hash is the formal
    application of [get_password_hash] to the password. *)
Inductive PasswordHash := get_password_hash (password : string).

(** ** models.py: table rows *)

Module User.
Record t := {
  id : Z;
  email : string;
  first_name : string;
  last_name : string;
  phone : option string;
  role : UserRole.t;
  is_active : bool;
  hashed_password : PasswordHash;
  created_at : datetime;
  updated_at : option datetime
}.
End User.

Module Student.
Record t := {
  id : Z;
  user_id : Z;
  student_id : string;
  date_of_birth : option datetime;
  gender : option GenderEnum.t;
  address : option string;
  emergency_contact : option string;
  enrollment_date : datetime
}.
End Student.

Module Instructor.
Record t := {
  id : Z;
  user_id : Z;
  employee_id : string;
  department : string;
  hire_date : datetime;
  salary : option float;
  office_location : option string
}.
End Instructor.

Module Course.
Record t := {
  id : Z;
  course_code : string;
  title : string;
  description : option string;
  credits : Z;
  instructor_id : Z;
  max_students : Z;
  status : CourseStatusEnum.t;
  created_at : datetime
}.
End Course.

Module Enrollment.
Record t := {
  id : Z;
  student_id : Z;
  course_id : Z;
  enrollment_date : datetime;
  status : EnrollmentStatusEnum.t;
  grade : option string
}.
End Enrollment.

(** ** models.py: request bodies

    A creation body is the validated object the handler receives, defaults
    filled in.  An update body remembers for each field whether the request
    set it ([dict(exclude_unset=True)]): [Unset], or [Provided v] where [v]
    may be an explicit null. *)

Inductive Field (A : Type) : Type :=
| Unset
| Provided (v : option A).
Arguments Unset {A}.
Arguments Provided {A} v.

(** Reading the attribute of an update body: [None] when unset or null. *)
Definition attr {A} (f : Field A) : option A :=
  match f with
  | Unset => None
  | Provided v => v
  end.

Module UserCreate.
Record t := {
  email : string;
  first_name : string;
  last_name : string;
  phone : option string;
  role : UserRole.t;
  is_active : bool;
  password : string
}.
End UserCreate.

Module StudentCreate.
Record t := {
  user_id : Z;
  student_id : string;
  date_of_birth : option datetime;
  gender : option GenderEnum.t;
  address : option string;
  emergency_contact : option string;
  enrollment_date : datetime
}.
End StudentCreate.

Module StudentUpdate.
Record t := {
  date_of_birth : Field datetime;
  gender : Field GenderEnum.t;
  address : Field string;
  emergency_contact : Field string
}.
End StudentUpdate.

Module InstructorCreate.
Record t := {
  user_id : Z;
  employee_id : string;
  department : string;
  hire_date : datetime;
  salary : option float;
  office_location : option string
}.
End InstructorCreate.

Module InstructorUpdate.
Record t := {
  department : Field string;
  salary : Field float;
  office_location : Field string
}.
End InstructorUpdate.

Module CourseCreate.
Record t := {
  course_code : string;
  title : string;
  description : option string;
  credits : Z;
  instructor_id : Z;
  max_students : Z;
  status : CourseStatusEnum.t
}.
End CourseCreate.

Module CourseUpdate.
Record t := {
  title : Field string;
  description : Field string;
  credits : Field Z;
  instructor_id : Field Z;
  max_students : Field Z;
  status : Field CourseStatusEnum.t
}.
End CourseUpdate.

Module EnrollmentCreate.
Record t := {
  student_id : Z;
  course_id : Z
}.
End EnrollmentCreate.

Module EnrollmentUpdate.
Record t := {
  status : Field EnrollmentStatusEnum.t;
  grade : Field string
}.
End EnrollmentUpdate.

(** ** The record store *)

(** The five tables.  Modelled from the spec: the store itself
    ([app/database.py] and the engine behind it) is not part of the sources.
    Ids are "monotonically assigned by the store", which the [*_seq]
    counters render: an insertion takes the counter as id and increments
    it.  A delete is a "hard delete, no cascade": it removes the row and
    no other; what the unit of work does first to the rows that reference
    it is decided by the relationships of [models.py] (see
    [remove_student], [remove_instructor] and [remove_course]). *)
Record Store := {
  users : list User.t;
  students : list Student.t;
  instructors : list Instructor.t;
  courses : list Course.t;
  enrollments : list Enrollment.t;
  user_seq : Z;
  student_seq : Z;
  instructor_seq : Z;
  course_seq : Z;
  enrollment_seq : Z
}.

Definition empty_store : Store :=
  {| users := []; students := []; instructors := []; courses := [];
     enrollments := [];
     user_seq := 1; student_seq := 1; instructor_seq := 1; course_seq := 1;
     enrollment_seq := 1 |}.

(** ** Responses and handlers *)

Definition HTTP_400_BAD_REQUEST : Z := 400.
Definition HTTP_401_UNAUTHORIZED : Z := 401.
Definition HTTP_403_FORBIDDEN : Z := 403.
Definition HTTP_404_NOT_FOUND : Z := 404.

(** What a request ends in: the returned body, a raised [HTTPException],
    the [IntegrityError] of a commit that writes a null into a column
    declared without [Optional], or the [ValueError] of an assignment to an
    attribute that the model of the row does not declare (an unhandled
    exception becomes a 500 and nothing is committed). *)
Inductive Response (A : Type) : Type :=
| Ok (body : A)
| HTTPException (status_code : Z) (detail : string)
| IntegrityError
| ValueError.
Arguments Ok {A} body.
Arguments HTTPException {A} status_code detail.
Arguments IntegrityError {A}.
Arguments ValueError {A}.

Definition Handler (A : Type) : Type := Store -> Response A * Store.

Definition ret {A} (a : A) : Handler A := fun s => (Ok a, s).

Definition bind {A B} (m : Handler A) (k : A -> Handler B) : Handler B :=
  fun s =>
    match m s with
    | (Ok a, s') => k a s'
    | (HTTPException c d, s') => (HTTPException c d, s')
    | (IntegrityError, s') => (IntegrityError, s')
    | (ValueError, s') => (ValueError, s')
    end.

Definition raise {A} (status_code : Z) (detail : string) : Handler A :=
  fun s => (HTTPException status_code detail, s).

(** [session.exec(query)]: a read of the store. *)
Definition exec {A} (query : Store -> A) : Handler A :=
  fun s => (Ok (query s), s).

Definition integrity_error {A} : Handler A :=
  fun s => (IntegrityError, s).

Definition value_error {A} : Handler A :=
  fun s => (ValueError, s).

Declare Scope handler_scope.
Delimit Scope handler_scope with handler.
Notation "x <- m ;; k" := (bind m (fun x => k))
  (at level 61, m at next level, right associativity) : handler_scope.
Local Open Scope handler_scope.

(** ** Writing rows back *)

(** [session.add(row); session.commit()] for a row loaded from the table:
    the row with that primary key is replaced. *)
Fixpoint update_row {A} (key : A -> Z) (row : A) (table : list A) : list A :=
  match table with
  | [] => []
  | r :: rest =>
      if key r =? key row then row :: rest
      else r :: update_row key row rest
  end.

(** [session.delete(row); session.commit()]. *)
Fixpoint delete_row {A} (key : A -> Z) (row : A) (table : list A) : list A :=
  match table with
  | [] => []
  | r :: rest =>
      if key r =? key row then rest
      else r :: delete_row key row rest
  end.

(** [setattr] of an update field on a column that admits no null: [None]
    stands for the row that the commit refuses. *)
Definition set_required {A} (f : Field A) (old : A) : option A :=
  match f with
  | Unset => Some old
  | Provided (Some v) => Some v
  | Provided None => None
  end.

(** [setattr] of an update field on an [Optional] column. *)
Definition set_optional {A} (f : Field A) (old : option A) : option A :=
  match f with
  | Unset => old
  | Provided v => v
  end.

Definition put_users (l : list User.t) (seq : Z) (s : Store) : Store :=
  {| users := l; students := students s; instructors := instructors s;
     courses := courses s; enrollments := enrollments s;
     user_seq := seq; student_seq := student_seq s;
     instructor_seq := instructor_seq s; course_seq := course_seq s;
     enrollment_seq := enrollment_seq s |}.

Definition put_students (l : list Student.t) (seq : Z) (s : Store) : Store :=
  {| users := users s; students := l; instructors := instructors s;
     courses := courses s; enrollments := enrollments s;
     user_seq := user_seq s; student_seq := seq;
     instructor_seq := instructor_seq s; course_seq := course_seq s;
     enrollment_seq := enrollment_seq s |}.

Definition put_instructors (l : list Instructor.t) (seq : Z) (s : Store)
  : Store :=
  {| users := users s; students := students s; instructors := l;
     courses := courses s; enrollments := enrollments s;
     user_seq := user_seq s; student_seq := student_seq s;
     instructor_seq := seq; course_seq := course_seq s;
     enrollment_seq := enrollment_seq s |}.

Definition put_courses (l : list Course.t) (seq : Z) (s : Store) : Store :=
  {| users := users s; students := students s; instructors := instructors s;
     courses := l; enrollments := enrollments s;
     user_seq := user_seq s; student_seq := student_seq s;
     instructor_seq := instructor_seq s; course_seq := seq;
     enrollment_seq := enrollment_seq s |}.

Definition put_enrollments (l : list Enrollment.t) (seq : Z) (s : Store)
  : Store :=
  {| users := users s; students := students s; instructors := instructors s;
     courses := courses s; enrollments := l;
     user_seq := user_seq s; student_seq := student_seq s;
     instructor_seq := instructor_seq s; course_seq := course_seq s;
     enrollment_seq := seq |}.

(** The queries the handlers share. *)
Definition student_by_id (i : Z) (s : Store) : option Student.t :=
  find (fun x => Student.id x =? i) (students s).

Definition instructor_by_id (i : Z) (s : Store) : option Instructor.t :=
  find (fun x => Instructor.id x =? i) (instructors s).

Definition course_by_id (i : Z) (s : Store) : option Course.t :=
  find (fun x => Course.id x =? i) (courses s).

Definition enrollment_by_id (i : Z) (s : Store) : option Enrollment.t :=
  find (fun x => Enrollment.id x =? i) (enrollments s).

Definition user_by_id (i : Z) (s : Store) : option User.t :=
  find (fun x => User.id x =? i) (users s).

(** [select(func.count(Enrollment.id)).where(course_id == c, status ==
    ENROLLED)]. *)
Definition enrolled_in (course_id : Z) (e : Enrollment.t) : bool :=
  (Enrollment.course_id e =? course_id)
  && EnrollmentStatusEnum.eqb (Enrollment.status e)
       EnrollmentStatusEnum.ENROLLED.

Definition enrolled_count (course_id : Z) (s : Store) : Z :=
  Z.of_nat (List.length (filter (enrolled_in course_id) (enrollments s))).

(** [current_user.id == profile.user_id] on a profile that may be absent. *)
Definition owns_student (current_user : User.t) (student : option Student.t)
  : bool :=
  match student with
  | Some st => User.id current_user =? Student.user_id st
  | None => false
  end.

Definition owns_instructor (current_user : User.t)
  (instructor : option Instructor.t) : bool :=
  match instructor with
  | Some i => User.id current_user =? Instructor.user_id i
  | None => false
  end.

Definition is_admin (current_user : User.t) : bool :=
  UserRole.eqb (User.role current_user) UserRole.ADMIN.

(** ** routes/auth.py *)

(** [session.add(db_user); session.commit(); session.refresh(db_user)] for
    a new row: the store assigns the id. *)
Definition insert_user (mk : Z -> User.t) : Handler User.t :=
  fun s =>
    let row := mk (user_seq s) in
    (Ok row, put_users (users s ++ [row]) (user_seq s + 1) s).

Definition register_user (user_data : UserCreate.t) (now : datetime)
  : Handler User.t :=
  existing_user <-
    exec (fun s =>
      find (fun u => (User.email u =? UserCreate.email user_data)%string)
        (users s)) ;;
  match existing_user with
  | Some _ => raise HTTP_400_BAD_REQUEST "Email already registered"
  | None =>
      insert_user (fun i =>
        {| User.id := i;
           User.email := UserCreate.email user_data;
           User.first_name := UserCreate.first_name user_data;
           User.last_name := UserCreate.last_name user_data;
           User.phone := UserCreate.phone user_data;
           User.role := UserCreate.role user_data;
           User.is_active := true;
           User.hashed_password :=
             get_password_hash (UserCreate.password user_data);
           User.created_at := now;
           User.updated_at := None |})
  end.

(** ** routes/students.py *)

Definition insert_student (mk : Z -> Student.t) : Handler Student.t :=
  fun s =>
    let row := mk (student_seq s) in
    (Ok row, put_students (students s ++ [row]) (student_seq s + 1) s).

Definition save_student (row : Student.t) : Handler Student.t :=
  fun s =>
    (Ok row,
     put_students (update_row Student.id row (students s)) (student_seq s) s).

(** [session.delete(student); session.commit()].  [Student.enrollments] is
    a relationship without a delete cascade: the unit of work first sets
    [student_id] to null in the enrollments of the student, a column that
    admits none, and the commit is refused. *)
Definition remove_student (row : Student.t) : Handler unit :=
  fun s =>
    if existsb (fun e => Enrollment.student_id e =? Student.id row)
         (enrollments s)
    then (IntegrityError, s)
    else
      (Ok tt,
       put_students (delete_row Student.id row (students s)) (student_seq s)
         s).

Definition create_student (student_data : StudentCreate.t)
  (current_user : User.t) : Handler Student.t :=
  if negb (is_admin current_user)
     && negb (User.id current_user =? StudentCreate.user_id student_data)
  then raise HTTP_403_FORBIDDEN "Not authorized to create student profile"
  else
    existing_student <-
      exec (fun s =>
        find (fun x =>
                (Student.student_id x
                 =? StudentCreate.student_id student_data)%string)
          (students s)) ;;
    match existing_student with
    | Some _ => raise HTTP_400_BAD_REQUEST "Student ID already exists"
    | None =>
        user <- exec (user_by_id (StudentCreate.user_id student_data)) ;;
        match user with
        | None => raise HTTP_404_NOT_FOUND "User not found"
        | Some user =>
            if negb (UserRole.eqb (User.role user) UserRole.STUDENT)
            then raise HTTP_400_BAD_REQUEST "User must have student role"
            else
              insert_student (fun i =>
                {| Student.id := i;
                   Student.user_id := StudentCreate.user_id student_data;
                   Student.student_id :=
                     StudentCreate.student_id student_data;
                   Student.date_of_birth :=
                     StudentCreate.date_of_birth student_data;
                   Student.gender := StudentCreate.gender student_data;
                   Student.address := StudentCreate.address student_data;
                   Student.emergency_contact :=
                     StudentCreate.emergency_contact student_data;
                   Student.enrollment_date :=
                     StudentCreate.enrollment_date student_data |})
        end
    end.

Definition page {A} (skip limit : Z) (rows : list A) : list A :=
  firstn (Z.to_nat limit) (skipn (Z.to_nat skip) rows).

Definition staff (current_user : User.t) : bool :=
  UserRole.eqb (User.role current_user) UserRole.ADMIN
  || UserRole.eqb (User.role current_user) UserRole.INSTRUCTOR.

Definition get_students (skip limit : Z) (current_user : User.t)
  : Handler (list Student.t) :=
  if negb (staff current_user)
  then raise HTTP_403_FORBIDDEN "Not authorized to view all students"
  else exec (fun s => page skip limit (students s)).

Definition get_student (student_id : Z) (current_user : User.t)
  : Handler Student.t :=
  student <- exec (student_by_id student_id) ;;
  match student with
  | None => raise HTTP_404_NOT_FOUND "Student not found"
  | Some student =>
      if negb (staff current_user)
         && negb (User.id current_user =? Student.user_id student)
      then raise HTTP_403_FORBIDDEN "Not authorized to view this student"
      else ret student
  end.

(** The [setattr] loop of [update_student]; every column of
    [StudentUpdate] is [Optional]. *)
Definition setattr_student (student_update : StudentUpdate.t)
  (student : Student.t) : Student.t :=
  {| Student.id := Student.id student;
     Student.user_id := Student.user_id student;
     Student.student_id := Student.student_id student;
     Student.date_of_birth :=
       set_optional (StudentUpdate.date_of_birth student_update)
         (Student.date_of_birth student);
     Student.gender :=
       set_optional (StudentUpdate.gender student_update)
         (Student.gender student);
     Student.address :=
       set_optional (StudentUpdate.address student_update)
         (Student.address student);
     Student.emergency_contact :=
       set_optional (StudentUpdate.emergency_contact student_update)
         (Student.emergency_contact student);
     Student.enrollment_date := Student.enrollment_date student |}.

Definition update_student (student_id : Z) (student_update : StudentUpdate.t)
  (current_user : User.t) : Handler Student.t :=
  student <- exec (student_by_id student_id) ;;
  match student with
  | None => raise HTTP_404_NOT_FOUND "Student not found"
  | Some student =>
      if negb (is_admin current_user)
         && negb (User.id current_user =? Student.user_id student)
      then raise HTTP_403_FORBIDDEN "Not authorized to update this student"
      else save_student (setattr_student student_update student)
  end.

Definition delete_student (student_id : Z) (current_user : User.t)
  : Handler string :=
  if negb (is_admin current_user)
  then raise HTTP_403_FORBIDDEN "Not authorized to delete students"
  else
    student <- exec (student_by_id student_id) ;;
    match student with
    | None => raise HTTP_404_NOT_FOUND "Student not found"
    | Some student =>
        _ <- remove_student student ;;
        ret "Student deleted successfully"
    end.

Definition get_student_enrollments (student_id : Z) (current_user : User.t)
  : Handler (list Enrollment.t) :=
  student <- exec (student_by_id student_id) ;;
  match student with
  | None => raise HTTP_404_NOT_FOUND "Student not found"
  | Some student =>
      if negb (staff current_user)
         && negb (User.id current_user =? Student.user_id student)
      then raise HTTP_403_FORBIDDEN
             "Not authorized to view student enrollments"
      else
        exec (fun s =>
          filter (fun e => Enrollment.student_id e =? student_id)
            (enrollments s))
  end.

(** ** routes/instructors.py *)

Definition insert_instructor (mk : Z -> Instructor.t) : Handler Instructor.t :=
  fun s =>
    let row := mk (instructor_seq s) in
    (Ok row,
     put_instructors (instructors s ++ [row]) (instructor_seq s + 1) s).

(** A commit that writes back a row loaded from the table, or refuses the
    row when a [setattr] put a null into a column that admits none. *)
Definition save_instructor (row : option Instructor.t)
  : Handler Instructor.t :=
  match row with
  | None => integrity_error
  | Some row =>
      fun s =>
        (Ok row,
         put_instructors (update_row Instructor.id row (instructors s))
           (instructor_seq s) s)
  end.

(** [session.delete(instructor); session.commit()].  [Instructor.courses]
    is a relationship without a delete cascade: [instructor_id] of the
    instructor's courses would become null, and the commit is refused. *)
Definition remove_instructor (row : Instructor.t) : Handler unit :=
  fun s =>
    if existsb (fun c => Course.instructor_id c =? Instructor.id row)
         (courses s)
    then (IntegrityError, s)
    else
      (Ok tt,
       put_instructors (delete_row Instructor.id row (instructors s))
         (instructor_seq s) s).

Definition create_instructor (instructor_data : InstructorCreate.t)
  (current_user : User.t) : Handler Instructor.t :=
  if negb (is_admin current_user)
  then raise HTTP_403_FORBIDDEN "Not authorized to create instructor profile"
  else
    existing_instructor <-
      exec (fun s =>
        find (fun x =>
                (Instructor.employee_id x
                 =? InstructorCreate.employee_id instructor_data)%string)
          (instructors s)) ;;
    match existing_instructor with
    | Some _ => raise HTTP_400_BAD_REQUEST "Employee ID already exists"
    | None =>
        user <- exec (user_by_id (InstructorCreate.user_id instructor_data)) ;;
        match user with
        | None => raise HTTP_404_NOT_FOUND "User not found"
        | Some user =>
            if negb (UserRole.eqb (User.role user) UserRole.INSTRUCTOR)
            then raise HTTP_400_BAD_REQUEST "User must have instructor role"
            else
              insert_instructor (fun i =>
                {| Instructor.id := i;
                   Instructor.user_id :=
                     InstructorCreate.user_id instructor_data;
                   Instructor.employee_id :=
                     InstructorCreate.employee_id instructor_data;
                   Instructor.department :=
                     InstructorCreate.department instructor_data;
                   Instructor.hire_date :=
                     InstructorCreate.hire_date instructor_data;
                   Instructor.salary :=
                     InstructorCreate.salary instructor_data;
                   Instructor.office_location :=
                     InstructorCreate.office_location instructor_data |})
        end
    end.

Definition get_instructors (skip limit : Z) (current_user : User.t)
  : Handler (list Instructor.t) :=
  exec (fun s => page skip limit (instructors s)).

Definition get_instructor (instructor_id : Z) (current_user : User.t)
  : Handler Instructor.t :=
  instructor <- exec (instructor_by_id instructor_id) ;;
  match instructor with
  | None => raise HTTP_404_NOT_FOUND "Instructor not found"
  | Some instructor => ret instructor
  end.

(** The [setattr] loop of [update_instructor]; [department] admits no
    null. *)
Definition setattr_instructor (instructor_update : InstructorUpdate.t)
  (instructor : Instructor.t) : option Instructor.t :=
  match set_required (InstructorUpdate.department instructor_update)
          (Instructor.department instructor) with
  | None => None
  | Some department =>
      Some
        {| Instructor.id := Instructor.id instructor;
           Instructor.user_id := Instructor.user_id instructor;
           Instructor.employee_id := Instructor.employee_id instructor;
           Instructor.department := department;
           Instructor.hire_date := Instructor.hire_date instructor;
           Instructor.salary :=
             set_optional (InstructorUpdate.salary instructor_update)
               (Instructor.salary instructor);
           Instructor.office_location :=
             set_optional (InstructorUpdate.office_location instructor_update)
               (Instructor.office_location instructor) |}
  end.

Definition update_instructor (instructor_id : Z)
  (instructor_update : InstructorUpdate.t) (current_user : User.t)
  : Handler Instructor.t :=
  instructor <- exec (instructor_by_id instructor_id) ;;
  match instructor with
  | None => raise HTTP_404_NOT_FOUND "Instructor not found"
  | Some instructor =>
      if negb (is_admin current_user)
         && negb (User.id current_user =? Instructor.user_id instructor)
      then raise HTTP_403_FORBIDDEN "Not authorized to update this instructor"
      else save_instructor (setattr_instructor instructor_update instructor)
  end.

Definition delete_instructor (instructor_id : Z) (current_user : User.t)
  : Handler string :=
  if negb (is_admin current_user)
  then raise HTTP_403_FORBIDDEN "Not authorized to delete instructors"
  else
    instructor <- exec (instructor_by_id instructor_id) ;;
    match instructor with
    | None => raise HTTP_404_NOT_FOUND "Instructor not found"
    | Some instructor =>
        _ <- remove_instructor instructor ;;
        ret "Instructor deleted successfully"
    end.

Definition get_instructor_courses (instructor_id : Z) (current_user : User.t)
  : Handler (list Course.t) :=
  instructor <- exec (instructor_by_id instructor_id) ;;
  match instructor with
  | None => raise HTTP_404_NOT_FOUND "Instructor not found"
  | Some _ =>
      exec (fun s =>
        filter (fun c => Course.instructor_id c =? instructor_id)
          (courses s))
  end.

(** ** routes/courses.py *)

Definition insert_course (mk : Z -> Course.t) : Handler Course.t :=
  fun s =>
    let row := mk (course_seq s) in
    (Ok row, put_courses (courses s ++ [row]) (course_seq s + 1) s).

Definition save_course (row : option Course.t) : Handler Course.t :=
  match row with
  | None => integrity_error
  | Some row =>
      fun s =>
        (Ok row,
         put_courses (update_row Course.id row (courses s)) (course_seq s) s)
  end.

(** [session.delete(course); session.commit()].  [Course.enrollments] is a
    relationship without a delete cascade: [course_id] of the course's
    enrollments would become null, and the commit is refused. *)
Definition remove_course (row : Course.t) : Handler unit :=
  fun s =>
    if existsb (fun e => Enrollment.course_id e =? Course.id row)
         (enrollments s)
    then (IntegrityError, s)
    else
      (Ok tt,
       put_courses (delete_row Course.id row (courses s)) (course_seq s) s).

Definition create_course (course_data : CourseCreate.t)
  (current_user : User.t) (now : datetime) : Handler Course.t :=
  if negb (is_admin current_user)
  then raise HTTP_403_FORBIDDEN "Not authorized to create courses"
  else
    existing_course <-
      exec (fun s =>
        find (fun c =>
                (Course.course_code c
                 =? CourseCreate.course_code course_data)%string)
          (courses s)) ;;
    match existing_course with
    | Some _ => raise HTTP_400_BAD_REQUEST "Course code already exists"
    | None =>
        instructor <-
          exec (instructor_by_id (CourseCreate.instructor_id course_data)) ;;
        match instructor with
        | None => raise HTTP_404_NOT_FOUND "Instructor not found"
        | Some _ =>
            insert_course (fun i =>
              {| Course.id := i;
                 Course.course_code := CourseCreate.course_code course_data;
                 Course.title := CourseCreate.title course_data;
                 Course.description := CourseCreate.description course_data;
                 Course.credits := CourseCreate.credits course_data;
                 Course.instructor_id :=
                   CourseCreate.instructor_id course_data;
                 Course.max_students := CourseCreate.max_students course_data;
                 Course.status := CourseCreate.status course_data;
                 Course.created_at := now |})
        end
    end.

(** [course.enrolled_count = enrolled_count] on a row of the [Course]
    table.  The table model declares no [enrolled_count] ([CourseRead]
    does), and the assignment to an undeclared field raises [ValueError];
    the pair is what the read would return had the row taken the count. *)
Definition set_enrolled_count (course : Course.t) (enrolled_count : Z)
  : Handler (Course.t * Z) :=
  value_error.

(** [for course in courses: ...], collecting the rows the loop leaves. *)
Fixpoint for_each {A B} (body : A -> Handler B) (rows : list A)
  : Handler (list B) :=
  match rows with
  | [] => ret []
  | row :: rest =>
      x <- body row ;;
      xs <- for_each body rest ;;
      ret (x :: xs)
  end.

Definition get_courses (skip limit : Z) (current_user : User.t)
  : Handler (list (Course.t * Z)) :=
  courses <- exec (fun s => page skip limit (courses s)) ;;
  for_each
    (fun course =>
       count <- exec (enrolled_count (Course.id course)) ;;
       set_enrolled_count course count)
    courses.

Definition get_course (course_id : Z) (current_user : User.t)
  : Handler (Course.t * Z) :=
  course <- exec (course_by_id course_id) ;;
  match course with
  | None => raise HTTP_404_NOT_FOUND "Course not found"
  | Some course =>
      count <- exec (enrolled_count (Course.id course)) ;;
      set_enrolled_count course count
  end.

(** The [setattr] loop of [update_course]; only [description] admits a
    null. *)
Definition setattr_course (course_update : CourseUpdate.t) (course : Course.t)
  : option Course.t :=
  match set_required (CourseUpdate.title course_update) (Course.title course),
        set_required (CourseUpdate.credits course_update)
          (Course.credits course),
        set_required (CourseUpdate.instructor_id course_update)
          (Course.instructor_id course),
        set_required (CourseUpdate.max_students course_update)
          (Course.max_students course),
        set_required (CourseUpdate.status course_update)
          (Course.status course)
  with
  | Some title, Some credits, Some instructor_id, Some max_students,
    Some status =>
      Some
        {| Course.id := Course.id course;
           Course.course_code := Course.course_code course;
           Course.title := title;
           Course.description :=
             set_optional (CourseUpdate.description course_update)
               (Course.description course);
           Course.credits := credits;
           Course.instructor_id := instructor_id;
           Course.max_students := max_students;
           Course.status := status;
           Course.created_at := Course.created_at course |}
  | _, _, _, _, _ => None
  end.

Definition update_course (course_id : Z) (course_update : CourseUpdate.t)
  (current_user : User.t) : Handler Course.t :=
  course <- exec (course_by_id course_id) ;;
  match course with
  | None => raise HTTP_404_NOT_FOUND "Course not found"
  | Some course =>
      instructor <- exec (instructor_by_id (Course.instructor_id course)) ;;
      if negb (is_admin current_user)
         && negb (owns_instructor current_user instructor)
      then raise HTTP_403_FORBIDDEN "Not authorized to update this course"
      else save_course (setattr_course course_update course)
  end.

Definition delete_course (course_id : Z) (current_user : User.t)
  : Handler string :=
  if negb (is_admin current_user)
  then raise HTTP_403_FORBIDDEN "Not authorized to delete courses"
  else
    course <- exec (course_by_id course_id) ;;
    match course with
    | None => raise HTTP_404_NOT_FOUND "Course not found"
    | Some course =>
        _ <- remove_course course ;;
        ret "Course deleted successfully"
    end.

Definition get_course_enrollments (course_id : Z) (current_user : User.t)
  : Handler (list Enrollment.t) :=
  course <- exec (course_by_id course_id) ;;
  match course with
  | None => raise HTTP_404_NOT_FOUND "Course not found"
  | Some course =>
      instructor <- exec (instructor_by_id (Course.instructor_id course)) ;;
      if negb (is_admin current_user)
         && negb (owns_instructor current_user instructor)
      then raise HTTP_403_FORBIDDEN
             "Not authorized to view course enrollments"
      else
        exec (fun s =>
          filter (fun e => Enrollment.course_id e =? course_id)
            (enrollments s))
  end.

(** ** routes/enrollments.py *)

Definition insert_enrollment (mk : Z -> Enrollment.t) : Handler Enrollment.t :=
  fun s =>
    let row := mk (enrollment_seq s) in
    (Ok row,
     put_enrollments (enrollments s ++ [row]) (enrollment_seq s + 1) s).

Definition save_enrollment (row : option Enrollment.t)
  : Handler Enrollment.t :=
  match row with
  | None => integrity_error
  | Some row =>
      fun s =>
        (Ok row,
         put_enrollments (update_row Enrollment.id row (enrollments s))
           (enrollment_seq s) s)
  end.

Definition remove_enrollment (row : Enrollment.t) : Handler unit :=
  fun s =>
    (Ok tt,
     put_enrollments (delete_row Enrollment.id row (enrollments s))
       (enrollment_seq s) s).

(** The enrolled-status row of a (student, course) pair, if any. *)
Definition active_pair (student_id course_id : Z) (e : Enrollment.t) : bool :=
  (Enrollment.student_id e =? student_id)
  && (Enrollment.course_id e =? course_id)
  && EnrollmentStatusEnum.eqb (Enrollment.status e)
       EnrollmentStatusEnum.ENROLLED.

Definition create_enrollment (enrollment_data : EnrollmentCreate.t)
  (current_user : User.t) (now : datetime) : Handler Enrollment.t :=
  student <-
    exec (student_by_id (EnrollmentCreate.student_id enrollment_data)) ;;
  match student with
  | None => raise HTTP_404_NOT_FOUND "Student not found"
  | Some student =>
      course <-
        exec (course_by_id (EnrollmentCreate.course_id enrollment_data)) ;;
      match course with
      | None => raise HTTP_404_NOT_FOUND "Course not found"
      | Some course =>
          instructor <-
            exec (instructor_by_id (Course.instructor_id course)) ;;
          if negb (is_admin current_user)
             && negb (User.id current_user =? Student.user_id student)
             && negb (owns_instructor current_user instructor)
          then raise HTTP_403_FORBIDDEN "Not authorized to create enrollment"
          else
            existing_enrollment <-
              exec (fun s =>
                find (active_pair
                        (EnrollmentCreate.student_id enrollment_data)
                        (EnrollmentCreate.course_id enrollment_data))
                  (enrollments s)) ;;
            match existing_enrollment with
            | Some _ =>
                raise HTTP_400_BAD_REQUEST
                  "Student is already enrolled in this course"
            | None =>
                count <-
                  exec (enrolled_count
                          (EnrollmentCreate.course_id enrollment_data)) ;;
                if Course.max_students course <=? count
                then raise HTTP_400_BAD_REQUEST "Course is full"
                else
                  insert_enrollment (fun i =>
                    {| Enrollment.id := i;
                       Enrollment.student_id :=
                         EnrollmentCreate.student_id enrollment_data;
                       Enrollment.course_id :=
                         EnrollmentCreate.course_id enrollment_data;
                       Enrollment.enrollment_date := now;
                       Enrollment.status := EnrollmentStatusEnum.ENROLLED;
                       Enrollment.grade := None |})
            end
      end
  end.

(** The instructor of the course of an enrollment, [None] when the course or
    the instructor is gone. *)
Definition instructor_of (course : option Course.t) (s : Store)
  : option Instructor.t :=
  match course with
  | Some course => instructor_by_id (Course.instructor_id course) s
  | None => None
  end.

(** [if student_id:] on a query parameter: absent and zero do not filter. *)
Definition matches (param : option Z) (value : Z) : bool :=
  match param with
  | Some p => if p =? 0 then true else value =? p
  | None => true
  end.

Definition can_see (current_user : User.t) (s : Store) (e : Enrollment.t)
  : bool :=
  let student := student_by_id (Enrollment.student_id e) s in
  let course := course_by_id (Enrollment.course_id e) s in
  let instructor := instructor_of course s in
  is_admin current_user
  || owns_student current_user student
  || owns_instructor current_user instructor.

Definition get_enrollments (skip limit : Z) (student_id course_id : option Z)
  (current_user : User.t) : Handler (list Enrollment.t) :=
  exec (fun s =>
    let query :=
      filter (fun e => matches course_id (Enrollment.course_id e))
        (filter (fun e => matches student_id (Enrollment.student_id e))
           (enrollments s)) in
    filter (can_see current_user s) (page skip limit query)).

Definition get_enrollment (enrollment_id : Z) (current_user : User.t)
  : Handler Enrollment.t :=
  enrollment <- exec (enrollment_by_id enrollment_id) ;;
  match enrollment with
  | None => raise HTTP_404_NOT_FOUND "Enrollment not found"
  | Some enrollment =>
      student <- exec (student_by_id (Enrollment.student_id enrollment)) ;;
      course <- exec (course_by_id (Enrollment.course_id enrollment)) ;;
      instructor <- exec (instructor_of course) ;;
      if negb (is_admin current_user)
         && negb (owns_student current_user student)
         && negb (owns_instructor current_user instructor)
      then raise HTTP_403_FORBIDDEN "Not authorized to view this enrollment"
      else ret enrollment
  end.

(** The [setattr] loop of [update_enrollment]; [status] admits no null,
    [grade] does. *)
Definition setattr_enrollment (enrollment_update : EnrollmentUpdate.t)
  (enrollment : Enrollment.t) : option Enrollment.t :=
  match set_required (EnrollmentUpdate.status enrollment_update)
          (Enrollment.status enrollment) with
  | None => None
  | Some status =>
      Some
        {| Enrollment.id := Enrollment.id enrollment;
           Enrollment.student_id := Enrollment.student_id enrollment;
           Enrollment.course_id := Enrollment.course_id enrollment;
           Enrollment.enrollment_date :=
             Enrollment.enrollment_date enrollment;
           Enrollment.status := status;
           Enrollment.grade :=
             set_optional (EnrollmentUpdate.grade enrollment_update)
               (Enrollment.grade enrollment) |}
  end.

(** [enrollment_update.status and enrollment_update.status not in
    [DROPPED]]. *)
Definition not_a_drop (enrollment_update : EnrollmentUpdate.t) : bool :=
  match attr (EnrollmentUpdate.status enrollment_update) with
  | Some status =>
      negb (EnrollmentStatusEnum.eqb status EnrollmentStatusEnum.DROPPED)
  | None => false
  end.

Definition update_enrollment (enrollment_id : Z)
  (enrollment_update : EnrollmentUpdate.t) (current_user : User.t)
  : Handler Enrollment.t :=
  enrollment <- exec (enrollment_by_id enrollment_id) ;;
  match enrollment with
  | None => raise HTTP_404_NOT_FOUND "Enrollment not found"
  | Some enrollment =>
      student <- exec (student_by_id (Enrollment.student_id enrollment)) ;;
      course <- exec (course_by_id (Enrollment.course_id enrollment)) ;;
      instructor <- exec (instructor_of course) ;;
      is_authorized <-
        (if is_admin current_user then ret true
         else if owns_student current_user student then
           if not_a_drop enrollment_update
           then raise HTTP_403_FORBIDDEN "Students can only drop courses"
           else ret true
         else if owns_instructor current_user instructor then ret true
         else ret false) ;;
      if negb is_authorized
      then raise HTTP_403_FORBIDDEN
             "Not authorized to update this enrollment"
      else save_enrollment (setattr_enrollment enrollment_update enrollment)
  end.

Definition delete_enrollment (enrollment_id : Z) (current_user : User.t)
  : Handler string :=
  if negb (is_admin current_user)
  then raise HTTP_403_FORBIDDEN "Not authorized to delete enrollments"
  else
    enrollment <- exec (enrollment_by_id enrollment_id) ;;
    match enrollment with
    | None => raise HTTP_404_NOT_FOUND "Enrollment not found"
    | Some enrollment =>
        _ <- remove_enrollment enrollment ;;
        ret "Enrollment deleted successfully"
    end.

(** ** models.py: response models of the instructor routes *)

Module UserRead.
Record t := {
  id : Z;
  email : string;
  first_name : string;
  last_name : string;
  phone : option string;
  role : UserRole.t;
  is_active : bool;
  created_at : datetime
}.
End UserRead.

Module InstructorRead.
Record t := {
  id : Z;
  user_id : Z;
  employee_id : string;
  department : string;
  hire_date : datetime;
  salary : option float;
  office_location : option string;
  user : option UserRead.t
}.
End InstructorRead.

Definition to_UserRead (u : User.t) : UserRead.t :=
  {| UserRead.id := User.id u;
     UserRead.email := User.email u;
     UserRead.first_name := User.first_name u;
     UserRead.last_name := User.last_name u;
     UserRead.phone := User.phone u;
     UserRead.role := User.role u;
     UserRead.is_active := User.is_active u;
     UserRead.created_at := User.created_at u |}.

(** [InstructorRead] read from a row: the row's columns and the [user]
    relationship. *)
Definition to_InstructorRead (s : Store) (i : Instructor.t)
  : InstructorRead.t :=
  {| InstructorRead.id := Instructor.id i;
     InstructorRead.user_id := Instructor.user_id i;
     InstructorRead.employee_id := Instructor.employee_id i;
     InstructorRead.department := Instructor.department i;
     InstructorRead.hire_date := Instructor.hire_date i;
     InstructorRead.salary := Instructor.salary i;
     InstructorRead.office_location := Instructor.office_location i;
     InstructorRead.user :=
       option_map to_UserRead (user_by_id (Instructor.user_id i) s) |}.

(** ** The API: requests, authentication, dispatch *)

Inductive Request :=
| RegisterUser (user_data : UserCreate.t)
| CreateStudent (student_data : StudentCreate.t)
| GetStudents (skip limit : Z)
| GetStudent (student_id : Z)
| UpdateStudent (student_id : Z) (student_update : StudentUpdate.t)
| DeleteStudent (student_id : Z)
| GetStudentEnrollments (student_id : Z)
| CreateInstructor (instructor_data : InstructorCreate.t)
| GetInstructors (skip limit : Z)
| GetInstructor (instructor_id : Z)
| UpdateInstructor (instructor_id : Z) (instructor_update : InstructorUpdate.t)
| DeleteInstructor (instructor_id : Z)
| GetInstructorCourses (instructor_id : Z)
| CreateCourse (course_data : CourseCreate.t)
| GetCourses (skip limit : Z)
| GetCourse (course_id : Z)
| UpdateCourse (course_id : Z) (course_update : CourseUpdate.t)
| DeleteCourse (course_id : Z)
| GetCourseEnrollments (course_id : Z)
| CreateEnrollment (enrollment_data : EnrollmentCreate.t)
| GetEnrollments (skip limit : Z) (student_id course_id : option Z)
| GetEnrollment (enrollment_id : Z)
| UpdateEnrollment (enrollment_id : Z) (enrollment_update : EnrollmentUpdate.t)
| DeleteEnrollment (enrollment_id : Z).

Inductive Body :=
| AUser (u : User.t)
| AStudent (x : Student.t)
| Students (l : list Student.t)
| AnInstructor (i : InstructorRead.t)
| Instructors (l : list InstructorRead.t)
| ACourse (c : Course.t)
| ACourseRead (c : Course.t * Z)
| CourseReads (l : list (Course.t * Z))
| Courses (l : list Course.t)
| AnEnrollment (e : Enrollment.t)
| Enrollments (l : list Enrollment.t)
| Message (m : string).

Definition returning {A} (wrap : A -> Body) (h : Handler A) : Handler Body :=
  x <- h ;; ret (wrap x).

(** [response_model=InstructorRead] and [List[InstructorRead]] on the
    instructor routes: what the handler returns is read into the response
    model, in the store the handler left.  (The bodies of the other routes
    carry the rows as the handlers return them.) *)
Definition responding {A B} (response_model : Store -> A -> B)
  (wrap : B -> Body) (h : Handler A) : Handler Body :=
  x <- h ;; exec (fun s => wrap (response_model s x)).

(** Modelled from the spec: [get_current_active_user] of [app/auth.py],
    which is not part of the sources.  "All protected endpoints require a
    bearer identity token resolved by the Credential Service to an active
    User principal; an inactive or unresolvable token yields 401."  A token
    is rendered by the email it was issued for ([login_user] puts
    [user.email] in its subject). *)
Definition get_current_active_user (token : string) : Handler User.t :=
  user <-
    exec (fun s => find (fun u => (User.email u =? token)%string) (users s)) ;;
  match user with
  | None => raise HTTP_401_UNAUTHORIZED "Could not validate credentials"
  | Some user =>
      if User.is_active user then ret user
      else raise HTTP_401_UNAUTHORIZED "Inactive user"
  end.

(** The handler behind each protected route. *)
Definition route (r : Request) (current_user : User.t) (now : datetime)
  : Handler Body :=
  match r with
  | RegisterUser d => returning AUser (register_user d now)
  | CreateStudent d => returning AStudent (create_student d current_user)
  | GetStudents skip limit =>
      returning Students (get_students skip limit current_user)
  | GetStudent i => returning AStudent (get_student i current_user)
  | UpdateStudent i d => returning AStudent (update_student i d current_user)
  | DeleteStudent i => returning Message (delete_student i current_user)
  | GetStudentEnrollments i =>
      returning Enrollments (get_student_enrollments i current_user)
  | CreateInstructor d =>
      responding to_InstructorRead AnInstructor
        (create_instructor d current_user)
  | GetInstructors skip limit =>
      responding (fun s => map (to_InstructorRead s)) Instructors
        (get_instructors skip limit current_user)
  | GetInstructor i =>
      responding to_InstructorRead AnInstructor
        (get_instructor i current_user)
  | UpdateInstructor i d =>
      responding to_InstructorRead AnInstructor
        (update_instructor i d current_user)
  | DeleteInstructor i => returning Message (delete_instructor i current_user)
  | GetInstructorCourses i =>
      returning Courses (get_instructor_courses i current_user)
  | CreateCourse d => returning ACourse (create_course d current_user now)
  | GetCourses skip limit =>
      returning CourseReads (get_courses skip limit current_user)
  | GetCourse i => returning ACourseRead (get_course i current_user)
  | UpdateCourse i d => returning ACourse (update_course i d current_user)
  | DeleteCourse i => returning Message (delete_course i current_user)
  | GetCourseEnrollments i =>
      returning Enrollments (get_course_enrollments i current_user)
  | CreateEnrollment d =>
      returning AnEnrollment (create_enrollment d current_user now)
  | GetEnrollments skip limit sid cid =>
      returning Enrollments (get_enrollments skip limit sid cid current_user)
  | GetEnrollment i => returning AnEnrollment (get_enrollment i current_user)
  | UpdateEnrollment i d =>
      returning AnEnrollment (update_enrollment i d current_user)
  | DeleteEnrollment i => returning Message (delete_enrollment i current_user)
  end.

(** One call of the API: who calls, when, and what for. *)
Record Call := {
  token : string;
  now : datetime;
  request : Request
}.

(** Registration is open; every other route first resolves the caller. *)
Definition serve (c : Call) : Handler Body :=
  match request c with
  | RegisterUser d => returning AUser (register_user d (now c))
  | r =>
      current_user <- get_current_active_user (token c) ;;
      route r current_user (now c)
  end.

(** Sequential execution of calls, each on the store the previous one
    left. *)
Definition run (calls : list Call) (s : Store) : Store :=
  fold_left (fun s c => snd (serve c s)) calls s.

(** ** Predicates of the claims *)

Definition is_error {A} (r : Response A) : bool :=
  match r with
  | Ok _ => false
  | _ => true
  end.

(** The number of enrolled-status rows of a (student, course) pair. *)
Definition active_count (student_id course_id : Z) (s : Store) : nat :=
  List.length (filter (active_pair student_id course_id) (enrollments s)).

(** Every course holds at most [max_students] enrolled-status rows. *)
Definition within_capacity (s : Store) : Prop :=
  forall c, In c (courses s) ->
    enrolled_count (Course.id c) s <= Course.max_students c.

(** Every (student, course) pair has at most one enrolled-status row. *)
Definition one_active_per_pair (s : Store) : Prop :=
  forall student_id course_id, (active_count student_id course_id s <= 1)%nat.

(** ** More predicates of the claims *)


(** What a partial update does to one column: an unset field keeps the old
    value, a provided one takes the value of the request. *)
Definition assigned {A} (f : Field A) (old new : option A) : Prop :=
  match f with
  | Unset => new = old
  | Provided v => new = v
  end.

(** The authorization test of [create_enrollment]. *)
Definition may_enroll (current_user : User.t) (student : Student.t)
  (course : Course.t) (s : Store) : bool :=
  is_admin current_user
  || (User.id current_user =? Student.user_id student)
  || owns_instructor current_user
       (instructor_by_id (Course.instructor_id course) s).

(** The authorization test of [create_student]. *)
Definition may_create_student (current_user : User.t)
  (student_data : StudentCreate.t) : bool :=
  is_admin current_user
  || (User.id current_user =? StudentCreate.user_id student_data).



(** The call succeeds on the store it is made on. *)
Definition succeeds (c : Call) (s : Store) : bool :=
  negb (is_error (fst (serve c s))).

(** The row that an enrollment update sets back to enrolled: the request
    sets the status to enrolled and the stored row has another status. *)
Definition readmitted (enrollment_id : Z)
  (enrollment_update : EnrollmentUpdate.t) (s : Store)
  : option Enrollment.t :=
  match EnrollmentUpdate.status enrollment_update,
        enrollment_by_id enrollment_id s with
  | Provided (Some EnrollmentStatusEnum.ENROLLED), Some e =>
      if EnrollmentStatusEnum.eqb (Enrollment.status e)
           EnrollmentStatusEnum.ENROLLED
      then None
      else Some e
  | _, _ => None
  end.

(** The requests that, once committed on the store [s], leave a course
    over its capacity: the creation of a course with a negative capacity,
    a course update that sets [max_students] below the enrolled-status
    count of the course, an enrollment update that sets a row back to
    enrolled in a stored course without a free seat. *)
Definition overfilling (r : Request) (s : Store) : bool :=
  match r with
  | CreateCourse d => CourseCreate.max_students d <? 0
  | UpdateCourse i d =>
      match CourseUpdate.max_students d with
      | Provided (Some max_students) => max_students <? enrolled_count i s
      | _ => false
      end
  | UpdateEnrollment i d =>
      match readmitted i d s with
      | Some e =>
          match course_by_id (Enrollment.course_id e) s with
          | Some course =>
              Course.max_students course
              <=? enrolled_count (Enrollment.course_id e) s
          | None => false
          end
      | None => false
      end
  | _ => false
  end.

(** The requests that, once committed on the store [s], leave a pair with
    two enrolled-status rows: an enrollment update that sets a row back to
    enrolled while its pair has an enrolled-status row. *)
Definition duplicating (r : Request) (s : Store) : bool :=
  match r with
  | UpdateEnrollment i d =>
      match readmitted i d s with
      | Some e =>
          existsb
            (active_pair (Enrollment.student_id e) (Enrollment.course_id e))
            (enrollments s)
      | None => false
      end
  | _ => false
  end.

(** The calls that break the capacity bound, and those that break the
    uniqueness of the enrolled row: the call succeeds and commits such a
    request. *)
Definition overfills (c : Call) (s : Store) : bool :=
  succeeds c s && overfilling (request c) s.

Definition duplicates (c : Call) (s : Store) : bool :=
  succeeds c s && duplicating (request c) s.

(** No call of the trace is [bad] on the store it is made on. *)
Fixpoint never (bad : Call -> Store -> bool) (calls : list Call) (s : Store)
  : bool :=
  match calls with
  | [] => true
  | c :: rest => negb (bad c s) && never bad rest (snd (serve c s))
  end.

(** ** A campus for the examples *)

Module Campus.

Definition person (email : string) (role : UserRole.t) : UserCreate.t :=
  {| UserCreate.email := email;
     UserCreate.first_name := "First";
     UserCreate.last_name := "Last";
     UserCreate.phone := None;
     UserCreate.role := role;
     UserCreate.is_active := true;
     UserCreate.password := "secret" |}.

Definition call (who : string) (r : Request) : Call :=
  {| token := who; now := 1700000000; request := r |}.

Definition admin := "admin@university.edu".
Definition smith := "john.smith@university.edu".
Definition alice := "alice@university.edu".
Definition bob := "bob@university.edu".

Definition profile (user_id : Z) (student_id : string) : StudentCreate.t :=
  {| StudentCreate.user_id := user_id;
     StudentCreate.student_id := student_id;
     StudentCreate.date_of_birth := None;
     StudentCreate.gender := None;
     StudentCreate.address := None;
     StudentCreate.emergency_contact := None;
     StudentCreate.enrollment_date := 1700000000 |}.

Definition smith_profile : InstructorCreate.t :=
  {| InstructorCreate.user_id := 2;
     InstructorCreate.employee_id := "EMP001";
     InstructorCreate.department := "Computer Science";
     InstructorCreate.hire_date := 1700000000;
     InstructorCreate.salary := Some 75000%float;
     InstructorCreate.office_location := None |}.

Definition cs101 (max_students : Z) : CourseCreate.t :=
  {| CourseCreate.course_code := "CS101";
     CourseCreate.title := "Introduction to Programming";
     CourseCreate.description := None;
     CourseCreate.credits := 3;
     CourseCreate.instructor_id := 1;
     CourseCreate.max_students := max_students;
     CourseCreate.status := CourseStatusEnum.ACTIVE |}.

Definition seat (student_id course_id : Z) : EnrollmentCreate.t :=
  {| EnrollmentCreate.student_id := student_id;
     EnrollmentCreate.course_id := course_id |}.

Definition set_status (st : EnrollmentStatusEnum.t) : EnrollmentUpdate.t :=
  {| EnrollmentUpdate.status := Provided (Some st);
     EnrollmentUpdate.grade := Unset |}.

Definition set_grade (g : string) : EnrollmentUpdate.t :=
  {| EnrollmentUpdate.status := Unset;
     EnrollmentUpdate.grade := Provided (Some g) |}.

Definition set_max_students (n : Z) : CourseUpdate.t :=
  {| CourseUpdate.title := Unset;
     CourseUpdate.description := Unset;
     CourseUpdate.credits := Unset;
     CourseUpdate.instructor_id := Unset;
     CourseUpdate.max_students := Provided (Some n);
     CourseUpdate.status := Unset |}.

(** Users 1 to 4 (admin, Smith, Alice, Bob), instructor 1 (Smith), course 1
    (CS101 with one seat), students 1 and 2 (Alice and Bob). *)
Definition opening : list Call :=
  [ call EmptyString (RegisterUser (person admin UserRole.ADMIN));
    call EmptyString (RegisterUser (person smith UserRole.INSTRUCTOR));
    call EmptyString (RegisterUser (person alice UserRole.STUDENT));
    call EmptyString (RegisterUser (person bob UserRole.STUDENT));
    call admin (CreateInstructor smith_profile);
    call admin (CreateCourse (cs101 1));
    call alice (CreateStudent (profile 3 "S001"));
    call bob (CreateStudent (profile 4 "S002")) ].

(** Alice takes the only seat of CS101. *)
Definition alice_enrolled : list Call :=
  opening ++ [ call alice (CreateEnrollment (seat 1 1)) ].

(** Alice enrolls, drops, enrolls again, and the instructor sets her first
    enrollment back to enrolled. *)
Definition reactivation : list Call :=
  alice_enrolled
  ++ [ call alice
         (UpdateEnrollment 1 (set_status EnrollmentStatusEnum.DROPPED));
       call alice (CreateEnrollment (seat 1 1));
       call smith
         (UpdateEnrollment 1 (set_status EnrollmentStatusEnum.ENROLLED)) ].

(** Alice enrolls, drops and enrolls again. *)
Definition reenrolled : list Call :=
  alice_enrolled
  ++ [ call alice
         (UpdateEnrollment 1 (set_status EnrollmentStatusEnum.DROPPED));
       call alice (CreateEnrollment (seat 1 1)) ].

(** The rows of the registered users, as the routes receive them. *)
Definition user (i : Z) (email : string) (role : UserRole.t) : User.t :=
  {| User.id := i;
     User.email := email;
     User.first_name := "First";
     User.last_name := "Last";
     User.phone := None;
     User.role := role;
     User.is_active := true;
     User.hashed_password := get_password_hash "secret";
     User.created_at := 1700000000;
     User.updated_at := None |}.

Definition admin_user : User.t := user 1 admin UserRole.ADMIN.
Definition smith_user : User.t := user 2 smith UserRole.INSTRUCTOR.
Definition alice_user : User.t := user 3 alice UserRole.STUDENT.
Definition bob_user : User.t := user 4 bob UserRole.STUDENT.

(** After Alice enrolled, dropped and enrolled again: Alice is refused an
    update of the capacity, the administrator raises the capacity to 50,
    Alice drops her second enrollment, Smith sets her first enrollment back
    to enrolled, and does so once more. *)
Definition term : list Call :=
  reenrolled
  ++ [ call alice (UpdateCourse 1 (set_max_students 0));
       call admin (UpdateCourse 1 (set_max_students 50));
       call alice
         (UpdateEnrollment 2 (set_status EnrollmentStatusEnum.DROPPED));
       call smith
         (UpdateEnrollment 1 (set_status EnrollmentStatusEnum.ENROLLED));
       call smith
         (UpdateEnrollment 1 (set_status EnrollmentStatusEnum.ENROLLED)) ].

(** Alice enrolls and the administrator then lowers the capacity to zero. *)
Definition lowered_capacity : list Call :=
  alice_enrolled ++ [ call admin (UpdateCourse 1 (set_max_students 0)) ].

End Campus.

(** ** What a call does to the course and enrollment tables *)

(** The effect of a request on the two tables the capacity and uniqueness
    rules read: none, or one row of one table inserted, replaced or
    removed, with the checks that let it through. *)
Inductive Effect (s s' : Store) : Request -> Prop :=
| Untouched r :
    courses s' = courses s ->
    enrollments s' = enrollments s ->
    course_seq s' = course_seq s ->
    Effect s s' r
| CourseCreated d c :
    Course.id c = course_seq s ->
    Course.max_students c = CourseCreate.max_students d ->
    courses s' = courses s ++ [c] ->
    course_seq s' = course_seq s + 1 ->
    enrollments s' = enrollments s ->
    Effect s s' (CreateCourse d)
| CourseUpdated i d c c' :
    course_by_id i s = Some c ->
    setattr_course d c = Some c' ->
    courses s' = update_row Course.id c' (courses s) ->
    course_seq s' = course_seq s ->
    enrollments s' = enrollments s ->
    Effect s s' (UpdateCourse i d)
| CourseDeleted i c :
    course_by_id i s = Some c ->
    courses s' = delete_row Course.id c (courses s) ->
    course_seq s' = course_seq s ->
    enrollments s' = enrollments s ->
    Effect s s' (DeleteCourse i)
| EnrollmentCreated d c e :
    course_by_id (EnrollmentCreate.course_id d) s = Some c ->
    find (active_pair (EnrollmentCreate.student_id d)
            (EnrollmentCreate.course_id d)) (enrollments s) = None ->
    enrolled_count (EnrollmentCreate.course_id d) s < Course.max_students c ->
    Enrollment.student_id e = EnrollmentCreate.student_id d ->
    Enrollment.course_id e = EnrollmentCreate.course_id d ->
    Enrollment.status e = EnrollmentStatusEnum.ENROLLED ->
    enrollments s' = enrollments s ++ [e] ->
    courses s' = courses s ->
    course_seq s' = course_seq s ->
    Effect s s' (CreateEnrollment d)
| EnrollmentUpdated i d e e' :
    enrollment_by_id i s = Some e ->
    setattr_enrollment d e = Some e' ->
    enrollments s' = update_row Enrollment.id e' (enrollments s) ->
    courses s' = courses s ->
    course_seq s' = course_seq s ->
    Effect s s' (UpdateEnrollment i d)
| EnrollmentDeleted i e :
    enrollment_by_id i s = Some e ->
    enrollments s' = delete_row Enrollment.id e (enrollments s) ->
    courses s' = courses s ->
    course_seq s' = course_seq s ->
    Effect s s' (DeleteEnrollment i).

(** The invariant behind the capacity bound: course ids are below the
    counter and distinct, enrollments reference allocated course ids only,
    and no course is over its capacity. *)
Record capacity_invariant (s : Store) : Prop := {
  enrollments_allocated :
    forall e, In e (enrollments s) -> Enrollment.course_id e < course_seq s;
  courses_allocated :
    forall c, In c (courses s) -> Course.id c < course_seq s;
  course_ids_distinct : NoDup (map Course.id (courses s));
  capacity_respected : within_capacity s
}.

(** ** The order of the checks, request by request *)

Definition absent {A} (row : option A) : bool :=
  match row with
  | Some _ => false
  | None => true
  end.


(** The natural key of a creation request is the key of a stored row. *)
Definition natural_key_taken (r : Request) (s : Store) : bool :=
  match r with
  | RegisterUser d =>
      existsb (fun u => (User.email u =? UserCreate.email d)%string) (users s)
  | CreateStudent d =>
      existsb
        (fun x => (Student.student_id x =? StudentCreate.student_id d)%string)
        (students s)
  | CreateInstructor d =>
      existsb
        (fun x =>
           (Instructor.employee_id x =? InstructorCreate.employee_id d)%string)
        (instructors s)
  | CreateCourse d =>
      existsb
        (fun c => (Course.course_code c =? CourseCreate.course_code d)%string)
        (courses s)
  | _ => false
  end.

(** The role test that opens the creation and delete routes: registration
    is open, a student profile is created by an admin or by its own user,
    the other creations and every delete are for admins. *)
Definition passes_role_gate (r : Request) (current_user : User.t) : bool :=
  match r with
  | CreateStudent d => may_create_student current_user d
  | CreateInstructor _ | CreateCourse _
  | DeleteStudent _ | DeleteInstructor _ | DeleteCourse _
  | DeleteEnrollment _ => is_admin current_user
  | _ => true
  end.

(** The referenced user of a profile creation has another role than the
    profile asks for. *)
Definition role_mismatch (r : Request) (s : Store) : bool :=
  match r with
  | CreateStudent d =>
      match user_by_id (StudentCreate.user_id d) s with
      | Some user => negb (UserRole.eqb (User.role user) UserRole.STUDENT)
      | None => false
      end
  | CreateInstructor d =>
      match user_by_id (InstructorCreate.user_id d) s with
      | Some user => negb (UserRole.eqb (User.role user) UserRole.INSTRUCTOR)
      | None => false
      end
  | _ => false
  end.

(** The [detail] strings of the creation routes. *)
Definition forbidden_detail (r : Request) : string :=
  match r with
  | CreateStudent _ => "Not authorized to create student profile"
  | CreateInstructor _ => "Not authorized to create instructor profile"
  | CreateCourse _ => "Not authorized to create courses"
  | _ => EmptyString
  end.

Definition conflict_detail (r : Request) : string :=
  match r with
  | RegisterUser _ => "Email already registered"
  | CreateStudent _ => "Student ID already exists"
  | CreateInstructor _ => "Employee ID already exists"
  | CreateCourse _ => "Course code already exists"
  | _ => EmptyString
  end.

Definition role_detail (r : Request) : string :=
  match r with
  | CreateStudent _ => "User must have student role"
  | CreateInstructor _ => "User must have instructor role"
  | _ => EmptyString
  end.

Definition status_of {A} (r : Response A) : option Z :=
  match r with
  | Ok _ => None
  | HTTPException code _ => Some code
  | IntegrityError => Some 500
  | ValueError => Some 500
  end.

(** ** Partial updates, column by column *)

(** [x'] is [x] after the partial update [d]: the columns the request
    cannot name are those of [x], every other column is [assigned]. *)
Definition student_updated (d : StudentUpdate.t) (x x' : Student.t) : Prop :=
  Student.id x' = Student.id x
  /\ Student.user_id x' = Student.user_id x
  /\ Student.student_id x' = Student.student_id x
  /\ Student.enrollment_date x' = Student.enrollment_date x
  /\ assigned (StudentUpdate.date_of_birth d) (Student.date_of_birth x)
       (Student.date_of_birth x')
  /\ assigned (StudentUpdate.gender d) (Student.gender x) (Student.gender x')
  /\ assigned (StudentUpdate.address d) (Student.address x)
       (Student.address x')
  /\ assigned (StudentUpdate.emergency_contact d)
       (Student.emergency_contact x) (Student.emergency_contact x').

Definition instructor_updated (d : InstructorUpdate.t)
  (i i' : Instructor.t) : Prop :=
  Instructor.id i' = Instructor.id i
  /\ Instructor.user_id i' = Instructor.user_id i
  /\ Instructor.employee_id i' = Instructor.employee_id i
  /\ Instructor.hire_date i' = Instructor.hire_date i
  /\ assigned (InstructorUpdate.department d) (Some (Instructor.department i))
       (Some (Instructor.department i'))
  /\ assigned (InstructorUpdate.salary d) (Instructor.salary i)
       (Instructor.salary i')
  /\ assigned (InstructorUpdate.office_location d)
       (Instructor.office_location i) (Instructor.office_location i').

Definition course_updated (d : CourseUpdate.t) (c c' : Course.t) : Prop :=
  Course.id c' = Course.id c
  /\ Course.course_code c' = Course.course_code c
  /\ Course.created_at c' = Course.created_at c
  /\ assigned (CourseUpdate.title d) (Some (Course.title c))
       (Some (Course.title c'))
  /\ assigned (CourseUpdate.description d) (Course.description c)
       (Course.description c')
  /\ assigned (CourseUpdate.credits d) (Some (Course.credits c))
       (Some (Course.credits c'))
  /\ assigned (CourseUpdate.instructor_id d) (Some (Course.instructor_id c))
       (Some (Course.instructor_id c'))
  /\ assigned (CourseUpdate.max_students d) (Some (Course.max_students c))
       (Some (Course.max_students c'))
  /\ assigned (CourseUpdate.status d) (Some (Course.status c))
       (Some (Course.status c')).

Definition enrollment_updated (d : EnrollmentUpdate.t)
  (e e' : Enrollment.t) : Prop :=
  Enrollment.id e' = Enrollment.id e
  /\ Enrollment.student_id e' = Enrollment.student_id e
  /\ Enrollment.course_id e' = Enrollment.course_id e
  /\ Enrollment.enrollment_date e' = Enrollment.enrollment_date e
  /\ assigned (EnrollmentUpdate.status d) (Some (Enrollment.status e))
       (Some (Enrollment.status e'))
  /\ assigned (EnrollmentUpdate.grade d) (Enrollment.grade e)
       (Enrollment.grade e').

(** An outcome that is all or nothing: a returned row for which [applied]
    holds in the new store, or an error and the store as it was. *)
Definition all_or_none {A} (s : Store) (applied : A -> Store -> Prop)
  (outcome : Response A * Store) : Prop :=
  match outcome with
  | (Ok row, s') => applied row s'
  | (_, s') => s' = s
  end.

(** ** What a call writes, table by table *)

(** Every write a route can commit: nothing, or one row of one table
    inserted, replaced or removed, with the facts the handler checked
    before it and, for a removed row, the absence of rows that reference
    it. *)
Inductive Written (s : Store) : Store -> Prop :=
| NothingWritten : Written s s
| UserInserted u :
    find (fun x => (User.email x =? User.email u)%string) (users s) = None ->
    User.id u = user_seq s ->
    User.is_active u = true ->
    Written s (put_users (users s ++ [u]) (user_seq s + 1) s)
| StudentInserted x user :
    find (fun y => (Student.student_id y =? Student.student_id x)%string)
      (students s) = None ->
    user_by_id (Student.user_id x) s = Some user ->
    User.role user = UserRole.STUDENT ->
    Student.id x = student_seq s ->
    Written s (put_students (students s ++ [x]) (student_seq s + 1) s)
| StudentSaved i x d :
    student_by_id i s = Some x ->
    Written s
      (put_students (update_row Student.id (setattr_student d x) (students s))
         (student_seq s) s)
| StudentRemoved i x :
    student_by_id i s = Some x ->
    existsb (fun e => Enrollment.student_id e =? Student.id x)
      (enrollments s) = false ->
    Written s
      (put_students (delete_row Student.id x (students s)) (student_seq s) s)
| InstructorInserted x user :
    find
      (fun y => (Instructor.employee_id y =? Instructor.employee_id x)%string)
      (instructors s) = None ->
    user_by_id (Instructor.user_id x) s = Some user ->
    User.role user = UserRole.INSTRUCTOR ->
    Instructor.id x = instructor_seq s ->
    Written s
      (put_instructors (instructors s ++ [x]) (instructor_seq s + 1) s)
| InstructorSaved i x d x' :
    instructor_by_id i s = Some x ->
    setattr_instructor d x = Some x' ->
    Written s
      (put_instructors (update_row Instructor.id x' (instructors s))
         (instructor_seq s) s)
| InstructorRemoved i x :
    instructor_by_id i s = Some x ->
    existsb (fun c => Course.instructor_id c =? Instructor.id x)
      (courses s) = false ->
    Written s
      (put_instructors (delete_row Instructor.id x (instructors s))
         (instructor_seq s) s)
| CourseInserted c instructor :
    find (fun y => (Course.course_code y =? Course.course_code c)%string)
      (courses s) = None ->
    instructor_by_id (Course.instructor_id c) s = Some instructor ->
    Course.id c = course_seq s ->
    Written s (put_courses (courses s ++ [c]) (course_seq s + 1) s)
| CourseSaved i c d c' :
    course_by_id i s = Some c ->
    setattr_course d c = Some c' ->
    Written s
      (put_courses (update_row Course.id c' (courses s)) (course_seq s) s)
| CourseRemoved i c :
    course_by_id i s = Some c ->
    existsb (fun e => Enrollment.course_id e =? Course.id c)
      (enrollments s) = false ->
    Written s
      (put_courses (delete_row Course.id c (courses s)) (course_seq s) s)
| EnrollmentInserted e student course :
    student_by_id (Enrollment.student_id e) s = Some student ->
    course_by_id (Enrollment.course_id e) s = Some course ->
    Enrollment.id e = enrollment_seq s ->
    Written s
      (put_enrollments (enrollments s ++ [e]) (enrollment_seq s + 1) s)
| EnrollmentSaved i e d e' :
    enrollment_by_id i s = Some e ->
    setattr_enrollment d e = Some e' ->
    Written s
      (put_enrollments (update_row Enrollment.id e' (enrollments s))
         (enrollment_seq s) s)
| EnrollmentRemoved i e :
    enrollment_by_id i s = Some e ->
    Written s
      (put_enrollments (delete_row Enrollment.id e (enrollments s))
         (enrollment_seq s) s).

(** The ids of a table are below its counter and pairwise distinct. *)
Definition table_ok {A} (key : A -> Z) (rows : list A) (seq : Z) : Prop :=
  (forall r, In r rows -> key r < seq) /\ NoDup (map key rows).

(** The state the routes keep the store in: primary keys allocated and
    distinct, natural keys distinct, every profile on a user of its role,
    every user active, every enrollment on a student id and a course id that
    were allocated. *)
Record consistent (s : Store) : Prop := {
  users_ok : table_ok User.id (users s) (user_seq s);
  students_ok : table_ok Student.id (students s) (student_seq s);
  instructors_ok : table_ok Instructor.id (instructors s) (instructor_seq s);
  courses_ok : table_ok Course.id (courses s) (course_seq s);
  enrollments_ok : table_ok Enrollment.id (enrollments s) (enrollment_seq s);
  emails_distinct : NoDup (map User.email (users s));
  student_ids_distinct : NoDup (map Student.student_id (students s));
  employee_ids_distinct : NoDup (map Instructor.employee_id (instructors s));
  course_codes_distinct : NoDup (map Course.course_code (courses s));
  students_on_student_users :
    forall x, In x (students s) ->
      exists user,
        In user (users s) /\ User.id user = Student.user_id x
        /\ User.role user = UserRole.STUDENT;
  instructors_on_instructor_users :
    forall x, In x (instructors s) ->
      exists user,
        In user (users s) /\ User.id user = Instructor.user_id x
        /\ User.role user = UserRole.INSTRUCTOR;
  users_active : forall u, In u (users s) -> User.is_active u = true;
  enrollments_refer_to_allocated :
    forall e, In e (enrollments s) ->
      Enrollment.student_id e < student_seq s
      /\ Enrollment.course_id e < course_seq s
}.

(** Every enrollment names a stored student and a stored course. *)
Definition enrollments_refer_to_stored (s : Store) : Prop :=
  forall e, In e (enrollments s) ->
    (exists student,
       student_by_id (Enrollment.student_id e) s = Some student)
    /\ (exists course,
          course_by_id (Enrollment.course_id e) s = Some course).

(** The routes that only read. *)
Definition is_read (r : Request) : bool :=
  match r with
  | GetStudents _ _ | GetStudent _ | GetStudentEnrollments _
  | GetInstructors _ _ | GetInstructor _ | GetInstructorCourses _
  | GetCourses _ _ | GetCourse _ | GetCourseEnrollments _
  | GetEnrollments _ _ _ _ | GetEnrollment _ => true
  | _ => false
  end.

(** ** init_db.py *)

(** [datetime(year, month, day)] as a time stamp: the seconds from the
    epoch to midnight of that day of the Gregorian calendar. *)
Definition days_from_civil (year month day : Z) : Z :=
  let y := if month <=? 2 then year - 1 else year in
  let era := y / 400 in
  let yoe := y - era * 400 in
  let mp := if 2 <? month then month - 3 else month + 9 in
  let doy := (153 * mp + 2) / 5 + day - 1 in
  let doe := yoe * 365 + yoe / 4 - yoe / 100 + doy in
  era * 146097 + doe - 719468.

Definition datetime_ymd (year month day : Z) : datetime :=
  86400 * days_from_civil year month day.

(** [session.add] of a new row under the unique constraint that
    [models.py] declares on its natural key: the commit that finds the key
    taken raises [IntegrityError]. *)
Definition add_user (mk : Z -> User.t) : Handler User.t :=
  fun s =>
    let row := mk (user_seq s) in
    if existsb (fun x => (User.email x =? User.email row)%string) (users s)
    then (IntegrityError, s)
    else (Ok row, put_users (users s ++ [row]) (user_seq s + 1) s).

Definition add_instructor (mk : Z -> Instructor.t) : Handler Instructor.t :=
  fun s =>
    let row := mk (instructor_seq s) in
    if existsb
         (fun x =>
            (Instructor.employee_id x =? Instructor.employee_id row)%string)
         (instructors s)
    then (IntegrityError, s)
    else (Ok row,
          put_instructors (instructors s ++ [row]) (instructor_seq s + 1) s).

Definition add_student (mk : Z -> Student.t) : Handler Student.t :=
  fun s =>
    let row := mk (student_seq s) in
    if existsb
         (fun x => (Student.student_id x =? Student.student_id row)%string)
         (students s)
    then (IntegrityError, s)
    else (Ok row, put_students (students s ++ [row]) (student_seq s + 1) s).

Definition add_course (mk : Z -> Course.t) : Handler Course.t :=
  fun s =>
    let row := mk (course_seq s) in
    if existsb
         (fun x => (Course.course_code x =? Course.course_code row)%string)
         (courses s)
    then (IntegrityError, s)
    else (Ok row, put_courses (courses s ++ [row]) (course_seq s + 1) s).

(** The rows added up to one [session.commit()]: all of them are written,
    or the transaction is rolled back and the exception goes on. *)
Definition atomically {A} (h : Handler A) : Handler A :=
  fun s =>
    match h s with
    | (Ok a, s') => (Ok a, s')
    | (HTTPException code detail, _) => (HTTPException code detail, s)
    | (IntegrityError, _) => (IntegrityError, s)
    | (ValueError, _) => (ValueError, s)
    end.

Definition sample_user (email first_name last_name phone : string)
  (role : UserRole.t) (password : string) (created_at : datetime) (i : Z)
  : User.t :=
  {| User.id := i;
     User.email := email;
     User.first_name := first_name;
     User.last_name := last_name;
     User.phone := Some phone;
     User.role := role;
     User.is_active := true;
     User.hashed_password := get_password_hash password;
     User.created_at := created_at;
     User.updated_at := None |}.

Definition sample_instructor (user_id : Z) (employee_id department : string)
  (salary : float) (office_location : string) (hire_date : datetime) (i : Z)
  : Instructor.t :=
  {| Instructor.id := i;
     Instructor.user_id := user_id;
     Instructor.employee_id := employee_id;
     Instructor.department := department;
     Instructor.hire_date := hire_date;
     Instructor.salary := Some salary;
     Instructor.office_location := Some office_location |}.

Definition sample_student (user_id : Z) (student_id : string)
  (date_of_birth : datetime) (gender : GenderEnum.t)
  (address emergency_contact : string) (enrollment_date : datetime) (i : Z)
  : Student.t :=
  {| Student.id := i;
     Student.user_id := user_id;
     Student.student_id := student_id;
     Student.date_of_birth := Some date_of_birth;
     Student.gender := Some gender;
     Student.address := Some address;
     Student.emergency_contact := Some emergency_contact;
     Student.enrollment_date := enrollment_date |}.

Definition sample_course (course_code title description : string)
  (credits instructor_id max_students : Z) (created_at : datetime) (i : Z)
  : Course.t :=
  {| Course.id := i;
     Course.course_code := course_code;
     Course.title := title;
     Course.description := Some description;
     Course.credits := credits;
     Course.instructor_id := instructor_id;
     Course.max_students := max_students;
     Course.status := CourseStatusEnum.ACTIVE;
     Course.created_at := created_at |}.

Definition sample_enrollment (student_id course_id : Z)
  (enrollment_date : datetime) (i : Z) : Enrollment.t :=
  {| Enrollment.id := i;
     Enrollment.student_id := student_id;
     Enrollment.course_id := course_id;
     Enrollment.enrollment_date := enrollment_date;
     Enrollment.status := EnrollmentStatusEnum.ENROLLED;
     Enrollment.grade := None |}.

(** [create_sample_data]: seven commits, each row built before it is
    added.  [utcnow n] is the reading of the clock at the [n]-th row built
    (the default of its [created_at], [hire_date] or [enrollment_date]);
    what the script prints is left out. *)
Definition create_sample_data (utcnow : nat -> datetime) : Handler unit :=
  _ <- atomically
         (add_user
            (sample_user "admin@university.edu" "Admin" "User" "+1234567890"
               UserRole.ADMIN "admin123" (utcnow 0%nat))) ;;
  instructor_users <-
    atomically
      (instructor1_user <-
         add_user
           (sample_user "john.smith@university.edu" "John" "Smith"
              "+1234567891" UserRole.INSTRUCTOR "instructor123"
              (utcnow 1%nat)) ;;
       instructor2_user <-
         add_user
           (sample_user "jane.doe@university.edu" "Jane" "Doe"
              "+1234567892" UserRole.INSTRUCTOR "instructor123"
              (utcnow 2%nat)) ;;
       ret (instructor1_user, instructor2_user)) ;;
  instructor_rows <-
    atomically
      (instructor1 <-
         add_instructor
           (sample_instructor (User.id (fst instructor_users)) "EMP001"
              "Computer Science" 75000%float "CS Building Room 101"
              (utcnow 3%nat)) ;;
       instructor2 <-
         add_instructor
           (sample_instructor (User.id (snd instructor_users)) "EMP002"
              "Mathematics" 70000%float "Math Building Room 201"
              (utcnow 4%nat)) ;;
       ret (instructor1, instructor2)) ;;
  student_users <-
    atomically
      (student1_user <-
         add_user
           (sample_user "alice.johnson@student.university.edu" "Alice"
              "Johnson" "+1234567893" UserRole.STUDENT "student123"
              (utcnow 5%nat)) ;;
       student2_user <-
         add_user
           (sample_user "bob.wilson@student.university.edu" "Bob" "Wilson"
              "+1234567894" UserRole.STUDENT "student123" (utcnow 6%nat)) ;;
       student3_user <-
         add_user
           (sample_user "carol.brown@student.university.edu" "Carol" "Brown"
              "+1234567895" UserRole.STUDENT "student123" (utcnow 7%nat)) ;;
       ret (student1_user, student2_user, student3_user)) ;;
  student_rows <-
    atomically
      (student1 <-
         add_student
           (sample_student (User.id (fst (fst student_users))) "STU001"
              (datetime_ymd 2000 5 15) GenderEnum.FEMALE
              "123 University Ave, College Town" "+1234567896"
              (utcnow 8%nat)) ;;
       student2 <-
         add_student
           (sample_student (User.id (snd (fst student_users))) "STU002"
              (datetime_ymd 1999 8 22) GenderEnum.MALE
              "456 Campus Dr, College Town" "+1234567897" (utcnow 9%nat)) ;;
       student3 <-
         add_student
           (sample_student (User.id (snd student_users)) "STU003"
              (datetime_ymd 2001 2 10) GenderEnum.FEMALE
              "789 Student St, College Town" "+1234567898"
              (utcnow 10%nat)) ;;
       ret (student1, student2, student3)) ;;
  course_rows <-
    atomically
      (course1 <-
         add_course
           (sample_course "CS101" "Introduction to Programming"
              "Learn the fundamentals of programming using Python" 3
              (Instructor.id (fst instructor_rows)) 25 (utcnow 11%nat)) ;;
       course2 <-
         add_course
           (sample_course "CS201" "Data Structures and Algorithms"
              "Advanced programming concepts and algorithm design" 4
              (Instructor.id (fst instructor_rows)) 20 (utcnow 12%nat)) ;;
       course3 <-
         add_course
           (sample_course "MATH101" "Calculus I"
              "Introduction to differential calculus" 4
              (Instructor.id (snd instructor_rows)) 30 (utcnow 13%nat)) ;;
       course4 <-
         add_course
           (sample_course "MATH201" "Linear Algebra"
              "Matrices, vector spaces, and linear transformations" 3
              (Instructor.id (snd instructor_rows)) 25 (utcnow 14%nat)) ;;
       ret (course1, course2, course3, course4)) ;;
  atomically
    (let student1 := fst (fst student_rows) in
     let student2 := snd (fst student_rows) in
     let student3 := snd student_rows in
     let course1 := fst (fst (fst course_rows)) in
     let course2 := snd (fst (fst course_rows)) in
     let course3 := snd (fst course_rows) in
     let course4 := snd course_rows in
     _ <- insert_enrollment
            (sample_enrollment (Student.id student1) (Course.id course1)
               (utcnow 15%nat)) ;;
     _ <- insert_enrollment
            (sample_enrollment (Student.id student1) (Course.id course3)
               (utcnow 16%nat)) ;;
     _ <- insert_enrollment
            (sample_enrollment (Student.id student2) (Course.id course1)
               (utcnow 17%nat)) ;;
     _ <- insert_enrollment
            (sample_enrollment (Student.id student2) (Course.id course2)
               (utcnow 18%nat)) ;;
     _ <- insert_enrollment
            (sample_enrollment (Student.id student3) (Course.id course3)
               (utcnow 19%nat)) ;;
     _ <- insert_enrollment
            (sample_enrollment (Student.id student3) (Course.id course4)
               (utcnow 20%nat)) ;;
     ret tt).

Definition has_admin_email (x : User.t) : bool :=
  (User.email x =? "admin@university.edu")%string.

(** The calls of the API that build the sample data: six registrations,
    then the administrator creates the two instructors, the three students,
    the four courses and the six enrollments, each call at the clock
    reading of the row it creates. *)
Module Sample.

Definition register (email first_name last_name phone : string)
  (role : UserRole.t) (password : string) (at_ : datetime) : Call :=
  {| token := EmptyString;
     now := at_;
     request :=
       RegisterUser
         {| UserCreate.email := email;
            UserCreate.first_name := first_name;
            UserCreate.last_name := last_name;
            UserCreate.phone := Some phone;
            UserCreate.role := role;
            UserCreate.is_active := true;
            UserCreate.password := password |} |}.

Definition as_admin (at_ : datetime) (r : Request) : Call :=
  {| token := "admin@university.edu"; now := at_; request := r |}.

Definition instructor (user_id : Z) (employee_id department : string)
  (salary : float) (office_location : string) (hire_date : datetime)
  : Request :=
  CreateInstructor
    {| InstructorCreate.user_id := user_id;
       InstructorCreate.employee_id := employee_id;
       InstructorCreate.department := department;
       InstructorCreate.hire_date := hire_date;
       InstructorCreate.salary := Some salary;
       InstructorCreate.office_location := Some office_location |}.

Definition student (user_id : Z) (student_id : string)
  (date_of_birth : datetime) (gender : GenderEnum.t)
  (address emergency_contact : string) (enrollment_date : datetime)
  : Request :=
  CreateStudent
    {| StudentCreate.user_id := user_id;
       StudentCreate.student_id := student_id;
       StudentCreate.date_of_birth := Some date_of_birth;
       StudentCreate.gender := Some gender;
       StudentCreate.address := Some address;
       StudentCreate.emergency_contact := Some emergency_contact;
       StudentCreate.enrollment_date := enrollment_date |}.

Definition course (course_code title description : string)
  (credits instructor_id max_students : Z) : Request :=
  CreateCourse
    {| CourseCreate.course_code := course_code;
       CourseCreate.title := title;
       CourseCreate.description := Some description;
       CourseCreate.credits := credits;
       CourseCreate.instructor_id := instructor_id;
       CourseCreate.max_students := max_students;
       CourseCreate.status := CourseStatusEnum.ACTIVE |}.

Definition enrollment (student_id course_id : Z) : Request :=
  CreateEnrollment
    {| EnrollmentCreate.student_id := student_id;
       EnrollmentCreate.course_id := course_id |}.

Definition calls (utcnow : nat -> datetime) : list Call :=
  [ register "admin@university.edu" "Admin" "User" "+1234567890"
      UserRole.ADMIN "admin123" (utcnow 0%nat);
    register "john.smith@university.edu" "John" "Smith" "+1234567891"
      UserRole.INSTRUCTOR "instructor123" (utcnow 1%nat);
    register "jane.doe@university.edu" "Jane" "Doe" "+1234567892"
      UserRole.INSTRUCTOR "instructor123" (utcnow 2%nat);
    as_admin (utcnow 3%nat)
      (instructor 2 "EMP001" "Computer Science" 75000%float
         "CS Building Room 101" (utcnow 3%nat));
    as_admin (utcnow 4%nat)
      (instructor 3 "EMP002" "Mathematics" 70000%float
         "Math Building Room 201" (utcnow 4%nat));
    register "alice.johnson@student.university.edu" "Alice" "Johnson"
      "+1234567893" UserRole.STUDENT "student123" (utcnow 5%nat);
    register "bob.wilson@student.university.edu" "Bob" "Wilson"
      "+1234567894" UserRole.STUDENT "student123" (utcnow 6%nat);
    register "carol.brown@student.university.edu" "Carol" "Brown"
      "+1234567895" UserRole.STUDENT "student123" (utcnow 7%nat);
    as_admin (utcnow 8%nat)
      (student 4 "STU001" (datetime_ymd 2000 5 15) GenderEnum.FEMALE
         "123 University Ave, College Town" "+1234567896" (utcnow 8%nat));
    as_admin (utcnow 9%nat)
      (student 5 "STU002" (datetime_ymd 1999 8 22) GenderEnum.MALE
         "456 Campus Dr, College Town" "+1234567897" (utcnow 9%nat));
    as_admin (utcnow 10%nat)
      (student 6 "STU003" (datetime_ymd 2001 2 10) GenderEnum.FEMALE
         "789 Student St, College Town" "+1234567898" (utcnow 10%nat));
    as_admin (utcnow 11%nat)
      (course "CS101" "Introduction to Programming"
         "Learn the fundamentals of programming using Python" 3 1 25);
    as_admin (utcnow 12%nat)
      (course "CS201" "Data Structures and Algorithms"
         "Advanced programming concepts and algorithm design" 4 1 20);
    as_admin (utcnow 13%nat)
      (course "MATH101" "Calculus I" "Introduction to differential calculus"
         4 2 30);
    as_admin (utcnow 14%nat)
      (course "MATH201" "Linear Algebra"
         "Matrices, vector spaces, and linear transformations" 3 2 25);
    as_admin (utcnow 15%nat) (enrollment 1 1);
    as_admin (utcnow 16%nat) (enrollment 1 3);
    as_admin (utcnow 17%nat) (enrollment 2 1);
    as_admin (utcnow 18%nat) (enrollment 2 2);
    as_admin (utcnow 19%nat) (enrollment 3 3);
    as_admin (utcnow 20%nat) (enrollment 3 4) ].

End Sample.

(** * Properties *)

(** ** Rows of a table *)

Section Tables.

Context {A : Type} (key : A -> Z).

Lemma find_by_key (i : Z) (table : list A) (r : A) :
  find (fun x => key x =? i) table = Some r -> In r table /\ key r = i.
Proof.
  intros H. apply find_some in H. destruct H as [Hin Hk].
  split; [assumption | now apply Z.eqb_eq].
Qed.

Lemma find_split (i : Z) (table : list A) (r : A) :
  find (fun x => key x =? i) table = Some r ->
  exists before after,
    table = before ++ r :: after
    /\ forall x, In x before -> key x <> i.
Proof.
  induction table as [|x rest IH]; cbn; [discriminate|].
  destruct (key x =? i) eqn:E.
  - intros [= ->]. exists [], rest. split; [reflexivity | intros ? []].
  - intros H. destruct (IH H) as (before & after & -> & Hb).
    exists (x :: before), after. split; [reflexivity|].
    intros y [<-|Hy]; [now apply Z.eqb_neq | now apply Hb].
Qed.

Lemma update_row_at (row : A) (before after : list A) (old : A) :
  (forall x, In x before -> key x <> key row) ->
  key old = key row ->
  update_row key row (before ++ old :: after) = before ++ row :: after.
Proof.
  intros Hb Hk. induction before as [|x before IH]; cbn.
  - now rewrite Hk, Z.eqb_refl.
  - destruct (key x =? key row) eqn:E.
    + apply Z.eqb_eq in E. exfalso. apply (Hb x); [now left | assumption].
    + f_equal. apply IH. intros y Hy. apply Hb. now right.
Qed.

Lemma delete_row_at (row : A) (before after : list A) (old : A) :
  (forall x, In x before -> key x <> key row) ->
  key old = key row ->
  delete_row key row (before ++ old :: after) = before ++ after.
Proof.
  intros Hb Hk. induction before as [|x before IH]; cbn.
  - now rewrite Hk, Z.eqb_refl.
  - destruct (key x =? key row) eqn:E.
    + apply Z.eqb_eq in E. exfalso. apply (Hb x); [now left | assumption].
    + f_equal. apply IH. intros y Hy. apply Hb. now right.
Qed.

(** Replacing the row found under a key touches that row only. *)
Lemma update_row_found (i : Z) (table : list A) (old row : A) :
  find (fun x => key x =? i) table = Some old ->
  key row = i ->
  exists before after,
    table = before ++ old :: after
    /\ update_row key row table = before ++ row :: after.
Proof.
  intros Hf Hk. destruct (find_by_key _ _ _ Hf) as [_ Hold].
  destruct (find_split _ _ _ Hf) as (before & after & -> & Hb).
  exists before, after. split; [reflexivity|].
  apply update_row_at; [|congruence].
  intros x Hx. rewrite Hk. now apply Hb.
Qed.

Lemma delete_row_found (i : Z) (table : list A) (old : A) :
  find (fun x => key x =? i) table = Some old ->
  exists before after,
    table = before ++ old :: after
    /\ delete_row key old table = before ++ after.
Proof.
  intros Hf. destruct (find_by_key _ _ _ Hf) as [_ Hold].
  destruct (find_split _ _ _ Hf) as (before & after & -> & Hb).
  exists before, after. split; [reflexivity|].
  apply delete_row_at; [|reflexivity].
  intros x Hx. rewrite Hold. now apply Hb.
Qed.

Lemma find_updated (i : Z) (table : list A) (old row : A) :
  find (fun x => key x =? i) table = Some old ->
  key row = i ->
  find (fun x => key x =? i) (update_row key row table) = Some row.
Proof.
  intros Hf Hk. induction table as [|x rest IH]; cbn in *; [discriminate|].
  rewrite Hk. destruct (key x =? i) eqn:E; cbn.
  - now rewrite Hk, Z.eqb_refl.
  - rewrite E. now apply IH.
Qed.

Lemma distinct_keys (table : list A) (x y : A) :
  NoDup (map key table) -> In x table -> In y table -> key x = key y ->
  x = y.
Proof.
  induction table as [|r rest IH]; cbn; [intros _ []|].
  intros Hnd Hx Hy Hk. inversion Hnd as [|? ? Hnot Hrest]; subst.
  destruct Hx as [->|Hx], Hy as [->|Hy]; auto.
  - exfalso. apply Hnot. rewrite Hk. now apply in_map.
  - exfalso. apply Hnot. rewrite <- Hk. now apply in_map.
Qed.

(** A count over the table after one row was replaced by a row that counts
    only if the old one did. *)
Lemma count_replaced (p : A -> bool) (before after : list A) (old row : A) :
  (p row = true -> p old = true) ->
  (List.length (filter p (before ++ row :: after))
   <= List.length (filter p (before ++ old :: after)))%nat.
Proof.
  intros Hp. rewrite !filter_app, !length_app. cbn.
  destruct (p row) eqn:E.
  - rewrite (Hp eq_refl). cbn. lia.
  - destruct (p old); cbn; lia.
Qed.

Lemma count_removed (p : A -> bool) (before after : list A) (old : A) :
  (List.length (filter p (before ++ after))
   <= List.length (filter p (before ++ old :: after)))%nat.
Proof.
  rewrite !filter_app, !length_app. cbn. destruct (p old); cbn; lia.
Qed.

End Tables.

Lemma count_appended {A} (p : A -> bool) (table : list A) (row : A) :
  List.length (filter p (table ++ [row]))
  = (List.length (filter p table) + (if p row then 1 else 0))%nat.
Proof.
  rewrite filter_app, length_app. cbn. destruct (p row); reflexivity.
Qed.

Lemma count_around {A} (p : A -> bool) (before after : list A) (x : A) :
  List.length (filter p (before ++ x :: after))
  = (List.length (filter p before) + (if p x then 1 else 0)
     + List.length (filter p after))%nat.
Proof.
  rewrite filter_app, length_app. cbn. destruct (p x); cbn; lia.
Qed.

Lemma count_replaced_succ {A} (p : A -> bool) (before after : list A)
  (old row : A) :
  (List.length (filter p (before ++ row :: after))
   <= S (List.length (filter p (before ++ old :: after))))%nat.
Proof. rewrite !count_around. destruct (p row), (p old); lia. Qed.

Lemma existsb_false_filter {A} (p : A -> bool) (l : list A) :
  existsb p l = false -> filter p l = [].
Proof.
  induction l as [|x l IH]; cbn; [reflexivity|].
  destruct (p x); [discriminate | exact IH].
Qed.

(** ** Handlers: error paths and effects *)

(** The course list returns the empty page and fails on any other: the
    first row of the page stops the loop. *)
Lemma get_courses_cases (skip limit : Z) (u : User.t) (s : Store) :
  get_courses skip limit u s
  = match page skip limit (courses s) with
    | [] => (Ok [], s)
    | _ :: _ => (ValueError, s)
    end.
Proof.
  unfold get_courses, bind, exec.
  destruct (page skip limit (courses s)); reflexivity.
Qed.

Ltac unfold_handlers :=
  cbv beta delta
    [returning responding register_user
     create_student get_students get_student update_student delete_student
     get_student_enrollments
     create_instructor get_instructors get_instructor update_instructor
     delete_instructor get_instructor_courses
     create_course get_course set_enrolled_count update_course delete_course
     get_course_enrollments
     create_enrollment get_enrollments get_enrollment update_enrollment
     delete_enrollment get_current_active_user
     insert_user insert_student insert_instructor insert_course
     insert_enrollment save_student save_instructor save_course
     save_enrollment remove_student remove_instructor remove_course
     remove_enrollment
     bind exec raise ret integrity_error value_error] in *;
  rewrite ?get_courses_cases in *.

(** Case analysis on the innermost test the goal branches on. *)
Ltac break_match :=
  match goal with
  | |- context [match ?x with _ => _ end] =>
      lazymatch x with
      | context [match _ with _ => _ end] => fail
      | _ => destruct x eqn:?
      end
  end.

Ltac run_handler := unfold_handlers; cbn; repeat (break_match; cbn).

Lemma route_error_unchanged (r : Request) (u : User.t) (t : datetime)
  (s : Store) :
  is_error (fst (route r u t s)) = true -> snd (route r u t s) = s.
Proof.
  destruct r; unfold route; run_handler; intros;
    try reflexivity; discriminate.
Qed.

Lemma authentication_cases (tok : string) (s : Store) :
  (exists u, get_current_active_user tok s = (Ok u, s))
  \/ exists code detail,
       get_current_active_user tok s = (HTTPException code detail, s).
Proof.
  unfold get_current_active_user, bind, exec, raise, ret.
  destruct (find _ (users s)) as [u|]; [destruct (User.is_active u)|]; eauto.
Qed.

(** A call is refused before its handler runs, or it is the handler run
    for the user the token resolves to. *)
Lemma serve_cases (c : Call) (s : Store) :
  (is_error (fst (serve c s)) = true /\ snd (serve c s) = s)
  \/ exists u, serve c s = route (request c) u (now c) s.
Proof.
  unfold serve. destruct (request c) eqn:R;
    try (unfold bind;
         destruct (authentication_cases (token c) s)
           as [[u ->]|(code & detail & ->)];
         [right; exists u; reflexivity | left; split; reflexivity]).
  right.
  exists {| User.id := 0; User.email := EmptyString;
            User.first_name := EmptyString; User.last_name := EmptyString;
            User.phone := None; User.role := UserRole.STUDENT;
            User.is_active := false;
            User.hashed_password := get_password_hash EmptyString;
            User.created_at := 0; User.updated_at := None |}.
  reflexivity.
Qed.

Lemma route_effect (r : Request) (u : User.t) (t : datetime) (s : Store) :
  Effect s (snd (route r u t s)) r.
Proof.
  destruct r; unfold route; run_handler;
    try (apply Untouched; reflexivity).
  - eapply CourseCreated; only 3: (cbn; reflexivity); reflexivity.
  - eapply CourseUpdated; cbn; eauto.
  - eapply CourseDeleted; cbn; eauto.
  - eapply EnrollmentCreated; only 7: (cbn; reflexivity);
      try reflexivity; eauto.
    now apply Z.leb_gt.
  - eapply EnrollmentUpdated; cbn; eauto.
  - eapply EnrollmentUpdated; cbn; eauto.
  - eapply EnrollmentUpdated; cbn; eauto.
  - eapply EnrollmentDeleted; cbn; eauto.
Qed.

Lemma serve_effect (c : Call) (s : Store) :
  Effect s (snd (serve c s)) (request c).
Proof.
  destruct (serve_cases c s) as [[_ ->]|[u ->]].
  - apply Untouched; reflexivity.
  - apply route_effect.
Qed.

(** ** What the [setattr] loops keep *)

Lemma setattr_enrollment_frame (d : EnrollmentUpdate.t) (e e' : Enrollment.t) :
  setattr_enrollment d e = Some e' -> enrollment_updated d e e'.
Proof.
  unfold setattr_enrollment, enrollment_updated, set_required, set_optional,
    assigned.
  destruct (EnrollmentUpdate.status d) as [|[st|]];
    destruct (EnrollmentUpdate.grade d);
    intros [= <-]; cbn; repeat split; reflexivity.
Qed.

Lemma setattr_course_frame (d : CourseUpdate.t) (c c' : Course.t) :
  setattr_course d c = Some c' -> course_updated d c c'.
Proof.
  unfold setattr_course, course_updated, set_required, set_optional,
    assigned.
  destruct (CourseUpdate.title d) as [|[?|]];
    destruct (CourseUpdate.description d);
    destruct (CourseUpdate.credits d) as [|[?|]];
    destruct (CourseUpdate.instructor_id d) as [|[?|]];
    destruct (CourseUpdate.max_students d) as [|[?|]];
    destruct (CourseUpdate.status d) as [|[?|]];
    intros [= <-]; cbn; repeat split; reflexivity.
Qed.

Lemma setattr_instructor_frame (d : InstructorUpdate.t)
  (i i' : Instructor.t) :
  setattr_instructor d i = Some i' -> instructor_updated d i i'.
Proof.
  unfold setattr_instructor, instructor_updated, set_required, set_optional,
    assigned.
  destruct (InstructorUpdate.department d) as [|[?|]];
    destruct (InstructorUpdate.salary d);
    destruct (InstructorUpdate.office_location d);
    intros [= <-]; cbn; repeat split; reflexivity.
Qed.

Lemma setattr_student_frame (d : StudentUpdate.t) (x : Student.t) :
  student_updated d x (setattr_student d x).
Proof.
  unfold setattr_student, student_updated, set_optional, assigned.
  destruct (StudentUpdate.date_of_birth d);
    destruct (StudentUpdate.gender d);
    destruct (StudentUpdate.address d);
    destruct (StudentUpdate.emergency_contact d);
    cbn; repeat split; reflexivity.
Qed.

(** ** One enrolled row per pair *)

Lemma find_none_filter {A} (p : A -> bool) (l : list A) :
  find p l = None -> filter p l = [].
Proof.
  induction l as [|x l IH]; cbn; [reflexivity|].
  destruct (p x); [discriminate | assumption].
Qed.

Lemma status_eqb_eq (a b : EnrollmentStatusEnum.t) :
  EnrollmentStatusEnum.eqb a b = true <-> a = b.
Proof. destruct a, b; cbn; split; congruence. Qed.

Lemma role_eqb_eq (a b : UserRole.t) : UserRole.eqb a b = true <-> a = b.
Proof. destruct a, b; cbn; split; congruence. Qed.

Lemma active_pair_spec (sid cid : Z) (e : Enrollment.t) :
  active_pair sid cid e = true <->
  Enrollment.student_id e = sid /\ Enrollment.course_id e = cid
  /\ Enrollment.status e = EnrollmentStatusEnum.ENROLLED.
Proof.
  unfold active_pair.
  rewrite !andb_true_iff, !Z.eqb_eq, status_eqb_eq. tauto.
Qed.

Lemma enrolled_in_spec (cid : Z) (e : Enrollment.t) :
  enrolled_in cid e = true <->
  Enrollment.course_id e = cid
  /\ Enrollment.status e = EnrollmentStatusEnum.ENROLLED.
Proof.
  unfold enrolled_in. rewrite andb_true_iff, Z.eqb_eq, status_eqb_eq. tauto.
Qed.

(** An update that turns a row of another status into an enrolled one
    readmits that row. *)
Lemma readmitted_spec (i : Z) (d : EnrollmentUpdate.t) (s : Store)
  (e e' : Enrollment.t) :
  enrollment_by_id i s = Some e ->
  setattr_enrollment d e = Some e' ->
  Enrollment.status e' = EnrollmentStatusEnum.ENROLLED ->
  Enrollment.status e <> EnrollmentStatusEnum.ENROLLED ->
  readmitted i d s = Some e.
Proof.
  intros Hfind Hset Hst' Hst. apply setattr_enrollment_frame in Hset.
  destruct Hset as (_ & _ & _ & _ & Hassigned & _).
  unfold readmitted, assigned in *. rewrite Hfind.
  destruct (EnrollmentUpdate.status d) as [|v].
  - congruence.
  - subst v. rewrite Hst'.
    destruct (EnrollmentStatusEnum.eqb _ _) eqn:E; [|reflexivity].
    now apply status_eqb_eq in E.
Qed.

Lemma readmitted_inv (i : Z) (d : EnrollmentUpdate.t) (s : Store)
  (e : Enrollment.t) :
  readmitted i d s = Some e ->
  enrollment_by_id i s = Some e
  /\ EnrollmentUpdate.status d
     = Provided (Some EnrollmentStatusEnum.ENROLLED)
  /\ Enrollment.status e <> EnrollmentStatusEnum.ENROLLED.
Proof.
  unfold readmitted.
  destruct (EnrollmentUpdate.status d) as [|[[]|]]; try discriminate.
  destruct (enrollment_by_id i s) as [e0|]; [|discriminate].
  destruct (EnrollmentStatusEnum.eqb _ _) eqn:E; [discriminate|].
  intros [= ->]. repeat split. intros H. rewrite H in E. discriminate.
Qed.


Lemma effect_keeps_one_active_on (s s' : Store) (r : Request) :
  duplicating r s = false -> Effect s s' r ->
  one_active_per_pair s -> one_active_per_pair s'.
Proof.
  intros Hr Heff Hinv sid cid. specialize (Hinv sid cid).
  unfold active_count in *.
  destruct Heff as
    [r _ He _ | d c _ _ _ _ He | i d c c' _ _ _ _ He | i c _ _ _ He
    | d c e _ Hnone _ Hsid Hcid Hst He _ _
    | i d e e' Hfind Hset He _ _ | i e Hfind He _ _];
    rewrite He; try assumption.
  - rewrite count_appended.
    destruct (active_pair sid cid e) eqn:E; [|lia].
    apply active_pair_spec in E. destruct E as (E1 & E2 & _).
    rewrite Hsid in E1. rewrite Hcid in E2. subst sid cid.
    rewrite (find_none_filter _ _ Hnone). cbn. lia.
  - pose proof (setattr_enrollment_frame _ _ _ Hset)
      as (Hid & Hs & Hc & _).
    destruct (find_by_key _ _ _ _ Hfind) as [_ Hi].
    destruct (update_row_found Enrollment.id i _ e e' Hfind)
      as (before & after & Hl & ->); [congruence|].
    rewrite Hl in Hinv.
    destruct (active_pair sid cid e') eqn:E';
      [destruct (active_pair sid cid e) eqn:E|].
    + eapply Nat.le_trans; [|exact Hinv].
      apply count_replaced. intros _. exact E.
    + apply active_pair_spec in E'. destruct E' as (E1 & E2 & E3).
      assert (Hst : Enrollment.status e <> EnrollmentStatusEnum.ENROLLED).
      { intros Hst.
        rewrite (proj2 (active_pair_spec sid cid e)) in E; [discriminate|].
        repeat split; congruence. }
      cbn in Hr. rewrite (readmitted_spec i d s e e' Hfind Hset E3 Hst) in Hr.
      apply existsb_false_filter in Hr.
      rewrite <- Hs, <- Hc, E1, E2, Hl in Hr.
      pose proof (count_replaced_succ (active_pair sid cid) before after
                    e e') as Hle.
      rewrite Hr in Hle. exact Hle.
    + eapply Nat.le_trans; [|exact Hinv].
      apply count_replaced. rewrite E'. discriminate.
  - destruct (delete_row_found Enrollment.id i _ e Hfind)
      as (before & after & Hl & ->).
    rewrite Hl in Hinv.
    eapply Nat.le_trans; [|exact Hinv]. apply count_removed.
Qed.



Lemma run_step (c : Call) (calls : list Call) (s : Store) :
  run (c :: calls) s = run calls (snd (serve c s)).
Proof. reflexivity. Qed.

(** An invariant of every permitted step holds after every permitted
    trace. *)
Lemma run_invariant (permitted : Request -> bool) (P : Store -> Prop) :
  (forall c s, permitted (request c) = true -> P s -> P (snd (serve c s))) ->
  forall calls s,
    Forall (fun c => permitted (request c) = true) calls ->
    P s -> P (run calls s).
Proof.
  intros Hstep calls. induction calls as [|c calls IH]; intros s Hall Hs.
  - exact Hs.
  - inversion Hall as [|? ? Hc Hrest]; subst.
    rewrite run_step. apply IH; [assumption|]. now apply Hstep.
Qed.


(** ** Capacity *)

Lemma enrolled_count_appended (cid : Z) (s s' : Store) (e : Enrollment.t) :
  enrollments s' = enrollments s ++ [e] ->
  enrolled_count cid s'
  = enrolled_count cid s + (if enrolled_in cid e then 1 else 0).
Proof.
  intros He. unfold enrolled_count. rewrite He, count_appended.
  destruct (enrolled_in cid e); lia.
Qed.

Lemma enrolled_count_same (cid : Z) (s s' : Store) :
  enrollments s' = enrollments s ->
  enrolled_count cid s' = enrolled_count cid s.
Proof. intros He. unfold enrolled_count. now rewrite He. Qed.

(** No row is enrolled in a course whose id was never allocated. *)
Lemma enrolled_count_fresh (s : Store) :
  (forall e, In e (enrollments s) -> Enrollment.course_id e < course_seq s) ->
  enrolled_count (course_seq s) s = 0.
Proof.
  intros Hall. unfold enrolled_count.
  replace (filter (enrolled_in (course_seq s)) (enrollments s))
    with (@nil Enrollment.t); [reflexivity|].
  symmetry. induction (enrollments s) as [|e l IH]; cbn; [reflexivity|].
  destruct (enrolled_in (course_seq s) e) eqn:E.
  - apply enrolled_in_spec in E. destruct E as [E _].
    specialize (Hall e (or_introl eq_refl)). lia.
  - apply IH. intros x Hx. apply Hall. now right.
Qed.

Lemma effect_keeps_capacity_on (s s' : Store) (r : Request) :
  overfilling r s = false -> Effect s s' r ->
  capacity_invariant s -> capacity_invariant s'.
Proof.
  intros Hr Heff [Hea Hca Hnd Hcap].
  destruct Heff as
    [r Hc He Hq | d c Hid Hmax Hc Hq He | i d c c' Hfind Hset Hc Hq He
    | i c Hfind Hc Hq He
    | d c e Hfind Hnone Hroom Hsid Hcid Hst He Hc Hq
    | i d e e' Hfind Hset He Hc Hq | i e Hfind He Hc Hq].
  - (* nothing written to the two tables *)
    split; unfold within_capacity; rewrite ?Hc, ?He, ?Hq; try assumption.
    intros c Hin. rewrite (enrolled_count_same _ s s' He). now apply Hcap.
  - (* a course inserted *)
    cbn in Hr. apply Z.ltb_ge in Hr.
    split; unfold within_capacity; rewrite ?Hc, ?He, ?Hq.
    + intros e Hin. specialize (Hea e Hin). lia.
    + intros x Hin. apply in_app_or in Hin. destruct Hin as [Hin|[<-|[]]].
      * specialize (Hca x Hin). lia.
      * lia.
    + rewrite map_app. cbn. apply NoDup_app.
      * assumption.
      * constructor; [intros []|constructor].
      * intros a Ha [<-|[]]. apply in_map_iff in Ha.
        destruct Ha as (x & Hx & Hin). specialize (Hca x Hin). lia.
    + intros x Hin. rewrite (enrolled_count_same _ s s' He).
      apply in_app_or in Hin. destruct Hin as [Hin|[<-|[]]].
      * now apply Hcap.
      * rewrite Hid, (enrolled_count_fresh s Hea). lia.
  - (* a course replaced, its capacity kept or set to the count at least *)
    pose proof (setattr_course_frame _ _ _ Hset)
      as (Hid & _ & _ & _ & _ & _ & _ & Hm & _).
    destruct (find_by_key _ _ _ _ Hfind) as [Hin0 Hi].
    assert (Hroom : enrolled_count (Course.id c) s <= Course.max_students c').
    { cbn in Hr. unfold assigned in Hm.
      destruct (CourseUpdate.max_students d) as [|[n|]].
      - injection Hm as ->. now apply Hcap.
      - injection Hm as ->. apply Z.ltb_ge in Hr. now rewrite Hi.
      - discriminate. }
    destruct (update_row_found Course.id i _ c c' Hfind)
      as (before & after & Hl & Hl'); [congruence|].
    rewrite Hl' in Hc.
    assert (Hin' : forall x, In x (courses s') -> x = c' \/ In x (courses s)).
    { intros x. rewrite Hc, Hl. rewrite !in_app_iff. cbn. intuition. }
    split; unfold within_capacity; rewrite ?He, ?Hq.
    + assumption.
    + intros x Hin. destruct (Hin' x Hin) as [->|Hx].
      * rewrite Hid. now apply Hca.
      * now apply Hca.
    + rewrite Hc. rewrite Hl in Hnd. rewrite map_app in *. cbn in *.
      now rewrite Hid.
    + intros x Hin. rewrite (enrolled_count_same _ s s' He).
      destruct (Hin' x Hin) as [->|Hx].
      * rewrite Hid. exact Hroom.
      * now apply Hcap.
  - (* a course removed *)
    destruct (delete_row_found Course.id i _ c Hfind)
      as (before & after & Hl & Hl').
    rewrite Hl' in Hc.
    assert (Hin' : forall x, In x (courses s') -> In x (courses s)).
    { intros x. rewrite Hc, Hl. rewrite !in_app_iff. cbn. intuition. }
    split; unfold within_capacity; rewrite ?He, ?Hq.
    + assumption.
    + intros x Hin. apply Hca. now apply Hin'.
    + rewrite Hc. rewrite Hl in Hnd. rewrite map_app in *. cbn in Hnd.
      now apply NoDup_remove_1 in Hnd.
    + intros x Hin. rewrite (enrolled_count_same _ s s' He).
      apply Hcap. now apply Hin'.
  - (* an enrollment inserted *)
    destruct (find_by_key _ _ _ _ Hfind) as [Hin0 Hi].
    split; unfold within_capacity; rewrite ?Hc, ?Hq.
    + intros x Hin. rewrite He in Hin. apply in_app_or in Hin.
      destruct Hin as [Hin|[<-|[]]]; [now apply Hea|].
      rewrite Hcid, <- Hi. now apply Hca.
    + assumption.
    + assumption.
    + intros x Hin. rewrite (enrolled_count_appended _ s s' e He).
      destruct (enrolled_in (Course.id x) e) eqn:E.
      * apply enrolled_in_spec in E. destruct E as [E _].
        assert (x = c) as ->.
        { apply (distinct_keys Course.id (courses s)); try assumption.
          congruence. }
        rewrite Hi. lia.
      * specialize (Hcap x Hin). lia.
  - (* an enrollment replaced *)
    pose proof (setattr_enrollment_frame _ _ _ Hset)
      as (Hid & _ & Hcourse & _).
    destruct (find_by_key _ _ _ _ Hfind) as [Hin0 Hi].
    destruct (update_row_found Enrollment.id i _ e e' Hfind)
      as (before & after & Hl & Hl'); [congruence|].
    rewrite Hl' in He.
    split; unfold within_capacity; rewrite ?Hc, ?Hq.
    + intros x. rewrite He, in_app_iff. cbn. intros [Hx|[<-|Hx]].
      * apply Hea. rewrite Hl, in_app_iff. now left.
      * rewrite Hcourse. now apply Hea.
      * apply Hea. rewrite Hl, in_app_iff. now (right; right).
    + assumption.
    + assumption.
    + intros x Hin. pose proof (Hcap x Hin) as Hx.
      destruct (enrolled_in (Course.id x) e') eqn:E';
        [destruct (enrolled_in (Course.id x) e) eqn:E|].
      * unfold enrolled_count in *. rewrite He. rewrite Hl in Hx.
        pose proof (count_replaced (enrolled_in (Course.id x)) before after
                      e e' (fun _ => E)).
        lia.
      * apply enrolled_in_spec in E'. destruct E' as [E1 E2].
        assert (Hst : Enrollment.status e <> EnrollmentStatusEnum.ENROLLED).
        { intros Hst.
          rewrite (proj2 (enrolled_in_spec (Course.id x) e)) in E;
            [discriminate|].
          split; congruence. }
        cbn in Hr. rewrite (readmitted_spec i d s e e' Hfind Hset E2 Hst) in Hr.
        assert (Hfound : course_by_id (Enrollment.course_id e) s = Some x).
        { destruct (course_by_id (Enrollment.course_id e) s) as [c0|] eqn:Hc0.
          - destruct (find_by_key _ _ _ _ Hc0) as [Hin1 Hi1]. f_equal.
            apply (distinct_keys Course.id (courses s)); try assumption.
            congruence.
          - apply (find_none _ _ Hc0) in Hin. apply Z.eqb_neq in Hin.
            congruence. }
        rewrite Hfound in Hr. apply Z.leb_gt in Hr.
        rewrite <- Hcourse, E1 in Hr.
        unfold enrolled_count in *. rewrite He. rewrite Hl in Hr.
        pose proof (count_replaced_succ (enrolled_in (Course.id x)) before
                      after e e').
        lia.
      * unfold enrolled_count in *. rewrite He. rewrite Hl in Hx.
        assert (List.length (filter (enrolled_in (Course.id x))
                               (before ++ e' :: after))
                <= List.length (filter (enrolled_in (Course.id x))
                                  (before ++ e :: after)))%nat; [|lia].
        apply count_replaced. rewrite E'. discriminate.
  - (* an enrollment removed *)
    destruct (delete_row_found Enrollment.id i _ e Hfind)
      as (before & after & Hl & Hl').
    rewrite Hl' in He.
    split; unfold within_capacity; rewrite ?Hc, ?Hq.
    + intros x. rewrite He, in_app_iff. intros [Hx|Hx];
        apply Hea; rewrite Hl, in_app_iff; cbn; tauto.
    + assumption.
    + assumption.
    + intros x Hin. specialize (Hcap x Hin).
      unfold enrolled_count in *. rewrite He. rewrite Hl in Hcap.
      pose proof (count_removed (enrolled_in (Course.id x)) before after e).
      lia.
Qed.




(** ** The order of the checks *)

Lemma existsb_find {A} (p : A -> bool) (l : list A) :
  existsb p l = negb (absent (find p l)).
Proof.
  induction l as [|x l IH]; cbn; [reflexivity|].
  destruct (p x); [reflexivity | exact IH].
Qed.

(** [create_enrollment], check by check. *)

Lemma may_enroll_gate (u : User.t) (st : Student.t) (c : Course.t)
  (s : Store) :
  negb (is_admin u) && negb (User.id u =? Student.user_id st)
  && negb (owns_instructor u (instructor_by_id (Course.instructor_id c) s))
  = negb (may_enroll u st c s).
Proof. unfold may_enroll. now rewrite !negb_orb. Qed.

(** [create_enrollment] once the student and the course are found. *)
Lemma create_enrollment_found (d : EnrollmentCreate.t) (u : User.t)
  (t : datetime) (s : Store) (st : Student.t) (c : Course.t) :
  student_by_id (EnrollmentCreate.student_id d) s = Some st ->
  course_by_id (EnrollmentCreate.course_id d) s = Some c ->
  create_enrollment d u t s
  = if negb (may_enroll u st c s)
    then (HTTPException HTTP_403_FORBIDDEN
            "Not authorized to create enrollment", s)
    else
      match find (active_pair (EnrollmentCreate.student_id d)
                    (EnrollmentCreate.course_id d)) (enrollments s) with
      | Some _ =>
          (HTTPException HTTP_400_BAD_REQUEST
             "Student is already enrolled in this course", s)
      | None =>
          if Course.max_students c
             <=? enrolled_count (EnrollmentCreate.course_id d) s
          then (HTTPException HTTP_400_BAD_REQUEST "Course is full", s)
          else
            insert_enrollment (fun i =>
              {| Enrollment.id := i;
                 Enrollment.student_id := EnrollmentCreate.student_id d;
                 Enrollment.course_id := EnrollmentCreate.course_id d;
                 Enrollment.enrollment_date := t;
                 Enrollment.status := EnrollmentStatusEnum.ENROLLED;
                 Enrollment.grade := None |}) s
      end.
Proof.
  intros Hst Hc. unfold create_enrollment, bind, exec, raise.
  rewrite Hst, Hc, may_enroll_gate.
  destruct (negb (may_enroll u st c s)); [reflexivity|].
  destruct (find _ (enrollments s)); [reflexivity|].
  destruct (_ <=? _); reflexivity.
Qed.

(** What a successful [create_enrollment] went through and wrote. *)
Lemma create_enrollment_ok (d : EnrollmentCreate.t) (u : User.t)
  (t : datetime) (s s' : Store) (e : Enrollment.t) :
  create_enrollment d u t s = (Ok e, s') ->
  exists st c,
    student_by_id (EnrollmentCreate.student_id d) s = Some st
    /\ course_by_id (EnrollmentCreate.course_id d) s = Some c
    /\ may_enroll u st c s = true
    /\ find (active_pair (EnrollmentCreate.student_id d)
               (EnrollmentCreate.course_id d)) (enrollments s) = None
    /\ enrolled_count (EnrollmentCreate.course_id d) s
       < Course.max_students c
    /\ e = {| Enrollment.id := enrollment_seq s;
              Enrollment.student_id := EnrollmentCreate.student_id d;
              Enrollment.course_id := EnrollmentCreate.course_id d;
              Enrollment.enrollment_date := t;
              Enrollment.status := EnrollmentStatusEnum.ENROLLED;
              Enrollment.grade := None |}
    /\ s' = put_enrollments (enrollments s ++ [e]) (enrollment_seq s + 1) s.
Proof.
  destruct (student_by_id (EnrollmentCreate.student_id d) s) as [st|] eqn:Hst;
    [|unfold create_enrollment, bind, exec, raise; rewrite Hst; discriminate].
  destruct (course_by_id (EnrollmentCreate.course_id d) s) as [c|] eqn:Hc;
    [|unfold create_enrollment, bind, exec, raise; rewrite Hst, Hc;
      discriminate].
  rewrite (create_enrollment_found d u t s st c Hst Hc).
  destruct (may_enroll u st c s) eqn:Hmay; [cbn|discriminate].
  destruct (find _ (enrollments s)) eqn:Hnone; [discriminate|].
  destruct (Z.leb_spec (Course.max_students c)
              (enrolled_count (EnrollmentCreate.course_id d) s));
    [discriminate|].
  unfold insert_enrollment. intros [= <- <-].
  exists st, c. repeat split; assumption.
Qed.




(** ** Updating an enrollment *)

(** [update_enrollment] once the row is found. *)
Lemma update_enrollment_found (i : Z) (d : EnrollmentUpdate.t) (u : User.t)
  (s : Store) (e : Enrollment.t) :
  enrollment_by_id i s = Some e ->
  update_enrollment i d u s
  = let student := student_by_id (Enrollment.student_id e) s in
    let instructor :=
      instructor_of (course_by_id (Enrollment.course_id e) s) s in
    if is_admin u then save_enrollment (setattr_enrollment d e) s
    else if owns_student u student then
      if not_a_drop d
      then (HTTPException HTTP_403_FORBIDDEN "Students can only drop courses",
            s)
      else save_enrollment (setattr_enrollment d e) s
    else if owns_instructor u instructor
    then save_enrollment (setattr_enrollment d e) s
    else (HTTPException HTTP_403_FORBIDDEN
            "Not authorized to update this enrollment", s).
Proof.
  intros He. unfold update_enrollment, bind, exec, raise, ret. rewrite He.
  cbn. destruct (is_admin u); [reflexivity|].
  destruct (owns_student u _); [destruct (not_a_drop d); reflexivity|].
  destruct (owns_instructor u _); reflexivity.
Qed.

(** C4: a caller who is not an admin and owns the student profile of an
    enrollment is refused with Forbidden, the store unchanged, when the
    update sets the status to a value other than dropped; when it sets the
    status to dropped the update succeeds and the stored row has status
    dropped. *)
Theorem student_owner_may_only_drop (i : Z) (d : EnrollmentUpdate.t)
  (u : User.t) (s : Store) (e : Enrollment.t) (st : Student.t) :
  enrollment_by_id i s = Some e ->
  student_by_id (Enrollment.student_id e) s = Some st ->
  Student.user_id st = User.id u ->
  is_admin u = false ->
  (forall v,
     EnrollmentUpdate.status d = Provided (Some v) ->
     v <> EnrollmentStatusEnum.DROPPED ->
     update_enrollment i d u s
     = (HTTPException HTTP_403_FORBIDDEN "Students can only drop courses", s))
  /\ (EnrollmentUpdate.status d
      = Provided (Some EnrollmentStatusEnum.DROPPED) ->
      exists e',
        update_enrollment i d u s
        = (Ok e',
           put_enrollments (update_row Enrollment.id e' (enrollments s))
             (enrollment_seq s) s)
        /\ Enrollment.status e' = EnrollmentStatusEnum.DROPPED
        /\ enrollment_by_id i (snd (update_enrollment i d u s)) = Some e').
Proof.
  intros He Hst Hown Hadmin.
  rewrite (update_enrollment_found i d u s e He). cbn zeta.
  rewrite Hadmin, Hst. cbn [owns_student]. rewrite Hown, Z.eqb_refl.
  unfold not_a_drop. split.
  - intros v Hv Hne. rewrite Hv. cbn.
    destruct v; try reflexivity. now destruct Hne.
  - intros Hv. rewrite Hv. cbn.
    unfold setattr_enrollment. rewrite Hv. cbn.
    eexists. split; [reflexivity|]. split; [reflexivity|].
    cbn. unfold enrollment_by_id in *. cbn.
    apply (find_updated Enrollment.id i (enrollments s) e); [assumption|].
    cbn. now destruct (find_by_key _ _ _ _ He).
Qed.

(** C4 on the campus: Alice may not complete her enrollment, she may drop
    it. *)
Lemma student_owner_may_only_drop_witness :
  update_enrollment 1 (Campus.set_status EnrollmentStatusEnum.COMPLETED)
    Campus.alice_user (run Campus.alice_enrolled empty_store)
  = (HTTPException HTTP_403_FORBIDDEN "Students can only drop courses",
     run Campus.alice_enrolled empty_store)
  /\ exists e',
       fst (update_enrollment 1 (Campus.set_status EnrollmentStatusEnum.DROPPED)
              Campus.alice_user (run Campus.alice_enrolled empty_store))
       = Ok e'
       /\ Enrollment.status e' = EnrollmentStatusEnum.DROPPED.
Proof.
  split.
  - refine (proj1 (student_owner_may_only_drop 1
                     (Campus.set_status EnrollmentStatusEnum.COMPLETED)
                     Campus.alice_user (run Campus.alice_enrolled empty_store)
                     _ _ eq_refl eq_refl eq_refl eq_refl)
              EnrollmentStatusEnum.COMPLETED eq_refl _).
    discriminate.
  - destruct (proj2 (student_owner_may_only_drop 1
                       (Campus.set_status EnrollmentStatusEnum.DROPPED)
                       Campus.alice_user
                       (run Campus.alice_enrolled empty_store)
                       _ _ eq_refl eq_refl eq_refl eq_refl) eq_refl)
      as (e' & H1 & H2 & _).
    exists e'. rewrite H1. split; [reflexivity | exact H2].
Defined.

(** ** Duplicate natural keys and role mismatch *)

(** C5 (amended): a creation request (registration, Student, Instructor,
    Course) whose natural key is the key of a stored row fails and inserts
    nothing, whatever its other fields: with the conflict error when the
    caller passes the role gate of the route (registration has none), with
    Forbidden when the gate stops the caller. *)
Theorem duplicate_natural_key_rejected (r : Request) (u : User.t)
  (t : datetime) (s : Store) :
  natural_key_taken r s = true ->
  route r u t s
  = (if passes_role_gate r u
     then HTTPException HTTP_400_BAD_REQUEST (conflict_detail r)
     else HTTPException HTTP_403_FORBIDDEN (forbidden_detail r), s).
Proof.
  destruct r; cbn [natural_key_taken]; try discriminate;
    cbn [passes_role_gate conflict_detail forbidden_detail];
    unfold may_create_student; rewrite ?existsb_find;
    unfold route; unfold_handlers;
    destruct (is_admin u) eqn:Hadmin; cbn;
    repeat (break_match; cbn);
    intros; try discriminate; reflexivity.
Qed.

(** C5 on the campus: the administrator asks for a second CS101. *)
Lemma duplicate_natural_key_rejected_witness :
  natural_key_taken (CreateCourse (Campus.cs101 30))
    (run Campus.opening empty_store) = true
  /\ route (CreateCourse (Campus.cs101 30)) Campus.admin_user 0
       (run Campus.opening empty_store)
     = (HTTPException HTTP_400_BAD_REQUEST "Course code already exists",
        run Campus.opening empty_store).
Proof.
  split; [reflexivity|].
  exact (duplicate_natural_key_rejected (CreateCourse (Campus.cs101 30))
           Campus.admin_user 0 (run Campus.opening empty_store) eq_refl).
Defined.

(** C5, counterexample: the student id S001 is taken.  Bob, a student, asks
    for a profile with that id: on his own user the answer is Conflict, on
    Alice's user it is Forbidden, so the outcome depends on another field
    of the request. *)
Lemma duplicate_student_id_forbidden :
  natural_key_taken (CreateStudent (Campus.profile 3 "S001"))
    (run Campus.opening empty_store) = true
  /\ fst (serve (Campus.call Campus.bob
                   (CreateStudent (Campus.profile 4 "S001")))
            (run Campus.opening empty_store))
     = HTTPException HTTP_400_BAD_REQUEST "Student ID already exists"
  /\ fst (serve (Campus.call Campus.bob
                   (CreateStudent (Campus.profile 3 "S001")))
            (run Campus.opening empty_store))
     = HTTPException HTTP_403_FORBIDDEN
         "Not authorized to create student profile".
Proof. repeat split; reflexivity. Qed.

(** C6 (amended): a Student or Instructor creation whose [user_id] names a
    stored user of another role than the profile asks for fails and inserts
    nothing: with Forbidden when the role gate stops the caller, else with
    the conflict error when the natural key is taken, else with the
    role-mismatch validation error. *)
Theorem role_mismatch_rejected (r : Request) (u : User.t) (t : datetime)
  (s : Store) :
  role_mismatch r s = true ->
  route r u t s
  = (if negb (passes_role_gate r u)
     then HTTPException HTTP_403_FORBIDDEN (forbidden_detail r)
     else if natural_key_taken r s
          then HTTPException HTTP_400_BAD_REQUEST (conflict_detail r)
          else HTTPException HTTP_400_BAD_REQUEST (role_detail r), s).
Proof.
  destruct r; cbn [role_mismatch]; try discriminate;
    cbn [passes_role_gate natural_key_taken conflict_detail forbidden_detail
         role_detail];
    unfold may_create_student; rewrite ?existsb_find;
    unfold route; unfold_handlers;
    destruct (is_admin u) eqn:Hadmin; cbn;
    repeat (break_match; cbn);
    intros; first [discriminate | reflexivity | congruence].
Qed.

(** C6 on the campus: the administrator asks for a student profile on the
    user of the instructor Smith. *)
Lemma role_mismatch_rejected_witness :
  role_mismatch (CreateStudent (Campus.profile 2 "S009"))
    (run Campus.opening empty_store) = true
  /\ route (CreateStudent (Campus.profile 2 "S009")) Campus.admin_user 0
       (run Campus.opening empty_store)
     = (HTTPException HTTP_400_BAD_REQUEST "User must have student role",
        run Campus.opening empty_store).
Proof.
  split; [reflexivity|].
  exact (role_mismatch_rejected (CreateStudent (Campus.profile 2 "S009"))
           Campus.admin_user 0 (run Campus.opening empty_store) eq_refl).
Defined.

(** C6, counterexample: the student Bob asks for a student profile on the
    user of the instructor Smith and is told Forbidden, not the
    role-mismatch validation error. *)
Lemma role_mismatch_forbidden :
  role_mismatch (CreateStudent (Campus.profile 2 "S009"))
    (run Campus.opening empty_store) = true
  /\ fst (serve (Campus.call Campus.bob
                   (CreateStudent (Campus.profile 2 "S009")))
            (run Campus.opening empty_store))
     = HTTPException HTTP_403_FORBIDDEN
         "Not authorized to create student profile".
Proof. split; reflexivity. Qed.

(** ** Partial updates *)

Lemma save_enrollment_ok (row : option Enrollment.t) (s s' : Store)
  (e' : Enrollment.t) :
  save_enrollment row s = (Ok e', s') ->
  row = Some e'
  /\ s' = put_enrollments (update_row Enrollment.id e' (enrollments s))
            (enrollment_seq s) s.
Proof.
  destruct row as [e|]; cbn; [|discriminate].
  intros [= <- <-]. split; reflexivity.
Qed.

Lemma update_student_ok (i : Z) (d : StudentUpdate.t) (u : User.t)
  (s s' : Store) (x' : Student.t) :
  update_student i d u s = (Ok x', s') ->
  exists x before after,
    student_by_id i s = Some x
    /\ student_updated d x x'
    /\ students s = before ++ x :: after
    /\ s' = put_students (before ++ x' :: after) (student_seq s) s.
Proof.
  unfold update_student, bind, exec, raise, save_student.
  destruct (student_by_id i s) as [x|] eqn:Hx; [|discriminate].
  destruct (_ && _); [discriminate|]. intros [= <- <-].
  pose proof (setattr_student_frame d x) as Hframe.
  destruct (find_by_key _ _ _ _ Hx) as [_ Hi].
  destruct (update_row_found Student.id i _ x (setattr_student d x) Hx)
    as (before & after & Hl & Hl'); [exact Hi|].
  exists x, before, after. rewrite Hl'. auto.
Qed.

Lemma update_instructor_ok (i : Z) (d : InstructorUpdate.t) (u : User.t)
  (s s' : Store) (x' : Instructor.t) :
  update_instructor i d u s = (Ok x', s') ->
  exists x before after,
    instructor_by_id i s = Some x
    /\ instructor_updated d x x'
    /\ instructors s = before ++ x :: after
    /\ s' = put_instructors (before ++ x' :: after) (instructor_seq s) s.
Proof.
  unfold update_instructor, bind, exec, raise, save_instructor.
  destruct (instructor_by_id i s) as [x|] eqn:Hx; [|discriminate].
  destruct (_ && _); [discriminate|].
  destruct (setattr_instructor d x) as [y|] eqn:Hset; [|discriminate].
  intros [= <- <-].
  pose proof (setattr_instructor_frame d x y Hset) as Hframe.
  destruct (find_by_key _ _ _ _ Hx) as [_ Hi].
  destruct (update_row_found Instructor.id i _ x y Hx)
    as (before & after & Hl & Hl');
    [destruct Hframe as [Hid _]; congruence|].
  exists x, before, after. rewrite Hl'. auto.
Qed.

Lemma update_course_ok (i : Z) (d : CourseUpdate.t) (u : User.t)
  (s s' : Store) (c' : Course.t) :
  update_course i d u s = (Ok c', s') ->
  exists c before after,
    course_by_id i s = Some c
    /\ course_updated d c c'
    /\ courses s = before ++ c :: after
    /\ s' = put_courses (before ++ c' :: after) (course_seq s) s.
Proof.
  unfold update_course, bind, exec, raise, save_course.
  destruct (course_by_id i s) as [c|] eqn:Hc; [|discriminate].
  destruct (_ && _); [discriminate|].
  destruct (setattr_course d c) as [y|] eqn:Hset; [|discriminate].
  intros [= <- <-].
  pose proof (setattr_course_frame d c y Hset) as Hframe.
  destruct (find_by_key _ _ _ _ Hc) as [_ Hi].
  destruct (update_row_found Course.id i _ c y Hc)
    as (before & after & Hl & Hl');
    [destruct Hframe as [Hid _]; congruence|].
  exists c, before, after. rewrite Hl'. auto.
Qed.

Lemma update_enrollment_ok (i : Z) (d : EnrollmentUpdate.t) (u : User.t)
  (s s' : Store) (e' : Enrollment.t) :
  update_enrollment i d u s = (Ok e', s') ->
  exists e before after,
    enrollment_by_id i s = Some e
    /\ enrollment_updated d e e'
    /\ enrollments s = before ++ e :: after
    /\ s' = put_enrollments (before ++ e' :: after) (enrollment_seq s) s.
Proof.
  destruct (enrollment_by_id i s) as [e|] eqn:He.
  - rewrite (update_enrollment_found i d u s e He). cbn zeta. intros H.
    assert (Hsave : save_enrollment (setattr_enrollment d e) s = (Ok e', s')).
    { destruct (is_admin u); [exact H|].
      destruct (owns_student u _);
        [destruct (not_a_drop d); [discriminate | exact H]|].
      destruct (owns_instructor u _); [exact H | discriminate]. }
    apply save_enrollment_ok in Hsave. destruct Hsave as [Hset ->].
    pose proof (setattr_enrollment_frame d e e' Hset) as Hframe.
    destruct (find_by_key _ _ _ _ He) as [_ Hi].
    destruct (update_row_found Enrollment.id i _ e e' He)
      as (before & after & Hl & Hl');
      [destruct Hframe as [Hid _]; congruence|].
    exists e, before, after. rewrite Hl'. auto.
  - unfold update_enrollment, bind, exec, raise. rewrite He. discriminate.
Qed.

(** C7: a partial update that succeeds replaces the one row it was asked
    for, leaves every other row and table as it was, and the new row
    differs from the old one only in the fields the request set: an unset
    field keeps its value, a set field takes the value of the request.  In
    particular an enrollment update that sets only [grade] keeps [status],
    [student_id], [course_id] and [enrollment_date]. *)
Theorem partial_update_frame :
  (forall i d u s x' s',
     update_student i d u s = (Ok x', s') ->
     exists x before after,
       student_by_id i s = Some x
       /\ student_updated d x x'
       /\ students s = before ++ x :: after
       /\ s' = put_students (before ++ x' :: after) (student_seq s) s)
  /\ (forall i d u s x' s',
        update_instructor i d u s = (Ok x', s') ->
        exists x before after,
          instructor_by_id i s = Some x
          /\ instructor_updated d x x'
          /\ instructors s = before ++ x :: after
          /\ s' = put_instructors (before ++ x' :: after)
                    (instructor_seq s) s)
  /\ (forall i d u s c' s',
        update_course i d u s = (Ok c', s') ->
        exists c before after,
          course_by_id i s = Some c
          /\ course_updated d c c'
          /\ courses s = before ++ c :: after
          /\ s' = put_courses (before ++ c' :: after) (course_seq s) s)
  /\ (forall i d u s e' s',
        update_enrollment i d u s = (Ok e', s') ->
        exists e before after,
          enrollment_by_id i s = Some e
          /\ enrollment_updated d e e'
          /\ enrollments s = before ++ e :: after
          /\ s' = put_enrollments (before ++ e' :: after)
                    (enrollment_seq s) s)
  /\ (forall i g u s e' s',
        update_enrollment i
          {| EnrollmentUpdate.status := Unset;
             EnrollmentUpdate.grade := Provided (Some g) |} u s
        = (Ok e', s') ->
        exists e,
          enrollment_by_id i s = Some e
          /\ Enrollment.status e' = Enrollment.status e
          /\ Enrollment.student_id e' = Enrollment.student_id e
          /\ Enrollment.course_id e' = Enrollment.course_id e
          /\ Enrollment.enrollment_date e' = Enrollment.enrollment_date e
          /\ Enrollment.grade e' = Some g).
Proof.
  split; [intros; eapply update_student_ok; eassumption|].
  split; [intros; eapply update_instructor_ok; eassumption|].
  split; [intros; eapply update_course_ok; eassumption|].
  split; [intros; eapply update_enrollment_ok; eassumption|].
  intros i g u s e' s' H.
  destruct (update_enrollment_ok _ _ _ _ _ _ H)
    as (e & _ & _ & He & (_ & Hs & Hc & Hd & Hst & Hg) & _).
  cbn in Hst, Hg. exists e. injection Hst as Hst.
  repeat split; assumption.
Qed.

(** C7 on the campus: Smith grades Alice's enrollment; its status stays. *)
Lemma partial_update_frame_witness :
  exists e e' s',
    update_enrollment 1 (Campus.set_grade "A") Campus.smith_user
      (run Campus.alice_enrolled empty_store) = (Ok e', s')
    /\ enrollment_by_id 1 (run Campus.alice_enrolled empty_store) = Some e
    /\ Enrollment.status e' = Enrollment.status e
    /\ Enrollment.grade e' = Some "A".
Proof.
  assert (E : exists e' s',
            update_enrollment 1 (Campus.set_grade "A") Campus.smith_user
              (run Campus.alice_enrolled empty_store) = (Ok e', s'))
    by (vm_compute; eexists _, _; reflexivity).
  destruct E as (e' & s' & E).
  destruct (proj2 (proj2 (proj2 (proj2 partial_update_frame)))
              1 "A" Campus.smith_user
              (run Campus.alice_enrolled empty_store) e' s' E)
    as (e & He & Hst & _ & _ & _ & Hg).
  exists e, e', s'. repeat split; assumption.
Defined.

(** ** Errors *)

Lemma all_or_none_intro {A} (s : Store) (applied : A -> Store -> Prop)
  (outcome : Response A * Store) :
  (is_error (fst outcome) = true -> snd outcome = s) ->
  (forall row s', outcome = (Ok row, s') -> applied row s') ->
  all_or_none s applied outcome.
Proof.
  destruct outcome as [[row| | |] s']; cbn; intros Herr Hok; auto.
Qed.

Lemma update_error_unchanged (u : User.t) (s : Store) :
  (forall i d,
     is_error (fst (update_student i d u s)) = true ->
     snd (update_student i d u s) = s)
  /\ (forall i d,
        is_error (fst (update_instructor i d u s)) = true ->
        snd (update_instructor i d u s) = s)
  /\ (forall i d,
        is_error (fst (update_course i d u s)) = true ->
        snd (update_course i d u s) = s)
  /\ (forall i d,
        is_error (fst (update_enrollment i d u s)) = true ->
        snd (update_enrollment i d u s) = s).
Proof.
  repeat split; intros i d; run_handler; intros;
    try reflexivity; discriminate.
Qed.

(** C8: a call that ends in an error (an [HTTPException] of any status, the
    refused commit, or the [ValueError] of a course read) leaves the store
    exactly as it was: nothing is created, modified or deleted.  An update
    is all or nothing: it ends in an error with the store as it was, or it
    returns the row with every provided field assigned and that row
    replaces the old one. *)
Theorem errors_leave_store_unchanged :
  (forall c s, is_error (fst (serve c s)) = true -> snd (serve c s) = s)
  /\ (forall i d u s,
        all_or_none s
          (fun x' s' =>
             exists x before after,
               student_by_id i s = Some x
               /\ student_updated d x x'
               /\ students s = before ++ x :: after
               /\ s' = put_students (before ++ x' :: after) (student_seq s) s)
          (update_student i d u s))
  /\ (forall i d u s,
        all_or_none s
          (fun x' s' =>
             exists x before after,
               instructor_by_id i s = Some x
               /\ instructor_updated d x x'
               /\ instructors s = before ++ x :: after
               /\ s' = put_instructors (before ++ x' :: after)
                         (instructor_seq s) s)
          (update_instructor i d u s))
  /\ (forall i d u s,
        all_or_none s
          (fun c' s' =>
             exists c before after,
               course_by_id i s = Some c
               /\ course_updated d c c'
               /\ courses s = before ++ c :: after
               /\ s' = put_courses (before ++ c' :: after) (course_seq s) s)
          (update_course i d u s))
  /\ (forall i d u s,
        all_or_none s
          (fun e' s' =>
             exists e before after,
               enrollment_by_id i s = Some e
               /\ enrollment_updated d e e'
               /\ enrollments s = before ++ e :: after
               /\ s' = put_enrollments (before ++ e' :: after)
                         (enrollment_seq s) s)
          (update_enrollment i d u s)).
Proof.
  split.
  { intros c s. destruct (serve_cases c s) as [[_ H]|[u ->]].
    - intros _. exact H.
    - apply route_error_unchanged. }
  repeat split; intros i d u s; apply all_or_none_intro;
    try apply (update_error_unchanged u s);
    intros row s' H.
  - eapply update_student_ok; eassumption.
  - eapply update_instructor_ok; eassumption.
  - eapply update_course_ok; eassumption.
  - eapply update_enrollment_ok; eassumption.
Qed.

(** C8 on the campus: Alice's refused update leaves the store as it
    was. *)
Lemma errors_leave_store_unchanged_witness :
  is_error
    (fst (serve (Campus.call Campus.alice
                   (UpdateEnrollment 1
                      (Campus.set_status EnrollmentStatusEnum.COMPLETED)))
            (run Campus.alice_enrolled empty_store))) = true
  /\ snd (serve (Campus.call Campus.alice
                   (UpdateEnrollment 1
                      (Campus.set_status EnrollmentStatusEnum.COMPLETED)))
            (run Campus.alice_enrolled empty_store))
     = run Campus.alice_enrolled empty_store.
Proof.
  split; [reflexivity|].
  exact (proj1 errors_leave_store_unchanged
           (Campus.call Campus.alice
              (UpdateEnrollment 1
                 (Campus.set_status EnrollmentStatusEnum.COMPLETED)))
           (run Campus.alice_enrolled empty_store) eq_refl).
Defined.

(** ** Reading instructors *)

Lemma in_page {A} (skip limit : Z) (rows : list A) (x : A) :
  In x (page skip limit rows) -> In x rows.
Proof.
  unfold page. intros H.
  rewrite <- (firstn_skipn (Z.to_nat skip) rows). apply in_or_app. right.
  rewrite <- (firstn_skipn (Z.to_nat limit) (skipn (Z.to_nat skip) rows)).
  apply in_or_app. now left.
Qed.





(** ** New enrollments *)

(** C10: an enrollment that the creation route returns has status enrolled,
    no grade, the time of the call as enrollment date and the two ids of
    the request; it is the row appended to the table.  The request is its
    two fields, so no caller can choose the status or the grade. *)
Theorem new_enrollment_is_enrolled (d : EnrollmentCreate.t) (u : User.t)
  (t : datetime) (s s' : Store) (e : Enrollment.t) :
  create_enrollment d u t s = (Ok e, s') ->
  Enrollment.status e = EnrollmentStatusEnum.ENROLLED
  /\ Enrollment.grade e = None
  /\ Enrollment.enrollment_date e = t
  /\ Enrollment.student_id e = EnrollmentCreate.student_id d
  /\ Enrollment.course_id e = EnrollmentCreate.course_id d
  /\ enrollments s' = enrollments s ++ [e]
  /\ d = {| EnrollmentCreate.student_id := EnrollmentCreate.student_id d;
            EnrollmentCreate.course_id := EnrollmentCreate.course_id d |}.
Proof.
  intros H.
  destruct (create_enrollment_ok d u t s s' e H)
    as (st & c & _ & _ & _ & _ & _ & -> & ->).
  destruct d. cbn. repeat split; reflexivity.
Qed.

(** C10 on the campus: Alice's new enrollment. *)
Lemma new_enrollment_is_enrolled_witness :
  exists e s',
    create_enrollment (Campus.seat 1 1) Campus.alice_user 1700000000
      (run Campus.opening empty_store) = (Ok e, s')
    /\ Enrollment.status e = EnrollmentStatusEnum.ENROLLED
    /\ Enrollment.grade e = None.
Proof.
  assert (E : exists e s',
            create_enrollment (Campus.seat 1 1) Campus.alice_user 1700000000
              (run Campus.opening empty_store) = (Ok e, s'))
    by (vm_compute; eexists _, _; reflexivity).
  destruct E as (e & s' & E).
  destruct (new_enrollment_is_enrolled _ _ _ _ _ _ E) as (H1 & H2 & _).
  exists e, s'. repeat split; assumption.
Defined.

(** ** The scenario of the last seat *)

(** CS101 has one seat.  Alice takes it; Bob is told the course is full;
    Alice drops; Bob then gets the seat. *)
Example seat_freed_by_drop :
  fst (serve (Campus.call Campus.bob (CreateEnrollment (Campus.seat 2 1)))
         (run Campus.alice_enrolled empty_store))
  = HTTPException HTTP_400_BAD_REQUEST "Course is full"
  /\ enrolled_count 1
       (run (Campus.alice_enrolled
             ++ [Campus.call Campus.alice
                   (UpdateEnrollment 1
                      (Campus.set_status EnrollmentStatusEnum.DROPPED))])
          empty_store) = 0
  /\ is_error
       (fst (serve
               (Campus.call Campus.bob (CreateEnrollment (Campus.seat 2 1)))
               (run (Campus.alice_enrolled
                     ++ [Campus.call Campus.alice
                           (UpdateEnrollment 1
                              (Campus.set_status
                                 EnrollmentStatusEnum.DROPPED))])
                  empty_store))) = false.
Proof. repeat split; reflexivity. Qed.

(** * More properties of the routes *)

(** ** Every write of every route *)

Section MoreTables.

Context {A : Type} (key : A -> Z).

Lemma in_update_row (row : A) (table : list A) (r : A) :
  In r (update_row key row table) -> r = row \/ In r table.
Proof.
  induction table as [|x rest IH]; cbn; [intros []|].
  destruct (key x =? key row); cbn; intuition.
Qed.

Lemma in_delete_row (row : A) (table : list A) (r : A) :
  In r (delete_row key row table) -> In r table.
Proof.
  induction table as [|x rest IH]; cbn; [intros []|].
  destruct (key x =? key row); cbn; intuition.
Qed.

(** A column that the new row shares with the row it replaces is the same
    column after the replacement. *)
Lemma map_update_row {B} (f : A -> B) (i : Z) (table : list A) (old row : A) :
  find (fun x => key x =? i) table = Some old ->
  key row = i -> f row = f old ->
  map f (update_row key row table) = map f table.
Proof.
  intros Hf Hk Hsame.
  destruct (update_row_found key i table old row Hf Hk)
    as (before & after & -> & ->).
  rewrite !map_app. cbn. now rewrite Hsame.
Qed.

Lemma nodup_map_delete_row {B} (f : A -> B) (row : A) (table : list A) :
  NoDup (map f table) -> NoDup (map f (delete_row key row table)).
Proof.
  induction table as [|x rest IH]; cbn; [auto|].
  intros Hnd. inversion Hnd as [|? ? Hnot Hrest]; subst.
  destruct (key x =? key row); [assumption|].
  cbn. constructor; [|now apply IH].
  intros Hin. apply Hnot. apply in_map_iff in Hin.
  destruct Hin as (y & Hy & Hin). apply in_map_iff. exists y.
  split; [assumption|]. now apply in_delete_row in Hin.
Qed.

Lemma nodup_map_snoc {B} (f : A -> B) (table : list A) (row : A) :
  NoDup (map f table) -> (forall r, In r table -> f r <> f row) ->
  NoDup (map f (table ++ [row])).
Proof.
  intros Hnd Hnew. rewrite map_app. cbn. apply NoDup_app.
  - assumption.
  - constructor; [intros []|constructor].
  - intros b Hb [<-|[]]. apply in_map_iff in Hb.
    destruct Hb as (r & Hr & Hin). exact (Hnew r Hin Hr).
Qed.

Lemma table_ok_insert (table : list A) (seq : Z) (row : A) :
  key row = seq -> table_ok key table seq ->
  table_ok key (table ++ [row]) (seq + 1).
Proof.
  intros Hk [Hlt Hnd]. split.
  - intros r Hin. apply in_app_or in Hin. destruct Hin as [Hin|[<-|[]]].
    + specialize (Hlt r Hin). lia.
    + lia.
  - apply nodup_map_snoc; [assumption|].
    intros r Hin. specialize (Hlt r Hin). lia.
Qed.

Lemma table_ok_update (i : Z) (table : list A) (seq : Z) (old row : A) :
  find (fun x => key x =? i) table = Some old -> key row = i ->
  table_ok key table seq -> table_ok key (update_row key row table) seq.
Proof.
  intros Hf Hk [Hlt Hnd]. destruct (find_by_key key i table old Hf) as [Hin Hi].
  split.
  - intros r Hr. apply in_update_row in Hr. destruct Hr as [->|Hr].
    + rewrite Hk, <- Hi. now apply Hlt.
    + now apply Hlt.
  - rewrite (map_update_row key i table old row Hf Hk); [assumption|].
    congruence.
Qed.

Lemma table_ok_delete (table : list A) (seq : Z) (row : A) :
  table_ok key table seq -> table_ok key (delete_row key row table) seq.
Proof.
  intros [Hlt Hnd]. split.
  - intros r Hr. apply Hlt. now apply in_delete_row in Hr.
  - now apply nodup_map_delete_row.
Qed.

(** In a table with distinct ids a row is found under its own id. *)
Lemma find_own_row (table : list A) (seq : Z) (r : A) :
  table_ok key table seq -> In r table ->
  find (fun x => key x =? key r) table = Some r.
Proof.
  intros [_ Hnd] Hin.
  destruct (find (fun x => key x =? key r) table) as [y|] eqn:E.
  - destruct (find_by_key key _ _ _ E) as [Hy Hk].
    f_equal. now apply (distinct_keys key table).
  - apply (find_none _ _ E) in Hin. now rewrite Z.eqb_refl in Hin.
Qed.

(** A fresh row is found under its id right after its insertion. *)
Lemma find_inserted (table : list A) (seq : Z) (row : A) :
  table_ok key table seq -> key row = seq ->
  find (fun x => key x =? seq) (table ++ [row]) = Some row.
Proof.
  intros [Hlt _] Hk. induction table as [|x rest IH]; cbn.
  - now rewrite Hk, Z.eqb_refl.
  - destruct (key x =? seq) eqn:E.
    + apply Z.eqb_eq in E. specialize (Hlt x (or_introl eq_refl)). lia.
    + apply IH. intros r Hr. apply Hlt. now right.
Qed.

(** A removed row is no longer found under its id. *)
Lemma find_deleted (i : Z) (table : list A) (seq : Z) (old : A) :
  table_ok key table seq ->
  find (fun x => key x =? i) table = Some old ->
  find (fun x => key x =? i) (delete_row key old table) = None.
Proof.
  intros [_ Hnd] Hf.
  destruct (find_by_key key i table old Hf) as [_ Hi].
  destruct (delete_row_found key i table old Hf)
    as (before & after & Hl & ->).
  destruct (find _ (before ++ after)) as [y|] eqn:E; [|reflexivity].
  destruct (find_by_key key _ _ _ E) as [Hy Hk].
  exfalso. rewrite Hl, map_app in Hnd. cbn in Hnd.
  apply NoDup_remove_2 in Hnd. apply Hnd.
  rewrite <- map_app, Hi, <- Hk. now apply in_map.
Qed.

End MoreTables.

Lemma find_none_key {A} (key : A -> string) (k : string) (l : list A) :
  find (fun x => (key x =? k)%string) l = None ->
  forall r, In r l -> key r <> k.
Proof.
  intros Hf r Hin. apply (find_none _ _ Hf) in Hin.
  now apply String.eqb_neq.
Qed.

Lemma route_written (r : Request) (u : User.t) (t : datetime) (s : Store) :
  Written s (snd (route r u t s)).
Proof.
  destruct r; unfold route; run_handler;
    repeat match goal with
           | H : negb (UserRole.eqb _ _) = false |- _ =>
               apply negb_false_iff, role_eqb_eq in H
           end;
    first [apply NothingWritten | solve [econstructor; cbn; eauto]].
Qed.

(** ** The consistent store *)

Lemma written_consistent (s s' : Store) :
  Written s s' -> consistent s -> consistent s'.
Proof.
  intros Hw Hc.
  pose proof Hc as [Hu Hst Hin Hco Hen He Hsi Hei Hcc Hss Hii Hact Href].
  destruct Hw as
    [ | u Hfree Hid Hactive | x user Hfree Huser Hrole Hid | i x d Hx | i x Hx
    | x user Hfree Huser Hrole Hid | i x d x' Hx Hset | i x Hx
    | c ins Hfree Hins Hid | i c d c' Hc' Hset | i c Hc'
    | e st c Hs Hc' Hid | i e d e' He' Hset | i e He' ];
    [assumption|..]; split; cbn; try assumption.
  all: try (apply table_ok_insert; assumption).
  all: try (apply table_ok_delete; assumption).
  all: try (apply nodup_map_delete_row; assumption).
  all: try (apply nodup_map_snoc; [assumption|];
            now apply find_none_key).
  - (* a user inserted: the student profiles keep their users *)
    intros x Hx. destruct (Hss x Hx) as (user & Hin' & Hrest).
    exists user. split; [apply in_or_app; now left | exact Hrest].
  - intros x Hx. destruct (Hii x Hx) as (user & Hin' & Hrest).
    exists user. split; [apply in_or_app; now left | exact Hrest].
  - intros u0 Hu0. apply in_app_or in Hu0.
    destruct Hu0 as [Hu0|[<-|[]]]; [now apply Hact | assumption].
  - (* a student inserted *)
    intros x0 Hx0. apply in_app_or in Hx0. destruct Hx0 as [Hx0|[<-|[]]].
    + now apply Hss.
    + destruct (find_by_key User.id _ _ _ Huser) as [Hin' Hid'].
      exists user. auto.
  - intros e Hin'. destruct (Href e Hin'). split; lia.
  - (* a student replaced *)
    destruct (find_by_key Student.id _ _ _ Hx) as [_ Hi].
    eapply table_ok_update; eauto.
  - destruct (find_by_key Student.id _ _ _ Hx) as [_ Hi].
    rewrite (map_update_row Student.id Student.student_id i _ x); auto.
  - intros x0 Hx0. apply in_update_row in Hx0. destruct Hx0 as [->|Hx0].
    + destruct (find_by_key Student.id _ _ _ Hx) as [Hin' _].
      exact (Hss x Hin').
    + now apply Hss.
  - intros x0 Hx0. apply in_delete_row in Hx0. now apply Hss.
  - (* an instructor inserted *)
    intros x0 Hx0. apply in_app_or in Hx0. destruct Hx0 as [Hx0|[<-|[]]].
    + now apply Hii.
    + destruct (find_by_key User.id _ _ _ Huser) as [Hin' Hid'].
      exists user. auto.
  - (* an instructor replaced *)
    destruct (find_by_key Instructor.id _ _ _ Hx) as [_ Hi].
    destruct (setattr_instructor_frame _ _ _ Hset) as (Hid & _).
    eapply table_ok_update; eauto. congruence.
  - destruct (find_by_key Instructor.id _ _ _ Hx) as [_ Hi].
    destruct (setattr_instructor_frame _ _ _ Hset) as (Hid & _ & Hemp & _).
    rewrite (map_update_row Instructor.id Instructor.employee_id i _ x);
      auto; congruence.
  - destruct (setattr_instructor_frame _ _ _ Hset) as (_ & Huid & _).
    intros x0 Hx0. apply in_update_row in Hx0. destruct Hx0 as [->|Hx0].
    + destruct (find_by_key Instructor.id _ _ _ Hx) as [Hin' _].
      rewrite Huid. exact (Hii x Hin').
    + now apply Hii.
  - intros x0 Hx0. apply in_delete_row in Hx0. now apply Hii.
  - intros e Hin'. destruct (Href e Hin'). split; lia.
  - (* a course replaced *)
    destruct (find_by_key Course.id _ _ _ Hc') as [_ Hi].
    destruct (setattr_course_frame _ _ _ Hset) as (Hid & _).
    eapply table_ok_update; eauto. congruence.
  - destruct (find_by_key Course.id _ _ _ Hc') as [_ Hi].
    destruct (setattr_course_frame _ _ _ Hset) as (Hid & Hcode & _).
    rewrite (map_update_row Course.id Course.course_code i _ c);
      auto; congruence.
  - (* an enrollment inserted *)
    intros e0 He0. apply in_app_or in He0. destruct He0 as [He0|[<-|[]]].
    + now apply Href.
    + destruct (find_by_key Student.id _ _ _ Hs) as [Hin1 Hid1].
      destruct (find_by_key Course.id _ _ _ Hc') as [Hin2 Hid2].
      rewrite <- Hid1, <- Hid2.
      split; [now apply (proj1 Hst) | now apply (proj1 Hco)].
  - (* an enrollment replaced *)
    destruct (find_by_key Enrollment.id _ _ _ He') as [_ Hi].
    destruct (setattr_enrollment_frame _ _ _ Hset) as (Hid & _).
    eapply table_ok_update; eauto. congruence.
  - destruct (setattr_enrollment_frame _ _ _ Hset) as (_ & Hsid & Hcid & _).
    intros e0 He0. apply in_update_row in He0. destruct He0 as [->|He0].
    + destruct (find_by_key Enrollment.id _ _ _ He') as [Hin' _].
      rewrite Hsid, Hcid. now apply Href.
    + now apply Href.
  - intros e0 He0. apply in_delete_row in He0. now apply Href.
Qed.

Lemma serve_written (c : Call) (s : Store) : Written s (snd (serve c s)).
Proof.
  destruct (serve_cases c s) as [[_ ->]|[u ->]].
  - apply NothingWritten.
  - apply route_written.
Qed.

(** From the empty store every trace ends in a consistent store. *)
Lemma consistent_from_empty (calls : list Call) :
  consistent (run calls empty_store).
Proof.
  apply (run_invariant (fun _ => true) consistent).
  - intros c s _ Hs. exact (written_consistent _ _ (serve_written c s) Hs).
  - apply Forall_forall. reflexivity.
  - split; cbn; try (split; [intros ? []|]);
      first [apply NoDup_nil | intros ? []].
Qed.

(** ** Invariants of every reachable state *)

(** X1: after any sequence of calls from the empty store no two users share
    an email, no two students a student id, no two instructors an employee
    id and no two courses a course code. *)
Theorem natural_keys_stay_unique (calls : list Call) :
  NoDup (map User.email (users (run calls empty_store)))
  /\ NoDup (map Student.student_id (students (run calls empty_store)))
  /\ NoDup (map Instructor.employee_id (instructors (run calls empty_store)))
  /\ NoDup (map Course.course_code (courses (run calls empty_store))).
Proof.
  destruct (consistent_from_empty calls).
  repeat split; assumption.
Qed.

Lemma user_of_profile (s : Store) (i : Z) (role : UserRole.t) :
  consistent s ->
  (exists user,
     In user (users s) /\ User.id user = i /\ User.role user = role) ->
  exists user, user_by_id i s = Some user /\ User.role user = role.
Proof.
  intros Hc (user & Hin & Hid & Hrole). exists user. split; [|assumption].
  unfold user_by_id. rewrite <- Hid.
  exact (find_own_row User.id _ _ _ (users_ok s Hc) Hin).
Qed.

(** X2: after any sequence of calls from the empty store the user a
    student profile names is stored and has the role student, and the user
    an instructor profile names is stored and has the role instructor. *)
Theorem profiles_match_roles (calls : list Call) :
  (forall x, In x (students (run calls empty_store)) ->
     exists user,
       user_by_id (Student.user_id x) (run calls empty_store) = Some user
       /\ User.role user = UserRole.STUDENT)
  /\ (forall x, In x (instructors (run calls empty_store)) ->
        exists user,
          user_by_id (Instructor.user_id x) (run calls empty_store)
          = Some user
          /\ User.role user = UserRole.INSTRUCTOR).
Proof.
  pose proof (consistent_from_empty calls) as Hc.
  split; intros x Hx; apply user_of_profile; try assumption.
  - exact (students_on_student_users _ Hc x Hx).
  - exact (instructors_on_instructor_users _ Hc x Hx).
Qed.

(** X3: no sequence of calls modifies or removes a stored user: from any
    store, the users table after the calls is the old table followed by the
    users registered meanwhile. *)
Theorem users_are_only_added (calls : list Call) (s : Store) :
  exists added, users (run calls s) = users s ++ added.
Proof.
  revert s. induction calls as [|c calls IH]; intros s.
  - exists []. cbn. now rewrite app_nil_r.
  - rewrite run_step. destruct (IH (snd (serve c s))) as (added & ->).
    destruct (serve_written c s);
      try (exists added; reflexivity).
    exists (u :: added). cbn. now rewrite <- app_assoc.
Qed.

(** ** Registration *)

Lemma find_some_key {A} (key : A -> string) (k : string) (l : list A) :
  (forall r, In r l -> key r <> k) ->
  find (fun x => (key x =? k)%string) l = None.
Proof.
  intros Hfree. induction l as [|x l IH]; cbn; [reflexivity|].
  destruct (String.eqb_spec (key x) k) as [E|_].
  - now destruct (Hfree x (or_introl eq_refl)).
  - apply IH. intros r Hr. apply Hfree. now right.
Qed.

(** X4: registration succeeds exactly when the email is free, and refuses
    no role.  When no stored user has the email of the request, whatever
    its role, the registration returns a user that is active (whatever
    [is_active] the request carries), has the role and the email of the
    request, the hash of its password and the next id; that user is
    appended to the table and the lookup by email finds it.  Conversely,
    when a registration succeeds the email was free. *)
Theorem registered_user (d : UserCreate.t) (t : datetime) (s : Store) :
  ((forall x, In x (users s) -> User.email x <> UserCreate.email d) ->
   exists u,
     register_user d t s
     = (Ok u, put_users (users s ++ [u]) (user_seq s + 1) s)
     /\ User.is_active u = true
     /\ User.role u = UserCreate.role d
     /\ User.email u = UserCreate.email d
     /\ User.hashed_password u = get_password_hash (UserCreate.password d)
     /\ User.id u = user_seq s
     /\ find (fun x => (User.email x =? UserCreate.email d)%string)
          (users s ++ [u]) = Some u)
  /\ (forall u s',
        register_user d t s = (Ok u, s') ->
        forall x, In x (users s) -> User.email x <> UserCreate.email d).
Proof.
  unfold register_user, bind, exec, raise, insert_user. split.
  - intros Hfree. rewrite (find_some_key _ _ _ Hfree).
    eexists. split; [reflexivity|]. cbn. repeat split.
    induction (users s) as [|x l IH]; cbn.
    + now rewrite String.eqb_refl.
    + destruct (String.eqb_spec (User.email x) (UserCreate.email d))
        as [E|_].
      * now destruct (Hfree x (or_introl eq_refl)).
      * apply IH. intros r Hr. apply Hfree. now right.
  - intros u s'. destruct (find _ (users s)) eqn:E; [discriminate|].
    intros _. now apply find_none_key.
Qed.

(** X4 on the campus: a fifth user registers as an administrator. *)
Lemma registered_user_witness :
  exists u s',
    register_user (Campus.person "eve@university.edu" UserRole.ADMIN) 5
      (run Campus.opening empty_store) = (Ok u, s')
    /\ User.is_active u = true
    /\ User.role u = UserRole.ADMIN.
Proof.
  assert (Hfree : forall x,
            In x (users (run Campus.opening empty_store)) ->
            User.email x <> "eve@university.edu").
  { apply find_none_key. vm_compute. reflexivity. }
  destruct (proj1 (registered_user
                     (Campus.person "eve@university.edu" UserRole.ADMIN) 5
                     (run Campus.opening empty_store)) Hfree)
    as (u & E & H1 & H2 & _).
  eexists u, _. split; [exact E|]. split; [exact H1 | exact H2].
Defined.

(** ** Reads *)

(** X5: a call of a GET route never writes: whatever the caller, the
    parameters and the outcome, the store after the call is the store
    before it. *)
Theorem reads_leave_store_unchanged (c : Call) (s : Store) :
  is_read (request c) = true -> snd (serve c s) = s.
Proof.
  destruct (serve_cases c s) as [[_ H]|[u ->]]; [intros _; exact H|].
  destruct (request c); cbn [is_read]; try discriminate; intros _;
    unfold route; run_handler; reflexivity.
Qed.

(** X5 on the campus: the administrator lists the courses. *)
Lemma reads_leave_store_unchanged_witness :
  is_read (GetCourses 0 100) = true
  /\ snd (serve (Campus.call Campus.admin (GetCourses 0 100))
            (run Campus.alice_enrolled empty_store))
     = run Campus.alice_enrolled empty_store.
Proof.
  split; [reflexivity|].
  exact (reads_leave_store_unchanged
           (Campus.call Campus.admin (GetCourses 0 100))
           (run Campus.alice_enrolled empty_store) eq_refl).
Defined.

(** ** Roles *)

(** X6: whatever a caller obtains, an administrator obtains too: when a
    request succeeds for some caller it succeeds for every administrator,
    and leaves the same store. *)
Theorem admin_can_do_what_anyone_can (r : Request) (u a : User.t)
  (t : datetime) (s : Store) :
  is_admin a = true ->
  is_error (fst (route r u t s)) = false ->
  is_error (fst (route r a t s)) = false
  /\ snd (route r a t s) = snd (route r u t s).
Proof.
  intros Ha. unfold staff.
  destruct r; unfold route; unfold_handlers; unfold staff;
    fold (is_admin a); rewrite ?Ha; cbn;
    repeat (break_match; cbn);
    intros; first [discriminate | split; reflexivity | congruence].
Qed.

Lemma serve_authenticated (c : Call) (s : Store) (u : User.t) :
  get_current_active_user (token c) s = (Ok u, s) ->
  serve c s = route (request c) u (now c) s.
Proof.
  intros H. unfold serve.
  destruct (request c); try reflexivity; unfold bind; now rewrite H.
Qed.

Lemma authenticated_user_is_stored (tok : string) (s : Store) (u : User.t) :
  get_current_active_user tok s = (Ok u, s) -> In u (users s).
Proof.
  unfold get_current_active_user, bind, exec, raise, ret.
  destruct (find _ (users s)) as [x|] eqn:E; [|discriminate].
  destruct (User.is_active x); [|discriminate].
  intros [= <-]. now apply find_some in E.
Qed.

(** In a consistent store a stored user owns the profiles of its role
    only. *)
Lemma owns_no_instructor_profile (s : Store) (u : User.t) :
  consistent s -> In u (users s) -> User.role u <> UserRole.INSTRUCTOR ->
  forall i x, instructor_by_id i s = Some x ->
    (User.id u =? Instructor.user_id x) = false.
Proof.
  intros Hc Hu Hrole i x Hx. apply Z.eqb_neq. intros Hid.
  destruct (find_by_key Instructor.id _ _ _ Hx) as [Hin _].
  destruct (instructors_on_instructor_users s Hc x Hin)
    as (user & Huser & Hid' & Hrole').
  assert (user = u) as ->; [|contradiction].
  apply (distinct_keys User.id (users s)); try assumption; [|congruence].
  exact (proj2 (users_ok s Hc)).
Qed.

Lemma owns_no_student_profile (s : Store) (u : User.t) :
  consistent s -> In u (users s) -> User.role u <> UserRole.STUDENT ->
  forall i x, student_by_id i s = Some x ->
    (User.id u =? Student.user_id x) = false.
Proof.
  intros Hc Hu Hrole i x Hx. apply Z.eqb_neq. intros Hid.
  destruct (find_by_key Student.id _ _ _ Hx) as [Hin _].
  destruct (students_on_student_users s Hc x Hin)
    as (user & Huser & Hid' & Hrole').
  assert (user = u) as ->; [|contradiction].
  apply (distinct_keys User.id (users s)); try assumption; [|congruence].
  exact (proj2 (users_ok s Hc)).
Qed.

Lemma student_role_writes (r : Request) (u : User.t) (t : datetime)
  (s : Store) :
  consistent s -> In u (users s) -> User.role u = UserRole.STUDENT ->
  instructors (snd (route r u t s)) = instructors s
  /\ courses (snd (route r u t s)) = courses s.
Proof.
  intros Hc Hu Hrole.
  assert (Hadmin : is_admin u = false) by (unfold is_admin; now rewrite Hrole).
  assert (Hown := owns_no_instructor_profile s u Hc Hu).
  rewrite Hrole in Hown. specialize (Hown ltac:(discriminate)).
  destruct r; unfold route; unfold_handlers; rewrite ?Hadmin; cbn;
    repeat (break_match; cbn);
    first
      [ split; reflexivity
      | exfalso;
        match goal with
        | H : instructor_by_id _ s = Some ?x,
          H' : negb (User.id u =? Instructor.user_id ?x) = false |- _ =>
            rewrite (Hown _ _ H) in H'; discriminate
        | H' : negb (owns_instructor u (instructor_by_id ?i s)) = false
          |- _ =>
            unfold owns_instructor in H';
            destruct (instructor_by_id i s) as [x|] eqn:H;
            [rewrite (Hown _ _ H) in H'|]; discriminate
        end ].
Qed.

Lemma instructor_role_writes (r : Request) (u : User.t) (t : datetime)
  (s : Store) :
  consistent s -> In u (users s) -> User.role u = UserRole.INSTRUCTOR ->
  students (snd (route r u t s)) = students s.
Proof.
  intros Hc Hu Hrole.
  assert (Hadmin : is_admin u = false) by (unfold is_admin; now rewrite Hrole).
  assert (Hown := owns_no_student_profile s u Hc Hu).
  rewrite Hrole in Hown. specialize (Hown ltac:(discriminate)).
  destruct r; unfold route; unfold_handlers; rewrite ?Hadmin; cbn;
    repeat (break_match; cbn);
    try first
      [ reflexivity
      | exfalso;
        match goal with
        | H : student_by_id _ s = Some ?x,
          H' : negb (User.id u =? Student.user_id ?x) = false |- _ =>
            rewrite (Hown _ _ H) in H'; discriminate
        end ].
  (* a student profile on the caller's own user *)
  exfalso.
  apply negb_false_iff, Z.eqb_eq in Heqb.
  apply negb_false_iff, role_eqb_eq in Heqb0.
  destruct (find_by_key User.id _ _ _ Heqo0) as [Hin Hid].
  assert (t0 = u) as ->; [|congruence].
  apply (distinct_keys User.id (users s)); try assumption; [|congruence].
  exact (proj2 (users_ok s Hc)).
Qed.

(** X7: after any sequence of calls from the empty store, a call made with
    the token of a user whose role is student leaves the instructors and
    the courses as they are, and a call made with the token of a user whose
    role is instructor leaves the students as they are. *)
Theorem roles_are_separated (calls : list Call) (c : Call) (u : User.t) :
  get_current_active_user (token c) (run calls empty_store)
  = (Ok u, run calls empty_store) ->
  (User.role u = UserRole.STUDENT ->
   instructors (snd (serve c (run calls empty_store)))
   = instructors (run calls empty_store)
   /\ courses (snd (serve c (run calls empty_store)))
      = courses (run calls empty_store))
  /\ (User.role u = UserRole.INSTRUCTOR ->
      students (snd (serve c (run calls empty_store)))
      = students (run calls empty_store)).
Proof.
  intros Hauth.
  pose proof (consistent_from_empty calls) as Hc.
  pose proof (authenticated_user_is_stored _ _ _ Hauth) as Hu.
  rewrite (serve_authenticated c _ u Hauth).
  split; intros Hrole.
  - now apply student_role_writes.
  - now apply instructor_role_writes.
Qed.

(** X7 on the campus: Alice, a student, asks to update CS101. *)
Lemma roles_are_separated_witness :
  courses
    (snd (serve (Campus.call Campus.alice
                   (UpdateCourse 1 (Campus.set_max_students 100)))
            (run Campus.opening empty_store)))
  = courses (run Campus.opening empty_store).
Proof.
  assert (Hauth :
            get_current_active_user
              (token (Campus.call Campus.alice
                        (UpdateCourse 1 (Campus.set_max_students 100))))
              (run Campus.opening empty_store)
            = (Ok Campus.alice_user, run Campus.opening empty_store))
    by (vm_compute; reflexivity).
  exact (proj2 (proj1 (roles_are_separated Campus.opening
                         (Campus.call Campus.alice
                            (UpdateCourse 1 (Campus.set_max_students 100)))
                         Campus.alice_user Hauth) eq_refl)).
Defined.

(** X6 on the campus: Alice may drop her enrollment, so the administrator
    may. *)
Lemma admin_can_do_what_anyone_can_witness :
  is_error
    (fst (route (UpdateEnrollment 1
                   (Campus.set_status EnrollmentStatusEnum.DROPPED))
            Campus.admin_user 0 (run Campus.alice_enrolled empty_store)))
  = false.
Proof.
  assert (H : is_error
                (fst (route (UpdateEnrollment 1
                               (Campus.set_status
                                  EnrollmentStatusEnum.DROPPED))
                        Campus.alice_user 0
                        (run Campus.alice_enrolled empty_store))) = false)
    by (vm_compute; reflexivity).
  exact (proj1 (admin_can_do_what_anyone_can _ Campus.alice_user
                  Campus.admin_user 0 _ eq_refl H)).
Defined.

(** ** Writing, then reading *)

Lemma create_student_ok (d : StudentCreate.t) (u : User.t) (s s' : Store)
  (x : Student.t) :
  create_student d u s = (Ok x, s') ->
  may_create_student u d = true
  /\ Student.id x = student_seq s
  /\ Student.user_id x = StudentCreate.user_id d
  /\ s' = put_students (students s ++ [x]) (student_seq s + 1) s.
Proof.
  unfold create_student, bind, exec, raise, insert_student,
    may_create_student.
  destruct (is_admin u); cbn;
    destruct (User.id u =? StudentCreate.user_id d); cbn;
    try discriminate;
    destruct (find _ (students s)); try discriminate;
    destruct (user_by_id _ s); try discriminate;
    destruct (negb _); try discriminate;
    intros [= <- <-]; auto.
Qed.

Lemma create_instructor_ok (d : InstructorCreate.t) (u : User.t)
  (s s' : Store) (x : Instructor.t) :
  create_instructor d u s = (Ok x, s') ->
  Instructor.id x = instructor_seq s
  /\ s' = put_instructors (instructors s ++ [x]) (instructor_seq s + 1) s.
Proof.
  unfold create_instructor, bind, exec, raise, insert_instructor.
  destruct (negb (is_admin u)); try discriminate.
  destruct (find _ (instructors s)); try discriminate.
  destruct (user_by_id _ s); try discriminate.
  destruct (negb _); try discriminate.
  intros [= <- <-]; auto.
Qed.

Lemma create_course_ok (d : CourseCreate.t) (u : User.t) (t : datetime)
  (s s' : Store) (c : Course.t) :
  create_course d u t s = (Ok c, s') ->
  Course.id c = course_seq s
  /\ Course.instructor_id c = CourseCreate.instructor_id d
  /\ (exists i, instructor_by_id (CourseCreate.instructor_id d) s = Some i)
  /\ s' = put_courses (courses s ++ [c]) (course_seq s + 1) s.
Proof.
  unfold create_course, bind, exec, raise, insert_course.
  destruct (negb (is_admin u)); try discriminate.
  destruct (find _ (courses s)); try discriminate.
  destruct (instructor_by_id _ s) eqn:E; try discriminate.
  intros [= <- <-]; eauto.
Qed.

(** [get_course] once the row is found: the assignment of the count
    fails. *)
Lemma get_course_found (i : Z) (u : User.t) (s : Store) (c : Course.t) :
  course_by_id i s = Some c -> get_course i u s = (ValueError, s).
Proof.
  intros Hc. unfold get_course, bind, exec. now rewrite Hc.
Qed.

(** [get_enrollment] once the row is found: the caller sees it or is
    refused. *)
Lemma get_enrollment_found (i : Z) (u : User.t) (s : Store)
  (e : Enrollment.t) :
  enrollment_by_id i s = Some e ->
  get_enrollment i u s
  = if can_see u s e then (Ok e, s)
    else (HTTPException HTTP_403_FORBIDDEN
            "Not authorized to view this enrollment", s).
Proof.
  intros He. unfold get_enrollment, bind, exec, raise, ret, can_see.
  rewrite He. cbn.
  destruct (is_admin u); [reflexivity|].
  destruct (owns_student u _); [reflexivity|].
  destruct (owns_instructor u _); reflexivity.
Qed.

(** X8: in a consistent store (every store reached from the empty one is),
    a row that a creation route returns is found under its id right
    away: its creator reads the new student profile and the new
    enrollment, and any caller reads the new instructor.  The new course is
    found too and counts no enrolled student, but its read ends in the
    [ValueError] of [get_course], not in NotFound. *)
Theorem created_rows_are_found (s : Store) :
  consistent s ->
  (forall d u x s',
     create_student d u s = (Ok x, s') ->
     get_student (Student.id x) u s' = (Ok x, s'))
  /\ (forall d u v x s',
        create_instructor d u s = (Ok x, s') ->
        get_instructor (Instructor.id x) v s' = (Ok x, s'))
  /\ (forall d u v t c s',
        create_course d u t s = (Ok c, s') ->
        course_by_id (Course.id c) s' = Some c
        /\ enrolled_count (Course.id c) s' = 0
        /\ get_course (Course.id c) v s' = (ValueError, s'))
  /\ (forall d u t e s',
        create_enrollment d u t s = (Ok e, s') ->
        get_enrollment (Enrollment.id e) u s' = (Ok e, s')).
Proof.
  intros Hc. split; [|split; [|split]].
  - intros d u x s' H.
    destruct (create_student_ok _ _ _ _ _ H) as (Hmay & Hid & Huid & ->).
    unfold get_student, bind, exec, raise, ret, student_by_id. cbn.
    rewrite Hid, (find_inserted Student.id _ _ x (students_ok s Hc) Hid).
    assert (Hgate : negb (staff u)
                    && negb (User.id u =? Student.user_id x) = false).
    { unfold staff, may_create_student, is_admin in *. rewrite Huid.
      destruct (UserRole.eqb (User.role u) UserRole.ADMIN); cbn in *;
        [reflexivity|].
      rewrite Hmay. apply andb_false_r. }
    now rewrite Hgate.
  - intros d u v x s' H.
    destruct (create_instructor_ok _ _ _ _ _ H) as (Hid & ->).
    unfold get_instructor, bind, exec, raise, ret, instructor_by_id. cbn.
    now rewrite Hid,
      (find_inserted Instructor.id _ _ x (instructors_ok s Hc) Hid).
  - intros d u v t c s' H.
    destruct (create_course_ok _ _ _ _ _ _ H) as (Hid & _ & _ & ->).
    assert (Hfound : course_by_id (Course.id c)
                       (put_courses (courses s ++ [c]) (course_seq s + 1) s)
                     = Some c).
    { unfold course_by_id. cbn. rewrite Hid.
      exact (find_inserted Course.id _ _ c (courses_ok s Hc) Hid). }
    split; [exact Hfound|]. split; [|exact (get_course_found _ v _ _ Hfound)].
    rewrite Hid, (enrolled_count_same (course_seq s) s); [|reflexivity].
    apply enrolled_count_fresh.
    intros e He. now apply (enrollments_refer_to_allocated s Hc).
  - intros d u t e s' H.
    destruct (create_enrollment_ok _ _ _ _ _ _ H)
      as (st & c & Hst & Hco & Hmay & _ & _ & He & ->).
    assert (Hid : Enrollment.id e = enrollment_seq s) by (now rewrite He).
    assert (Hsid : Enrollment.student_id e = EnrollmentCreate.student_id d)
      by (now rewrite He).
    assert (Hcid : Enrollment.course_id e = EnrollmentCreate.course_id d)
      by (now rewrite He).
    rewrite (get_enrollment_found _ u _ e).
    + replace (can_see u _ e) with (may_enroll u st c s); [now rewrite Hmay|].
      unfold can_see, may_enroll. rewrite Hsid, Hcid.
      change (student_by_id (EnrollmentCreate.student_id d) _)
        with (student_by_id (EnrollmentCreate.student_id d) s).
      change (course_by_id (EnrollmentCreate.course_id d) _)
        with (course_by_id (EnrollmentCreate.course_id d) s).
      now rewrite Hst, Hco.
    + unfold enrollment_by_id. cbn. rewrite Hid.
      exact (find_inserted Enrollment.id _ _ e (enrollments_ok s Hc) Hid).
Qed.

(** X8 on the campus: Alice enrolls in CS101 and reads her enrollment. *)
Lemma created_rows_are_found_witness :
  exists e s',
    create_enrollment (Campus.seat 1 1) Campus.alice_user 1700000000
      (run Campus.opening empty_store) = (Ok e, s')
    /\ get_enrollment (Enrollment.id e) Campus.alice_user s' = (Ok e, s').
Proof.
  assert (E : exists e s',
            create_enrollment (Campus.seat 1 1) Campus.alice_user 1700000000
              (run Campus.opening empty_store) = (Ok e, s'))
    by (vm_compute; eexists _, _; reflexivity).
  destruct E as (e & s' & E). exists e, s'. split; [exact E|].
  exact (proj2 (proj2 (proj2
           (created_rows_are_found _
              (consistent_from_empty Campus.opening))))
           _ _ _ _ _ E).
Defined.

Lemma update_enrollment_seen (i : Z) (d : EnrollmentUpdate.t) (u : User.t)
  (s s' : Store) (e' : Enrollment.t) :
  update_enrollment i d u s = (Ok e', s') ->
  exists e,
    enrollment_by_id i s = Some e
    /\ setattr_enrollment d e = Some e'
    /\ can_see u s e = true
    /\ s' = put_enrollments (update_row Enrollment.id e' (enrollments s))
              (enrollment_seq s) s.
Proof.
  destruct (enrollment_by_id i s) as [e|] eqn:He.
  - rewrite (update_enrollment_found i d u s e He). cbn zeta. intros H.
    exists e. unfold can_see.
    destruct (is_admin u); cbn.
    + apply save_enrollment_ok in H. tauto.
    + destruct (owns_student u _); cbn.
      * destruct (not_a_drop d); [discriminate|].
        apply save_enrollment_ok in H. tauto.
      * destruct (owns_instructor u _); [|discriminate].
        apply save_enrollment_ok in H. tauto.
  - unfold update_enrollment, bind, exec, raise. rewrite He. discriminate.
Qed.

(** X9: a caller reads back what an update returned: after a successful
    update the read of the same id returns the updated row, to the updater
    for a student or an enrollment, to any caller for an instructor.  An
    updated course is found under its id and is listed among the courses of
    its instructor, if that instructor is stored; its own read ends in the
    [ValueError] of [get_course]. *)
Theorem updated_rows_are_read_back :
  (forall i d u s x' s',
     update_student i d u s = (Ok x', s') ->
     get_student i u s' = (Ok x', s'))
  /\ (forall i d u v s x' s',
        update_instructor i d u s = (Ok x', s') ->
        get_instructor i v s' = (Ok x', s'))
  /\ (forall i d u v s c' s',
        update_course i d u s = (Ok c', s') ->
        course_by_id i s' = Some c'
        /\ get_course i v s' = (ValueError, s')
        /\ (forall x,
              instructor_by_id (Course.instructor_id c') s' = Some x ->
              exists l,
                get_instructor_courses (Course.instructor_id c') v s'
                = (Ok l, s')
                /\ In c' l))
  /\ (forall i d u s e' s',
        update_enrollment i d u s = (Ok e', s') ->
        get_enrollment i u s' = (Ok e', s')).
Proof.
  split; [|split; [|split]].
  - intros i d u s x' s'.
    unfold update_student, bind, exec, raise, save_student.
    destruct (student_by_id i s) as [x|] eqn:Hx; [|discriminate].
    destruct (negb (is_admin u) && _) eqn:Hgate; [discriminate|].
    intros [= <- <-].
    destruct (find_by_key Student.id _ _ _ Hx) as [_ Hi].
    unfold get_student, bind, exec, raise, ret, student_by_id. cbn.
    rewrite (find_updated Student.id i _ x (setattr_student d x) Hx Hi). cbn.
    replace (negb (staff u) && negb (User.id u =? Student.user_id x))
      with false; [reflexivity|].
    symmetry. unfold staff, is_admin in *.
    destruct (UserRole.eqb (User.role u) UserRole.ADMIN); [reflexivity|].
    cbn in Hgate. rewrite Hgate. apply andb_false_r.
  - intros i d u v s x' s'.
    unfold update_instructor, bind, exec, raise, save_instructor.
    destruct (instructor_by_id i s) as [x|] eqn:Hx; [|discriminate].
    destruct (_ && _); [discriminate|].
    destruct (setattr_instructor d x) as [y|] eqn:Hset; [|discriminate].
    intros [= <- <-].
    destruct (find_by_key Instructor.id _ _ _ Hx) as [_ Hi].
    destruct (setattr_instructor_frame _ _ _ Hset) as (Hid & _).
    unfold get_instructor, bind, exec, raise, ret, instructor_by_id. cbn.
    rewrite (find_updated Instructor.id i _ x y Hx); [reflexivity|].
    congruence.
  - intros i d u v s c' s'.
    unfold update_course, bind, exec, raise, save_course.
    destruct (course_by_id i s) as [c|] eqn:Hx; [|discriminate].
    destruct (_ && _); [discriminate|].
    destruct (setattr_course d c) as [y|] eqn:Hset; [|discriminate].
    intros [= <- <-].
    destruct (find_by_key Course.id _ _ _ Hx) as [_ Hi].
    destruct (setattr_course_frame _ _ _ Hset) as (Hid & _).
    assert (Hfound : course_by_id i
                       (put_courses (update_row Course.id y (courses s))
                          (course_seq s) s) = Some y).
    { unfold course_by_id. cbn.
      apply (find_updated Course.id i _ c y Hx). congruence. }
    split; [exact Hfound|]. split; [exact (get_course_found _ v _ _ Hfound)|].
    intros x Hinstr.
    unfold get_instructor_courses, bind, exec. rewrite Hinstr.
    eexists. split; [reflexivity|]. cbn.
    apply filter_In. split; [|apply Z.eqb_refl].
    destruct (update_row_found Course.id i _ c y Hx)
      as (before & after & _ & ->); [congruence|].
    apply in_elt.
  - intros i d u s e' s' H.
    destruct (update_enrollment_seen _ _ _ _ _ _ H)
      as (e & He & Hset & Hsee & ->).
    destruct (find_by_key Enrollment.id _ _ _ He) as [_ Hi].
    destruct (setattr_enrollment_frame _ _ _ Hset) as (Hid & Hs & Hc & _).
    rewrite (get_enrollment_found i u _ e').
    + replace (can_see u _ e') with (can_see u s e); [now rewrite Hsee|].
      unfold can_see. now rewrite Hs, Hc.
    + unfold enrollment_by_id. cbn.
      apply (find_updated Enrollment.id i _ e); [assumption | congruence].
Qed.

(** X9 on the campus: Smith grades Alice's enrollment and reads it back. *)
Lemma updated_rows_are_read_back_witness :
  exists e' s',
    update_enrollment 1 (Campus.set_grade "A") Campus.smith_user
      (run Campus.alice_enrolled empty_store) = (Ok e', s')
    /\ get_enrollment 1 Campus.smith_user s' = (Ok e', s').
Proof.
  assert (E : exists e' s',
            update_enrollment 1 (Campus.set_grade "A") Campus.smith_user
              (run Campus.alice_enrolled empty_store) = (Ok e', s'))
    by (vm_compute; eexists _, _; reflexivity).
  destruct E as (e' & s' & E). exists e', s'. split; [exact E|].
  exact (proj2 (proj2 (proj2 updated_rows_are_read_back)) _ _ _ _ _ _ E).
Defined.

(** X10: in a consistent store, after a delete that succeeds the id is no
    longer found: the read of that id is NotFound for every caller. *)
Theorem deleted_rows_are_gone (s : Store) :
  consistent s ->
  (forall i u v m s',
     delete_student i u s = (Ok m, s') ->
     get_student i v s'
     = (HTTPException HTTP_404_NOT_FOUND "Student not found", s'))
  /\ (forall i u v m s',
        delete_instructor i u s = (Ok m, s') ->
        get_instructor i v s'
        = (HTTPException HTTP_404_NOT_FOUND "Instructor not found", s'))
  /\ (forall i u v m s',
        delete_course i u s = (Ok m, s') ->
        get_course i v s'
        = (HTTPException HTTP_404_NOT_FOUND "Course not found", s'))
  /\ (forall i u v m s',
        delete_enrollment i u s = (Ok m, s') ->
        get_enrollment i v s'
        = (HTTPException HTTP_404_NOT_FOUND "Enrollment not found", s')).
Proof.
  intros Hc. repeat split; intros i u v m s'.
  - unfold delete_student, bind, exec, raise, ret, remove_student.
    destruct (negb (is_admin u)); [discriminate|].
    destruct (student_by_id i s) as [x|] eqn:Hx; [|discriminate].
    destruct (existsb _ _); [discriminate|].
    intros [= _ <-].
    unfold get_student, bind, exec, raise, student_by_id. cbn.
    now rewrite (find_deleted Student.id i _ _ x (students_ok s Hc) Hx).
  - unfold delete_instructor, bind, exec, raise, ret, remove_instructor.
    destruct (negb (is_admin u)); [discriminate|].
    destruct (instructor_by_id i s) as [x|] eqn:Hx; [|discriminate].
    destruct (existsb _ _); [discriminate|].
    intros [= _ <-].
    unfold get_instructor, bind, exec, raise, instructor_by_id. cbn.
    now rewrite
      (find_deleted Instructor.id i _ _ x (instructors_ok s Hc) Hx).
  - unfold delete_course, bind, exec, raise, ret, remove_course.
    destruct (negb (is_admin u)); [discriminate|].
    destruct (course_by_id i s) as [x|] eqn:Hx; [|discriminate].
    destruct (existsb _ _); [discriminate|].
    intros [= _ <-].
    unfold get_course, bind, exec, raise, course_by_id. cbn.
    now rewrite (find_deleted Course.id i _ _ x (courses_ok s Hc) Hx).
  - unfold delete_enrollment, bind, exec, raise, ret, remove_enrollment.
    destruct (negb (is_admin u)); [discriminate|].
    destruct (enrollment_by_id i s) as [x|] eqn:Hx; [|discriminate].
    intros [= _ <-].
    unfold get_enrollment, bind, exec, raise, enrollment_by_id. cbn.
    now rewrite
      (find_deleted Enrollment.id i _ _ x (enrollments_ok s Hc) Hx).
Qed.

(** X10 on the campus: the administrator deletes CS101; Smith no longer
    finds it. *)
Lemma deleted_rows_are_gone_witness :
  exists m s',
    delete_course 1 Campus.admin_user (run Campus.opening empty_store)
    = (Ok m, s')
    /\ get_course 1 Campus.smith_user s'
       = (HTTPException HTTP_404_NOT_FOUND "Course not found", s').
Proof.
  assert (E : exists m s',
            delete_course 1 Campus.admin_user
              (run Campus.opening empty_store) = (Ok m, s'))
    by (vm_compute; eexists _, _; reflexivity).
  destruct E as (m & s' & E). exists m, s'. split; [exact E|].
  exact (proj1 (proj2 (proj2
           (deleted_rows_are_gone _
              (consistent_from_empty Campus.opening))))
           _ _ _ _ _ E).
Defined.

(** ** Listing *)

Lemma length_page {A} (skip limit : Z) (rows : list A) :
  (List.length (page skip limit rows) <= Z.to_nat limit)%nat.
Proof. unfold page. apply firstn_le_length. Qed.

Lemma length_filter_le {A} (p : A -> bool) (l : list A) :
  (List.length (filter p l) <= List.length l)%nat.
Proof.
  induction l as [|x l IH]; cbn; [lia|]. destruct (p x); cbn; lia.
Qed.

(** The rows of [get_enrollments]. *)
Lemma get_enrollments_rows (skip limit : Z) (student_id course_id : option Z)
  (u : User.t) (s : Store) :
  exists l,
    get_enrollments skip limit student_id course_id u s = (Ok l, s)
    /\ (forall e, In e l ->
          In e (enrollments s)
          /\ matches student_id (Enrollment.student_id e) = true
          /\ matches course_id (Enrollment.course_id e) = true
          /\ can_see u s e = true)
    /\ (List.length l <= Z.to_nat limit)%nat.
Proof.
  eexists. split; [reflexivity|]. split.
  - intros e He. apply filter_In in He. destruct He as [He Hsee].
    apply in_page in He. apply filter_In in He. destruct He as [He Hc].
    apply filter_In in He. destruct He as [He Hs]. auto.
  - eapply Nat.le_trans; [apply length_filter_le | apply length_page].
Qed.

(** X11: the enrollment list never shows a caller a row it may not see:
    every row returned is a stored row that matches the two filters (a
    filter that is absent or 0 matches every row) and that the caller may
    see, as admin, as the user of the row's student, or as the user of the
    instructor of the row's course; and the list is no longer than
    [limit]. *)
Theorem listed_enrollments_are_visible (skip limit : Z)
  (student_id course_id : option Z) (u : User.t) (s : Store) :
  exists l,
    get_enrollments skip limit student_id course_id u s = (Ok l, s)
    /\ (forall e, In e l ->
          In e (enrollments s)
          /\ (forall i, student_id = Some i -> i <> 0 ->
                Enrollment.student_id e = i)
          /\ (forall i, course_id = Some i -> i <> 0 ->
                Enrollment.course_id e = i)
          /\ (is_admin u = true
              \/ (exists st,
                    student_by_id (Enrollment.student_id e) s = Some st
                    /\ Student.user_id st = User.id u)
              \/ (exists c x,
                    course_by_id (Enrollment.course_id e) s = Some c
                    /\ instructor_by_id (Course.instructor_id c) s = Some x
                    /\ Instructor.user_id x = User.id u)))
    /\ (List.length l <= Z.to_nat limit)%nat.
Proof.
  destruct (get_enrollments_rows skip limit student_id course_id u s)
    as (l & Hl & Hrows & Hlen).
  exists l. split; [exact Hl|]. split; [|exact Hlen].
  intros e He. destruct (Hrows e He) as (Hin & Hs & Hc & Hsee).
  split; [exact Hin|]. split; [|split].
  - intros i -> Hi. cbn in Hs. destruct (i =? 0) eqn:E.
    + now apply Z.eqb_eq in E.
    + now apply Z.eqb_eq in Hs.
  - intros i -> Hi. cbn in Hc. destruct (i =? 0) eqn:E.
    + now apply Z.eqb_eq in E.
    + now apply Z.eqb_eq in Hc.
  - unfold can_see in Hsee. apply orb_true_iff in Hsee.
    destruct Hsee as [Hsee|Hsee]; [apply orb_true_iff in Hsee|].
    + destruct Hsee as [Hsee|Hsee]; [now left|]. right; left.
      unfold owns_student in Hsee.
      destruct (student_by_id _ s) as [st|] eqn:Est; [|discriminate].
      exists st. split; [reflexivity|]. symmetry. now apply Z.eqb_eq.
    + right; right. unfold owns_instructor, instructor_of in Hsee.
      destruct (course_by_id _ s) as [c|] eqn:Ec; [|discriminate].
      destruct (instructor_by_id _ s) as [x|] eqn:Ex; [|discriminate].
      exists c, x. split; [reflexivity|]. split; [exact Ex|].
      symmetry. now apply Z.eqb_eq.
Qed.

(** X12: the list and the single read agree: in a consistent store every
    enrollment that the list shows a caller is returned to that caller by
    the read of its id. *)
Theorem listed_enrollment_can_be_read (skip limit : Z)
  (student_id course_id : option Z) (u : User.t) (s : Store)
  (l : list Enrollment.t) (e : Enrollment.t) :
  consistent s ->
  get_enrollments skip limit student_id course_id u s = (Ok l, s) ->
  In e l ->
  get_enrollment (Enrollment.id e) u s = (Ok e, s).
Proof.
  intros Hc Hl He.
  destruct (get_enrollments_rows skip limit student_id course_id u s)
    as (l' & Hl' & Hvis & _).
  rewrite Hl in Hl'. injection Hl' as <-.
  destruct (Hvis e He) as (Hin & _ & _ & Hsee).
  rewrite (get_enrollment_found _ u s e).
  - now rewrite Hsee.
  - exact (find_own_row Enrollment.id _ _ e (enrollments_ok s Hc) Hin).
Qed.

(** X12 on the campus: Alice lists the enrollments and reads each one. *)
Lemma listed_enrollment_can_be_read_witness :
  exists l,
    get_enrollments 0 100 None None Campus.alice_user
      (run Campus.alice_enrolled empty_store)
    = (Ok l, run Campus.alice_enrolled empty_store)
    /\ l <> []
    /\ forall e, In e l ->
         get_enrollment (Enrollment.id e) Campus.alice_user
           (run Campus.alice_enrolled empty_store)
         = (Ok e, run Campus.alice_enrolled empty_store).
Proof.
  assert (E : exists l,
            get_enrollments 0 100 None None Campus.alice_user
              (run Campus.alice_enrolled empty_store)
            = (Ok l, run Campus.alice_enrolled empty_store)
            /\ l <> [])
    by (vm_compute; eexists; split; [reflexivity | discriminate]).
  destruct E as (l & E & Hne). exists l. split; [exact E|].
  split; [exact Hne|]. intros e He.
  exact (listed_enrollment_can_be_read 0 100 None None Campus.alice_user _
           l e (consistent_from_empty Campus.alice_enrolled) E He).
Defined.

Lemma filter_both {A} (p q : A -> bool) (l : list A) :
  filter (fun x => p x && q x) l = filter q (filter p l).
Proof.
  induction l as [|x l IH]; cbn; [reflexivity|].
  destruct (p x); cbn; [destruct (q x); now rewrite IH | exact IH].
Qed.

(** X13: the enrolled count of a course is only to be had from the list
    of its enrollments.  Whenever [get_course_enrollments] returns the rows
    of a course, [get_course] on that course ends in the [ValueError] for
    every caller, and the count that [get_course] computes before the
    failing assignment is the number of rows with status enrolled in that
    list. *)
Theorem count_matches_course_enrollments (i : Z) (u a : User.t) (s : Store)
  (l : list Enrollment.t) :
  get_course_enrollments i a s = (Ok l, s) ->
  get_course i u s = (ValueError, s)
  /\ enrolled_count i s
     = Z.of_nat
         (List.length
            (filter
               (fun e =>
                  EnrollmentStatusEnum.eqb (Enrollment.status e)
                    EnrollmentStatusEnum.ENROLLED) l)).
Proof.
  unfold get_course_enrollments, bind, exec, raise.
  destruct (course_by_id i s) as [c|] eqn:Hc; [|discriminate].
  destruct (_ && _); [discriminate|].
  intros [= <-]. split; [exact (get_course_found i u s c Hc)|].
  unfold enrolled_count, enrolled_in. now rewrite filter_both.
Qed.

(** X13 on the campus: CS101 after Alice enrolled, listed by Smith and
    read by Alice. *)
Lemma count_matches_course_enrollments_witness :
  exists l,
    get_course_enrollments 1 Campus.smith_user
      (run Campus.alice_enrolled empty_store)
    = (Ok l, run Campus.alice_enrolled empty_store)
    /\ l <> []
    /\ get_course 1 Campus.alice_user (run Campus.alice_enrolled empty_store)
       = (ValueError, run Campus.alice_enrolled empty_store)
    /\ enrolled_count 1 (run Campus.alice_enrolled empty_store)
       = Z.of_nat
           (List.length
              (filter
                 (fun e =>
                    EnrollmentStatusEnum.eqb (Enrollment.status e)
                      EnrollmentStatusEnum.ENROLLED) l)).
Proof.
  assert (E : exists l,
            get_course_enrollments 1 Campus.smith_user
              (run Campus.alice_enrolled empty_store)
            = (Ok l, run Campus.alice_enrolled empty_store)
            /\ l <> [])
    by (vm_compute; eexists; split; [reflexivity | discriminate]).
  destruct E as (l & E & Hne). exists l.
  split; [exact E|]. split; [exact Hne|].
  exact (count_matches_course_enrollments 1 Campus.alice_user
           Campus.smith_user _ l E).
Defined.

(** The page is empty exactly when it starts past the end of the table. *)
Lemma page_nil {A} (skip limit : Z) (rows : list A) :
  0 < limit ->
  page skip limit rows = []
  <-> (List.length rows <= Z.to_nat skip)%nat.
Proof.
  intros Hlimit. unfold page. split.
  - intros H. rewrite <- (firstn_skipn (Z.to_nat skip) rows).
    destruct (skipn (Z.to_nat skip) rows) as [|x rest] eqn:E.
    + rewrite app_nil_r. apply firstn_le_length.
    + destruct (Z.to_nat limit) eqn:El; [lia | discriminate].
  - intros H. now rewrite skipn_all2, firstn_nil.
Qed.

(** X14: the course list works on an empty page only.  With a positive
    limit it returns the empty list when [skip] is at least the number of
    courses and ends in the [ValueError] otherwise, whoever calls; and the
    read of every stored course ends in the same error. *)
Theorem course_list_fails_on_any_course (skip limit : Z) (u : User.t)
  (s : Store) :
  0 < limit ->
  get_courses skip limit u s
  = (if (Z.to_nat skip <? List.length (courses s))%nat then ValueError
     else Ok [], s)
  /\ (forall c v,
        In c (courses s) -> get_course (Course.id c) v s = (ValueError, s)).
Proof.
  intros Hlimit. split.
  - rewrite get_courses_cases.
    pose proof (page_nil skip limit (courses s) Hlimit) as Hnil.
    destruct (Nat.ltb_spec (Z.to_nat skip) (List.length (courses s)))
      as [Hlt|Hge].
    + destruct (page skip limit (courses s)); [|reflexivity].
      assert (List.length (courses s) <= Z.to_nat skip)%nat
        by (now apply Hnil).
      lia.
    + now rewrite (proj2 Hnil Hge).
  - intros c v Hin.
    destruct (course_by_id (Course.id c) s) as [c0|] eqn:Hc.
    + exact (get_course_found _ v s c0 Hc).
    + apply (find_none _ _ Hc) in Hin. now rewrite Z.eqb_refl in Hin.
Qed.

(** X14 on the campus: Alice lists the courses of the opening, and Bob
    reads CS101. *)
Lemma course_list_fails_on_any_course_witness :
  get_courses 0 100 Campus.alice_user (run Campus.opening empty_store)
  = (ValueError, run Campus.opening empty_store)
  /\ get_courses 1 100 Campus.alice_user (run Campus.opening empty_store)
     = (Ok [], run Campus.opening empty_store)
  /\ exists c,
       course_by_id 1 (run Campus.opening empty_store) = Some c
       /\ get_course (Course.id c) Campus.bob_user
            (run Campus.opening empty_store)
          = (ValueError, run Campus.opening empty_store).
Proof.
  split; [|split].
  - exact (proj1 (course_list_fails_on_any_course 0 100 Campus.alice_user
                    (run Campus.opening empty_store) eq_refl)).
  - exact (proj1 (course_list_fails_on_any_course 1 100 Campus.alice_user
                    (run Campus.opening empty_store) eq_refl)).
  - assert (E : exists c,
              course_by_id 1 (run Campus.opening empty_store) = Some c)
      by (vm_compute; eexists; reflexivity).
    destruct E as (c & E). exists c. split; [exact E|].
    apply (proj2 (course_list_fails_on_any_course 0 100 Campus.alice_user
                    (run Campus.opening empty_store) eq_refl)).
    unfold course_by_id in E. now apply find_some in E.
Defined.

(** X15: a student's enrollments are shown to exactly the callers the
    student is shown to: the two reads end in the same status, and when
    they succeed the list holds exactly the stored rows of that student. *)
Theorem student_enrollments_follow_student (i : Z) (u : User.t) (s : Store) :
  status_of (fst (get_student_enrollments i u s))
  = status_of (fst (get_student i u s))
  /\ (forall l,
        get_student_enrollments i u s = (Ok l, s) ->
        forall e,
          In e l <-> In e (enrollments s) /\ Enrollment.student_id e = i).
Proof.
  unfold get_student_enrollments, get_student, bind, exec, raise, ret.
  destruct (student_by_id i s) as [x|].
  - destruct (_ && _); cbn; (split; [reflexivity|]); [discriminate|].
    intros l [= <-] e. rewrite filter_In, Z.eqb_eq. tauto.
  - cbn. split; [reflexivity | discriminate].
Qed.

(** X16: a course is listed under the instructor it was created for, and
    a course listed under an instructor can be updated by that instructor's
    user: in a consistent store the update passes the existence and the
    authorization checks and commits the row with the request's fields. *)
Theorem instructor_courses_are_owned :
  (forall d u v t s c s',
     create_course d u t s = (Ok c, s') ->
     exists l,
       get_instructor_courses (CourseCreate.instructor_id d) v s'
       = (Ok l, s')
       /\ In c l)
  /\ (forall i v u d s x l c,
        consistent s ->
        instructor_by_id i s = Some x ->
        Instructor.user_id x = User.id u ->
        get_instructor_courses i v s = (Ok l, s) ->
        In c l ->
        update_course (Course.id c) d u s
        = save_course (setattr_course d c) s).
Proof.
  split.
  - intros d u v t s c s' H.
    destruct (create_course_ok _ _ _ _ _ _ H) as (_ & Hins & (x & Hx) & ->).
    unfold get_instructor_courses, bind, exec, raise.
    change (instructor_by_id (CourseCreate.instructor_id d) _)
      with (instructor_by_id (CourseCreate.instructor_id d) s).
    rewrite Hx. eexists. split; [reflexivity|].
    apply filter_In. cbn. split; [apply in_or_app; right; now left|].
    now apply Z.eqb_eq.
  - intros i v u d s x l c Hc Hx Hown.
    unfold get_instructor_courses, bind, exec, raise. rewrite Hx.
    intros [= <-] Hin. apply filter_In in Hin. destruct Hin as [Hin Hi].
    apply Z.eqb_eq in Hi.
    unfold update_course, bind, exec, raise, course_by_id.
    rewrite (find_own_row Course.id _ _ c (courses_ok s Hc) Hin).
    rewrite Hi, Hx. cbn. rewrite Hown, Z.eqb_refl. cbn.
    now rewrite andb_false_r.
Qed.

(** X16 on the campus: Smith renames nothing but may update CS101. *)
Lemma instructor_courses_are_owned_witness :
  exists l,
    get_instructor_courses 1 Campus.alice_user
      (run Campus.opening empty_store)
    = (Ok l, run Campus.opening empty_store)
    /\ l <> []
    /\ forall c, In c l ->
         update_course (Course.id c) (Campus.set_max_students 2)
           Campus.smith_user (run Campus.opening empty_store)
         = save_course (setattr_course (Campus.set_max_students 2) c)
             (run Campus.opening empty_store).
Proof.
  assert (E : exists l,
            get_instructor_courses 1 Campus.alice_user
              (run Campus.opening empty_store)
            = (Ok l, run Campus.opening empty_store)
            /\ l <> [])
    by (vm_compute; eexists; split; [reflexivity | discriminate]).
  assert (Ex : exists x,
            instructor_by_id 1 (run Campus.opening empty_store) = Some x
            /\ Instructor.user_id x = User.id Campus.smith_user)
    by (vm_compute; eexists; split; reflexivity).
  destruct E as (l & E & Hne). destruct Ex as (x & Hx & Hown). exists l.
  split; [exact E|]. split; [exact Hne|]. intros c Hin.
  exact (proj2 instructor_courses_are_owned 1 Campus.alice_user
           Campus.smith_user (Campus.set_max_students 2) _ x l c
           (consistent_from_empty Campus.opening) Hx Hown E Hin).
Defined.

(** ** Seats *)

Lemma enrolled_count_inserted (cid seq : Z) (s : Store) (e : Enrollment.t) :
  enrolled_count cid (put_enrollments (enrollments s ++ [e]) seq s)
  = enrolled_count cid s + (if enrolled_in cid e then 1 else 0).
Proof. now apply enrolled_count_appended. Qed.

(** X17: an enrollment creation that succeeds takes exactly one seat: the
    enrolled count of its course grows by one, the count of every other
    course stays, and the pair has exactly one enrolled-status row. *)
Theorem creation_takes_one_seat (d : EnrollmentCreate.t) (u : User.t)
  (t : datetime) (s s' : Store) (e : Enrollment.t) :
  create_enrollment d u t s = (Ok e, s') ->
  enrolled_count (EnrollmentCreate.course_id d) s'
  = enrolled_count (EnrollmentCreate.course_id d) s + 1
  /\ (forall cid, cid <> EnrollmentCreate.course_id d ->
        enrolled_count cid s' = enrolled_count cid s)
  /\ active_count (EnrollmentCreate.student_id d)
       (EnrollmentCreate.course_id d) s' = 1%nat.
Proof.
  intros H.
  destruct (create_enrollment_ok _ _ _ _ _ _ H)
    as (st & c & _ & _ & _ & Hnone & _ & He & ->).
  repeat split.
  - rewrite enrolled_count_inserted.
    rewrite He. unfold enrolled_in. cbn. now rewrite Z.eqb_refl.
  - intros cid Hne. rewrite enrolled_count_inserted.
    rewrite He. unfold enrolled_in. cbn.
    apply Z.eqb_neq in Hne. rewrite Z.eqb_sym, Hne. cbn. lia.
  - unfold active_count. cbn. rewrite count_appended.
    rewrite (find_none_filter _ _ Hnone), He. unfold active_pair. cbn.
    now rewrite !Z.eqb_refl.
Qed.

(** X17 on the campus: Alice takes the seat of CS101. *)
Lemma creation_takes_one_seat_witness :
  exists e s',
    create_enrollment (Campus.seat 1 1) Campus.alice_user 1700000000
      (run Campus.opening empty_store) = (Ok e, s')
    /\ enrolled_count 1 s'
       = enrolled_count 1 (run Campus.opening empty_store) + 1.
Proof.
  assert (E : exists e s',
            create_enrollment (Campus.seat 1 1) Campus.alice_user 1700000000
              (run Campus.opening empty_store) = (Ok e, s'))
    by (vm_compute; eexists _, _; reflexivity).
  destruct E as (e & s' & E). exists e, s'. split; [exact E|].
  exact (proj1 (creation_takes_one_seat _ _ _ _ _ _ E)).
Defined.

(** X18: an update or a delete of an enrollment changes the enrolled count
    of a course by what the one row contributes: after an update the count
    is the old count, less one if the old row was enrolled in the course,
    plus one if the new row is; after a delete it is the old count, less
    one if the row was enrolled in the course. *)
Theorem seats_follow_the_row :
  (forall i d u s e' s',
     update_enrollment i d u s = (Ok e', s') ->
     exists e,
       enrollment_by_id i s = Some e
       /\ forall cid,
            enrolled_count cid s'
            = enrolled_count cid s
              - (if enrolled_in cid e then 1 else 0)
              + (if enrolled_in cid e' then 1 else 0))
  /\ (forall i u s m s',
        delete_enrollment i u s = (Ok m, s') ->
        exists e,
          enrollment_by_id i s = Some e
          /\ forall cid,
               enrolled_count cid s'
               = enrolled_count cid s
                 - (if enrolled_in cid e then 1 else 0)).
Proof.
  split.
  - intros i d u s e' s' H.
    destruct (update_enrollment_ok _ _ _ _ _ _ H)
      as (e & before & after & He & _ & Hl & ->).
    exists e. split; [exact He|]. intros cid.
    unfold enrolled_count. cbn. rewrite Hl, !count_around.
    destruct (enrolled_in cid e), (enrolled_in cid e'); lia.
  - intros i u s m s'.
    unfold delete_enrollment, bind, exec, raise, ret, remove_enrollment.
    destruct (negb (is_admin u)); [discriminate|].
    destruct (enrollment_by_id i s) as [e|] eqn:He; [|discriminate].
    intros [= _ <-]. exists e. split; [reflexivity|]. intros cid.
    destruct (delete_row_found Enrollment.id i _ e He)
      as (before & after & Hl & Hl').
    unfold enrolled_count. cbn. rewrite Hl', Hl, count_around.
    rewrite filter_app, length_app.
    destruct (enrolled_in cid e); lia.
Qed.

(** X18 on the campus: Alice drops CS101 and the seat is free. *)
Lemma seats_follow_the_row_witness :
  exists e' s',
    update_enrollment 1 (Campus.set_status EnrollmentStatusEnum.DROPPED)
      Campus.alice_user (run Campus.alice_enrolled empty_store)
    = (Ok e', s')
    /\ enrolled_count 1 s' = 0.
Proof.
  assert (E : exists e' s',
            update_enrollment 1
              (Campus.set_status EnrollmentStatusEnum.DROPPED)
              Campus.alice_user (run Campus.alice_enrolled empty_store)
            = (Ok e', s')
            /\ enrolled_in 1 e' = false)
    by (vm_compute; eexists _, _; split; reflexivity).
  destruct E as (e' & s' & E & Hnew). exists e', s'. split; [exact E|].
  destruct (proj1 seats_follow_the_row _ _ _ _ _ _ E) as (e & He & Hcount).
  rewrite (Hcount 1), Hnew.
  assert (He' : enrollment_by_id 1 (run Campus.alice_enrolled empty_store)
                = Some e) by exact He.
  vm_compute in He'. injection He' as <-. reflexivity.
Defined.

Lemma filter_nil_find {A} (p : A -> bool) (l : list A) :
  filter p l = [] -> find p l = None.
Proof.
  induction l as [|x l IH]; cbn; [reflexivity|].
  destruct (p x); [discriminate | assumption].
Qed.

(** X19: a seat that is dropped can be taken again.  When a student's user
    (or an admin) sets the only enrolled-status row of the pair to dropped,
    the course exists and was not over its capacity, then the update
    succeeds and the same caller can enroll the same student in the same
    course right after. *)
Theorem dropped_seat_can_be_retaken (i : Z) (u : User.t) (t : datetime)
  (s : Store) (e : Enrollment.t) (st : Student.t) (c : Course.t) :
  enrollment_by_id i s = Some e ->
  Enrollment.status e = EnrollmentStatusEnum.ENROLLED ->
  student_by_id (Enrollment.student_id e) s = Some st ->
  Student.user_id st = User.id u ->
  course_by_id (Enrollment.course_id e) s = Some c ->
  enrolled_count (Enrollment.course_id e) s <= Course.max_students c ->
  (active_count (Enrollment.student_id e) (Enrollment.course_id e) s <= 1)%nat
  ->
  exists e1 s1 e2 s2,
    update_enrollment i
      {| EnrollmentUpdate.status :=
           Provided (Some EnrollmentStatusEnum.DROPPED);
         EnrollmentUpdate.grade := Unset |} u s = (Ok e1, s1)
    /\ create_enrollment
         {| EnrollmentCreate.student_id := Enrollment.student_id e;
            EnrollmentCreate.course_id := Enrollment.course_id e |} u t s1
       = (Ok e2, s2)
    /\ Enrollment.status e2 = EnrollmentStatusEnum.ENROLLED.
Proof.
  intros He Hst Hs Hown Hc Hcap Hone.
  set (d := {| EnrollmentUpdate.status :=
                 Provided (Some EnrollmentStatusEnum.DROPPED);
               EnrollmentUpdate.grade := Unset |}).
  set (e1 := {| Enrollment.id := Enrollment.id e;
                Enrollment.student_id := Enrollment.student_id e;
                Enrollment.course_id := Enrollment.course_id e;
                Enrollment.enrollment_date := Enrollment.enrollment_date e;
                Enrollment.status := EnrollmentStatusEnum.DROPPED;
                Enrollment.grade := Enrollment.grade e |}).
  set (s1 := put_enrollments (update_row Enrollment.id e1 (enrollments s))
               (enrollment_seq s) s).
  assert (Hupd : update_enrollment i d u s = (Ok e1, s1)).
  { rewrite (update_enrollment_found i d u s e He). cbn zeta.
    rewrite Hs. cbn [owns_student]. rewrite Hown, Z.eqb_refl.
    destruct (is_admin u); reflexivity. }
  destruct (find_by_key Enrollment.id _ _ _ He) as [_ Hi].
  destruct (update_row_found Enrollment.id i _ e e1 He Hi)
    as (before & after & Hl & Hl').
  assert (Hp : active_pair (Enrollment.student_id e) (Enrollment.course_id e)
                 e = true)
    by (apply active_pair_spec; auto).
  assert (Hq : enrolled_in (Enrollment.course_id e) e = true)
    by (apply enrolled_in_spec; auto).
  assert (Hnone : find (active_pair (Enrollment.student_id e)
                          (Enrollment.course_id e)) (enrollments s1) = None).
  { apply filter_nil_find. apply length_zero_iff_nil.
    unfold active_count in Hone. rewrite Hl, count_around, Hp in Hone.
    subst s1. cbn. rewrite Hl', count_around. cbn.
    unfold active_pair at 2. cbn. rewrite andb_false_r. lia. }
  assert (Hroom : enrolled_count (Enrollment.course_id e) s1
                  < Course.max_students c).
  { unfold enrolled_count in *. rewrite Hl, count_around, Hq in Hcap.
    subst s1. cbn. rewrite Hl', count_around.
    unfold enrolled_in at 2. cbn. rewrite andb_false_r. lia. }
  eexists e1, s1, _, _. split; [exact Hupd|].
  rewrite (create_enrollment_found
             {| EnrollmentCreate.student_id := Enrollment.student_id e;
                EnrollmentCreate.course_id := Enrollment.course_id e |}
             u t s1 st c Hs Hc).
  assert (Hmay : may_enroll u st c s1 = true)
    by (unfold may_enroll; now rewrite Hown, Z.eqb_refl, orb_true_r).
  rewrite Hmay.
  cbn [negb EnrollmentCreate.student_id EnrollmentCreate.course_id].
  rewrite Hnone. apply Z.leb_gt in Hroom. rewrite Hroom.
  unfold insert_enrollment. split; reflexivity.
Qed.

(** X19 on the campus: Alice drops CS101 and enrolls again. *)
Lemma dropped_seat_can_be_retaken_witness :
  exists e1 s1 e2 s2,
    update_enrollment 1
      {| EnrollmentUpdate.status :=
           Provided (Some EnrollmentStatusEnum.DROPPED);
         EnrollmentUpdate.grade := Unset |} Campus.alice_user
      (run Campus.alice_enrolled empty_store) = (Ok e1, s1)
    /\ create_enrollment (Campus.seat 1 1) Campus.alice_user 5 s1
       = (Ok e2, s2)
    /\ Enrollment.status e2 = EnrollmentStatusEnum.ENROLLED.
Proof.
  assert (E1 : exists e,
             enrollment_by_id 1 (run Campus.alice_enrolled empty_store)
             = Some e
             /\ Enrollment.status e = EnrollmentStatusEnum.ENROLLED
             /\ Enrollment.student_id e = 1 /\ Enrollment.course_id e = 1)
    by (vm_compute; eexists; repeat split; reflexivity).
  assert (E2 : exists st,
             student_by_id 1 (run Campus.alice_enrolled empty_store)
             = Some st
             /\ Student.user_id st = User.id Campus.alice_user)
    by (vm_compute; eexists; split; reflexivity).
  assert (E3 : exists c,
             course_by_id 1 (run Campus.alice_enrolled empty_store) = Some c
             /\ (enrolled_count 1 (run Campus.alice_enrolled empty_store)
                 <=? Course.max_students c) = true)
    by (vm_compute; eexists; split; reflexivity).
  assert (E4 : (active_count 1 1 (run Campus.alice_enrolled empty_store)
                <=? 1)%nat = true)
    by (vm_compute; reflexivity).
  destruct E1 as (e & He & Hst & Hsid & Hcid).
  destruct E2 as (st & Hs & Hown). destruct E3 as (c & Hc & Hcap).
  apply Z.leb_le in Hcap. apply Nat.leb_le in E4. rename E4 into Hone.
  assert (Hs' : student_by_id (Enrollment.student_id e)
                  (run Campus.alice_enrolled empty_store) = Some st)
    by (rewrite Hsid; exact Hs).
  assert (Hc' : course_by_id (Enrollment.course_id e)
                  (run Campus.alice_enrolled empty_store) = Some c)
    by (rewrite Hcid; exact Hc).
  assert (Hcap' : enrolled_count (Enrollment.course_id e)
                    (run Campus.alice_enrolled empty_store)
                  <= Course.max_students c)
    by (rewrite Hcid; exact Hcap).
  assert (Hone' : (active_count (Enrollment.student_id e)
                     (Enrollment.course_id e)
                     (run Campus.alice_enrolled empty_store) <= 1)%nat)
    by (rewrite Hsid, Hcid; exact Hone).
  destruct (dropped_seat_can_be_retaken 1 Campus.alice_user 5 _ e st c
              He Hst Hs' Hown Hc' Hcap' Hone')
    as (e1 & s1 & e2 & s2 & H1 & H2 & H3).
  rewrite Hsid, Hcid in H2.
  exists e1, s1, e2, s2. repeat split; assumption.
Defined.

(** ** What a student may write on an enrollment *)

(** X20: the student-owner restriction of the enrollment update bears on
    the status only.  For a caller who is not an admin and owns the
    student profile of the enrollment, an update that leaves the status
    unset or sets it to dropped succeeds whatever it says about the grade,
    and the stored row carries the grade of the request. *)
Theorem student_owner_writes_grade (i : Z) (d : EnrollmentUpdate.t)
  (u : User.t) (s : Store) (e : Enrollment.t) (st : Student.t)
  (g : option string) :
  enrollment_by_id i s = Some e ->
  student_by_id (Enrollment.student_id e) s = Some st ->
  Student.user_id st = User.id u ->
  is_admin u = false ->
  EnrollmentUpdate.status d = Unset
  \/ EnrollmentUpdate.status d = Provided (Some EnrollmentStatusEnum.DROPPED) ->
  EnrollmentUpdate.grade d = Provided g ->
  exists e' s',
    update_enrollment i d u s = (Ok e', s')
    /\ Enrollment.grade e' = g
    /\ enrollment_by_id i s' = Some e'.
Proof.
  intros He Hst Hown Hadmin Hstatus Hgrade.
  rewrite (update_enrollment_found i d u s e He). cbn zeta.
  rewrite Hadmin, Hst. cbn [owns_student]. rewrite Hown, Z.eqb_refl.
  unfold not_a_drop, setattr_enrollment.
  destruct (find_by_key Enrollment.id _ _ _ He) as [_ Hi].
  destruct Hstatus as [-> | ->]; cbn; rewrite Hgrade; cbn;
    eexists _, _; (split; [reflexivity|]); (split; [reflexivity|]);
    unfold enrollment_by_id; cbn;
    apply (find_updated Enrollment.id i (enrollments s) e);
    assumption.
Qed.

(** X20 on the campus: Alice gives herself an A. *)
Lemma student_owner_writes_grade_witness :
  exists e' s',
    update_enrollment 1 (Campus.set_grade "A") Campus.alice_user
      (run Campus.alice_enrolled empty_store) = (Ok e', s')
    /\ Enrollment.grade e' = Some "A".
Proof.
  assert (E1 : exists e,
             enrollment_by_id 1 (run Campus.alice_enrolled empty_store)
             = Some e /\ Enrollment.student_id e = 1)
    by (vm_compute; eexists; split; reflexivity).
  assert (E2 : exists st,
             student_by_id 1 (run Campus.alice_enrolled empty_store)
             = Some st
             /\ Student.user_id st = User.id Campus.alice_user)
    by (vm_compute; eexists; split; reflexivity).
  destruct E1 as (e & He & Hsid). destruct E2 as (st & Hs & Hown).
  rewrite <- Hsid in Hs.
  destruct (student_owner_writes_grade 1 (Campus.set_grade "A")
              Campus.alice_user _ e st (Some "A") He Hs Hown eq_refl
              (or_introl eq_refl) eq_refl)
    as (e' & s' & H1 & H2 & _).
  exists e', s'. split; assumption.
Defined.

(** ** The sample database *)

Example sample_birthday : datetime_ymd 2000 5 15 = 958348800.
Proof. reflexivity. Qed.

Lemma seed_refused (utcnow : nat -> datetime) (s : Store) :
  existsb has_admin_email (users s) = true ->
  create_sample_data utcnow s = (IntegrityError, s).
Proof.
  intros H. unfold create_sample_data, bind at 1, atomically at 1, add_user.
  cbn. unfold has_admin_email in H. now rewrite H.
Qed.

Lemma seed_leaves_admin (utcnow : nat -> datetime) (s s' : Store) :
  create_sample_data utcnow s = (Ok tt, s') ->
  existsb has_admin_email (users s') = true.
Proof.
  unfold create_sample_data, atomically, add_user, add_instructor,
    add_student, add_course, insert_enrollment, bind, ret.
  cbn.
  repeat (break_match; cbn); try discriminate.
  intros [= <-]. cbn. rewrite !existsb_app. cbn.
  now rewrite orb_true_r.
Qed.

(** X21: the sample data is created once.  On a store that holds a user
    with the administrator's email the script raises at its first commit
    and writes nothing; so after a run that succeeded, from any store and
    at any time, a second run is refused and leaves the store as the first
    run left it. *)
Theorem sample_data_is_created_once (utcnow : nat -> datetime) :
  (forall s x,
     In x (users s) -> User.email x = "admin@university.edu" ->
     create_sample_data utcnow s = (IntegrityError, s))
  /\ (forall later s s',
        create_sample_data utcnow s = (Ok tt, s') ->
        create_sample_data later s' = (IntegrityError, s')).
Proof.
  split.
  - intros s x Hin Hx. apply seed_refused. apply existsb_exists.
    exists x. split; [assumption|]. unfold has_admin_email.
    rewrite Hx. apply String.eqb_refl.
  - intros later s s' H. apply seed_refused.
    exact (seed_leaves_admin utcnow s s' H).
Qed.

(** X21 on the empty store: the second run is refused. *)
Lemma sample_data_is_created_once_witness :
  exists s',
    create_sample_data (fun _ => 1700000000) empty_store = (Ok tt, s')
    /\ create_sample_data (fun _ => 1800000000) s' = (IntegrityError, s').
Proof.
  assert (E : exists s',
            create_sample_data (fun _ => 1700000000) empty_store
            = (Ok tt, s'))
    by (vm_compute; eexists; reflexivity).
  destruct E as (s' & E). exists s'. split; [exact E|].
  exact (proj2 (sample_data_is_created_once (fun _ => 1700000000))
           (fun _ => 1800000000) empty_store s' E).
Defined.

Lemma run_app (first rest : list Call) (s : Store) :
  run (first ++ rest) s = run rest (run first s).
Proof. unfold run. apply fold_left_app. Qed.



(** ** Rows that other rows name *)

Section References.

Context {A : Type} (key : A -> Z).

Lemma find_update_row_other (i : Z) (row : A) (table : list A) :
  key row <> i ->
  find (fun x => key x =? i) (update_row key row table)
  = find (fun x => key x =? i) table.
Proof.
  intros Hi. induction table as [|r rest IH]; cbn; [reflexivity|].
  destruct (key r =? key row) eqn:E; cbn.
  - apply Z.eqb_eq in E.
    destruct (Z.eqb_spec (key row) i); [contradiction|].
    destruct (Z.eqb_spec (key r) i); [congruence | reflexivity].
  - destruct (key r =? i); [reflexivity | exact IH].
Qed.

Lemma find_delete_row_other (i : Z) (row : A) (table : list A) :
  key row <> i ->
  find (fun x => key x =? i) (delete_row key row table)
  = find (fun x => key x =? i) table.
Proof.
  intros Hi. induction table as [|r rest IH]; cbn; [reflexivity|].
  destruct (key r =? key row) eqn:E; cbn.
  - apply Z.eqb_eq in E.
    destruct (Z.eqb_spec (key r) i); [congruence | reflexivity].
  - destruct (key r =? i); [reflexivity | exact IH].
Qed.

(** A row that is found stays found when a row is appended, and when a row
    is replaced by one with the same id. *)
Lemma found_after_insert (i : Z) (row : A) (table : list A) :
  (exists x, find (fun x => key x =? i) table = Some x) ->
  exists x, find (fun x => key x =? i) (table ++ [row]) = Some x.
Proof.
  intros [x Hx]. exists x.
  induction table as [|r rest IH]; cbn in *; [discriminate|].
  destruct (key r =? i); [assumption | now apply IH].
Qed.

Lemma found_after_update (i j : Z) (old row : A) (table : list A) :
  find (fun x => key x =? j) table = Some old ->
  key row = key old ->
  (exists x, find (fun x => key x =? i) table = Some x) ->
  exists x, find (fun x => key x =? i) (update_row key row table) = Some x.
Proof.
  intros Hold Hkey Hx.
  destruct (find_by_key key _ _ _ Hold) as [_ Hj].
  destruct (Z.eq_dec (key row) i) as [E|E].
  - exists row. subst i j. rewrite <- Hkey in Hold.
    now apply (find_updated key (key row) table old row).
  - now rewrite find_update_row_other.
Qed.

End References.

Lemma none_refers {A} (ref : A -> Z) (i : Z) (rows : list A) (r : A) :
  existsb (fun x => ref x =? i) rows = false -> In r rows -> ref r <> i.
Proof.
  intros Hnone Hin E.
  assert (existsb (fun x => ref x =? i) rows = true); [|congruence].
  apply existsb_exists. exists r. split; [assumption|]. now apply Z.eqb_eq.
Qed.

Lemma written_keeps_references (s s' : Store) :
  Written s s' ->
  enrollments_refer_to_stored s -> enrollments_refer_to_stored s'.
Proof.
  unfold enrollments_refer_to_stored, student_by_id, course_by_id.
  intros [ | u _ _ _ | x user _ _ _ _ | i x d Hx | i x Hx Hnone
         | x user _ _ _ _ | i x d x' _ _ | i x _ _
         | c instructor _ _ _ | i c d c' Hc Hset | i c Hc Hnone
         | e0 student course Hst Hco _ | i e0 d e' He Hset | i e0 He ]
    Hinv; cbn; try exact Hinv.
  - intros e Hin. destruct (Hinv e Hin) as [Hs Hc]. split; [|exact Hc].
    now apply found_after_insert.
  - intros e Hin. destruct (Hinv e Hin) as [Hs Hc]. split; [|exact Hc].
    now apply (found_after_update Student.id _ i x).
  - intros e Hin. destruct (Hinv e Hin) as [Hs Hc]. split; [|exact Hc].
    rewrite find_delete_row_other; [exact Hs|].
    intros E. now apply (none_refers _ _ _ e Hnone Hin).
  - intros e Hin. destruct (Hinv e Hin) as [Hs Hc0]. split; [exact Hs|].
    now apply found_after_insert.
  - intros e Hin. destruct (Hinv e Hin) as [Hs Hc0]. split; [exact Hs|].
    destruct (setattr_course_frame _ _ _ Hset) as (Hid & _).
    now apply (found_after_update Course.id _ i c).
  - intros e Hin. destruct (Hinv e Hin) as [Hs Hc0]. split; [exact Hs|].
    rewrite find_delete_row_other; [exact Hc0|].
    intros E. now apply (none_refers _ _ _ e Hnone Hin).
  - intros e Hin. apply in_app_or in Hin. destruct Hin as [Hin|[<-|[]]].
    + exact (Hinv e Hin).
    + split; eauto.
  - intros e Hin. apply in_update_row in Hin.
    destruct Hin as [->|Hin]; [|exact (Hinv e Hin)].
    destruct (setattr_enrollment_frame _ _ _ Hset) as (_ & -> & -> & _).
    apply Hinv. now apply (find_by_key Enrollment.id _ _ _ He).
  - intros e Hin. apply in_delete_row in Hin. exact (Hinv e Hin).
Qed.

Lemma references_from_empty (calls : list Call) :
  enrollments_refer_to_stored (run calls empty_store).
Proof.
  apply (run_invariant (fun _ => true) enrollments_refer_to_stored).
  - intros c s _ Hs.
    exact (written_keeps_references _ _ (serve_written c s) Hs).
  - apply Forall_forall. reflexivity.
  - intros e [].
Qed.

(** X23: enrollments never dangle, and a row that another row names is not
    deleted.  In every state reached from the empty store each enrollment
    names a stored student and a stored course.  In any store the delete,
    even by an administrator, of a student or of a course that an
    enrollment names, or of an instructor that a course names, ends in the
    [IntegrityError] of the commit and removes nothing. *)
Theorem named_rows_are_kept :
  (forall calls, enrollments_refer_to_stored (run calls empty_store))
  /\ (forall u s e x,
        is_admin u = true -> In e (enrollments s) ->
        student_by_id (Enrollment.student_id e) s = Some x ->
        delete_student (Enrollment.student_id e) u s = (IntegrityError, s))
  /\ (forall u s e c,
        is_admin u = true -> In e (enrollments s) ->
        course_by_id (Enrollment.course_id e) s = Some c ->
        delete_course (Enrollment.course_id e) u s = (IntegrityError, s))
  /\ (forall u s c x,
        is_admin u = true -> In c (courses s) ->
        instructor_by_id (Course.instructor_id c) s = Some x ->
        delete_instructor (Course.instructor_id c) u s
        = (IntegrityError, s)).
Proof.
  split; [exact references_from_empty|].
  split; [|split].
  - intros u s e x Hadmin Hin Hx.
    unfold delete_student, bind, exec, remove_student.
    rewrite Hadmin. cbn. rewrite Hx. cbn.
    destruct (find_by_key Student.id _ _ _ Hx) as [_ Hi].
    replace (existsb _ (enrollments s)) with true; [reflexivity|].
    symmetry. apply existsb_exists. exists e.
    split; [assumption|]. apply Z.eqb_eq. congruence.
  - intros u s e c Hadmin Hin Hc.
    unfold delete_course, bind, exec, remove_course.
    rewrite Hadmin. cbn. rewrite Hc. cbn.
    destruct (find_by_key Course.id _ _ _ Hc) as [_ Hi].
    replace (existsb _ (enrollments s)) with true; [reflexivity|].
    symmetry. apply existsb_exists. exists e.
    split; [assumption|]. apply Z.eqb_eq. congruence.
  - intros u s c x Hadmin Hin Hx.
    unfold delete_instructor, bind, exec, remove_instructor.
    rewrite Hadmin. cbn. rewrite Hx. cbn.
    destruct (find_by_key Instructor.id _ _ _ Hx) as [_ Hi].
    replace (existsb _ (courses s)) with true; [reflexivity|].
    symmetry. apply existsb_exists. exists c.
    split; [assumption|]. apply Z.eqb_eq. congruence.
Qed.

(** X23 on the campus: Alice is enrolled in CS101, which Smith teaches; the
    administrator can delete neither Alice's profile, nor CS101, nor
    Smith's. *)
Lemma named_rows_are_kept_witness :
  delete_student 1 Campus.admin_user (run Campus.alice_enrolled empty_store)
  = (IntegrityError, run Campus.alice_enrolled empty_store)
  /\ delete_course 1 Campus.admin_user
       (run Campus.alice_enrolled empty_store)
     = (IntegrityError, run Campus.alice_enrolled empty_store)
  /\ delete_instructor 1 Campus.admin_user
       (run Campus.alice_enrolled empty_store)
     = (IntegrityError, run Campus.alice_enrolled empty_store).
Proof.
  assert (He : exists e,
            In e (enrollments (run Campus.alice_enrolled empty_store))
            /\ Enrollment.student_id e = 1 /\ Enrollment.course_id e = 1)
    by (vm_compute; eexists; split; [left; reflexivity|]; split;
        reflexivity).
  assert (Hc : exists c,
            In c (courses (run Campus.alice_enrolled empty_store))
            /\ Course.instructor_id c = 1)
    by (vm_compute; eexists; split; [left; reflexivity | reflexivity]).
  assert (Hx : exists x,
            student_by_id 1 (run Campus.alice_enrolled empty_store) = Some x)
    by (vm_compute; eexists; reflexivity).
  assert (Hy : exists c,
            course_by_id 1 (run Campus.alice_enrolled empty_store) = Some c)
    by (vm_compute; eexists; reflexivity).
  assert (Hz : exists x,
            instructor_by_id 1 (run Campus.alice_enrolled empty_store)
            = Some x)
    by (vm_compute; eexists; reflexivity).
  destruct He as (e & Hin & Hsid & Hcid). destruct Hc as (c & Hcin & Hiid).
  destruct Hx as (x & Hx). destruct Hy as (y & Hy). destruct Hz as (z & Hz).
  destruct named_rows_are_kept as (_ & H1 & H2 & H3).
  split; [|split].
  - rewrite <- Hsid.
    apply (H1 Campus.admin_user _ e x eq_refl Hin). now rewrite Hsid.
  - rewrite <- Hcid.
    apply (H2 Campus.admin_user _ e y eq_refl Hin). now rewrite Hcid.
  - rewrite <- Hiid.
    apply (H3 Campus.admin_user _ c z eq_refl Hcin). now rewrite Hiid.
Defined.

(** * Capacity and the enrolled pair, call by call *)

Lemma serve_error_unchanged (c : Call) (s : Store) :
  is_error (fst (serve c s)) = true -> snd (serve c s) = s.
Proof.
  destruct (serve_cases c s) as [[_ H]|[u ->]].
  - intros _. exact H.
  - apply route_error_unchanged.
Qed.

Lemma serve_succeeds (c : Call) (s : Store) :
  succeeds c s = true ->
  exists u,
    serve c s = route (request c) u (now c) s
    /\ is_error (fst (route (request c) u (now c) s)) = false.
Proof.
  unfold succeeds. intros H. apply negb_true_iff in H.
  destruct (serve_cases c s) as [[E _]|[u E]]; [congruence|].
  exists u. split; [exact E | now rewrite <- E].
Qed.

Lemma returning_ok {A} (wrap : A -> Body) (h : Handler A) (s : Store) :
  is_error (fst (returning wrap h s)) = false ->
  exists x, h s = (Ok x, snd (returning wrap h s)).
Proof.
  unfold returning, bind, ret.
  destruct (h s) as [[x| | |] s']; cbn; try discriminate. eauto.
Qed.

Lemma create_course_capacity (d : CourseCreate.t) (u : User.t) (t : datetime)
  (s s' : Store) (c : Course.t) :
  create_course d u t s = (Ok c, s') ->
  Course.max_students c = CourseCreate.max_students d.
Proof.
  unfold create_course, bind, exec, raise, insert_course.
  destruct (negb (is_admin u)); try discriminate.
  destruct (find _ (courses s)); try discriminate.
  destruct (instructor_by_id _ s); try discriminate.
  now intros [= <- _].
Qed.

Lemma count_in {A} (p : A -> bool) (l : list A) (x : A) :
  In x l -> p x = true -> (1 <= List.length (filter p l))%nat.
Proof.
  intros Hin Hp.
  assert (H : In x (filter p l)) by (apply filter_In; now split).
  destruct (filter p l); [destruct H | cbn; lia].
Qed.

Lemma run_snoc (calls : list Call) (c : Call) (s : Store) :
  run (calls ++ [c]) s = snd (serve c (run calls s)).
Proof. now rewrite run_app. Qed.

Lemma never_snoc (bad : Call -> Store -> bool) (calls : list Call)
  (c : Call) (s : Store) :
  never bad (calls ++ [c]) s
  = never bad calls s && negb (bad c (run calls s)).
Proof.
  revert s. induction calls as [|a calls IH]; intros s; cbn.
  - apply andb_true_r.
  - now rewrite IH, andb_assoc.
Qed.

(** When the calls that are [bad] are exactly those that break [P], no call
    of a trace is [bad] exactly when [P] holds all along the trace. *)
Lemma never_along (bad : Call -> Store -> bool) (P : Store -> Prop)
  (s0 : Store) :
  P s0 ->
  (forall calls c,
     P (run calls s0) ->
     (P (run (calls ++ [c]) s0) <-> bad c (run calls s0) = false)) ->
  forall calls,
    never bad calls s0 = true <-> forall n, P (run (firstn n calls) s0).
Proof.
  intros Hinit Hstep calls.
  induction calls as [|c calls IH] using rev_ind.
  - split; [|reflexivity]. intros _ n. now rewrite firstn_nil.
  - rewrite never_snoc, andb_true_iff, negb_true_iff.
    assert (Hprefix : forall n,
              (n <= List.length calls)%nat ->
              firstn n (calls ++ [c]) = firstn n calls).
    { intros n Hn. rewrite firstn_app.
      replace (n - List.length calls)%nat with 0%nat by lia.
      apply app_nil_r. }
    assert (Hall : firstn (S (List.length calls)) (calls ++ [c])
                   = calls ++ [c]).
    { apply firstn_all2. rewrite length_app. cbn. lia. }
    split.
    + intros [Hcalls Hc] n.
      pose proof (proj1 IH Hcalls) as Halong.
      destruct (Nat.le_gt_cases n (List.length calls)) as [Hn|Hn].
      * rewrite (Hprefix n Hn). apply Halong.
      * rewrite firstn_all2 by (rewrite length_app; cbn; lia).
        apply Hstep; [|exact Hc].
        specialize (Halong (List.length calls)).
        now rewrite firstn_all in Halong.
    + intros Halong.
      assert (Hbefore : P (run calls s0)).
      { specialize (Halong (List.length calls)).
        now rewrite Hprefix, firstn_all in Halong. }
      split.
      * apply IH. intros n.
        destruct (Nat.le_gt_cases n (List.length calls)) as [Hn|Hn].
        -- rewrite <- (Hprefix n Hn). apply Halong.
        -- now rewrite firstn_all2 by lia.
      * apply (Hstep calls c Hbefore).
        specialize (Halong (S (List.length calls))).
        now rewrite Hall in Halong.
Qed.

(** ** Capacity *)

Lemma capacity_invariant_intro (s : Store) :
  consistent s -> within_capacity s -> capacity_invariant s.
Proof.
  intros Hc Hcap. split.
  - intros e He. now apply (enrollments_refer_to_allocated s Hc).
  - apply (courses_ok s Hc).
  - apply (courses_ok s Hc).
  - exact Hcap.
Qed.

(** A call that does not overfill keeps the courses within their
    capacity. *)
Lemma not_overfilled (c : Call) (s : Store) :
  overfills c s = false ->
  capacity_invariant s -> capacity_invariant (snd (serve c s)).
Proof.
  unfold overfills, succeeds. intros E Hinv.
  apply andb_false_iff in E. destruct E as [E|E].
  - apply negb_false_iff in E. now rewrite (serve_error_unchanged c s E).
  - exact (effect_keeps_capacity_on _ _ _ E (serve_effect c s) Hinv).
Qed.

(** A call that overfills leaves a course over its capacity. *)
Lemma overfilled (c : Call) (s : Store) :
  (forall e, In e (enrollments s) -> Enrollment.course_id e < course_seq s) ->
  overfills c s = true -> ~ within_capacity (snd (serve c s)).
Proof.
  unfold overfills. intros Hall E Hcap.
  apply andb_true_iff in E. destruct E as [Hok Hr].
  destruct (serve_succeeds c s Hok) as (u & Hserve & Hsucc).
  rewrite Hserve in Hcap.
  destruct (request c) as
    [ | | | | | | | | | | | | | d | | | i d | | | | | | i d | ];
    try discriminate; cbn [route overfilling] in *;
    destruct (returning_ok _ _ _ Hsucc) as (x & Hx);
    set (s' := snd (returning _ _ s)) in *; clearbody s'.
  - (* a course created with a negative capacity *)
    pose proof (create_course_capacity _ _ _ _ _ _ Hx) as Hmax.
    destruct (create_course_ok _ _ _ _ _ _ Hx) as (Hid & _ & _ & ->).
    assert (Hin : In x (courses s ++ [x]))
      by (apply in_or_app; right; now left).
    specialize (Hcap x Hin).
    rewrite Hid, (enrolled_count_same (course_seq s) s) in Hcap;
      [|reflexivity].
    rewrite (enrolled_count_fresh s Hall) in Hcap.
    apply Z.ltb_lt in Hr. lia.
  - (* the capacity set below the count *)
    destruct (update_course_ok _ _ _ _ _ _ Hx)
      as (c0 & before & after & Hfind & Hupd & Hl & ->).
    destruct Hupd as (Hid & _ & _ & _ & _ & _ & _ & Hm & _).
    destruct (find_by_key _ _ _ _ Hfind) as [_ Hi].
    destruct (CourseUpdate.max_students d) as [|[n|]]; try discriminate.
    cbn in Hm. injection Hm as Hm. apply Z.ltb_lt in Hr.
    assert (Hin : In x (before ++ x :: after)) by apply in_elt.
    specialize (Hcap x Hin).
    rewrite (enrolled_count_same (Course.id x) s) in Hcap; [|reflexivity].
    rewrite Hid, Hi in Hcap. lia.
  - (* a row set back to enrolled in a full course *)
    destruct (readmitted i d s) as [e|] eqn:Hre; [|discriminate].
    destruct (readmitted_inv _ _ _ _ Hre) as (Hfind & Hd & Hst).
    destruct (course_by_id (Enrollment.course_id e) s) as [c0|] eqn:Hc0;
      [|discriminate].
    apply Z.leb_le in Hr.
    destruct (find_by_key _ _ _ _ Hc0) as [Hin0 Hi0].
    destruct (update_enrollment_ok _ _ _ _ _ _ Hx)
      as (e0 & before & after & Hfind0 & Hupd & Hl & ->).
    assert (e0 = e) as -> by congruence.
    destruct Hupd as (_ & _ & Hcid & _ & Hstatus & _).
    rewrite Hd in Hstatus. cbn in Hstatus. injection Hstatus as Hstatus.
    specialize (Hcap c0 Hin0). rewrite Hi0 in Hcap.
    unfold enrolled_count in *. cbn [enrollments put_enrollments] in Hcap.
    rewrite Hl in Hr. rewrite count_around in Hcap, Hr.
    replace (enrolled_in (Enrollment.course_id e) x) with true in Hcap
      by (symmetry; apply enrolled_in_spec; now split).
    replace (enrolled_in (Enrollment.course_id e) e) with false in Hr.
    + lia.
    + symmetry. destruct (enrolled_in _ e) eqn:E; [|reflexivity].
      apply enrolled_in_spec in E. now destruct E.
Qed.

(** From a reached state within capacity, the calls that overfill are
    those that break the bound. *)
Lemma overfills_exact (calls : list Call) (c : Call) :
  within_capacity (run calls empty_store) ->
  (within_capacity (run (calls ++ [c]) empty_store)
   <-> overfills c (run calls empty_store) = false).
Proof.
  intros Hcap. rewrite run_snoc.
  pose proof (capacity_invariant_intro _ (consistent_from_empty calls) Hcap)
    as Hinv.
  split.
  - intros Hcap'. destruct (overfills c _) eqn:E; [|reflexivity].
    now destruct (overfilled c _ (enrollments_allocated _ Hinv) E).
  - intros E. apply capacity_respected. now apply not_overfilled.
Qed.

(** C2 (amended): the capacity bound holds as long as no call overfills a
    course, and such calls are all that break it.  A call overfills when it
    succeeds in creating a course with a negative [max_students], in
    setting the [max_students] of a course below its enrolled-status count,
    or in setting back to enrolled a row of another status whose course has
    no seat left.  Along a trace from the empty store, each course has at
    most [max_students] enrolled-status rows in every state exactly when
    none of the calls overfills on the store it is made on.  From a reached
    state within capacity, the state after one more call is within capacity
    exactly when that call does not overfill.  An enrollment creation that
    passes the
    existence, authorization and active-duplicate checks is rejected with
    "Course is full" exactly when the enrolled-status count of the course
    is at least [max_students]; and in any state, after a creation that
    succeeds the course holds at most [max_students] enrolled-status
    rows. *)
Theorem capacity_bound :
  (forall calls,
     never overfills calls empty_store = true
     <-> forall n, within_capacity (run (firstn n calls) empty_store))
  /\ (forall calls c,
        within_capacity (run calls empty_store) ->
        (within_capacity (run (calls ++ [c]) empty_store)
         <-> overfills c (run calls empty_store) = false))
  /\ (forall d u t s st c,
        student_by_id (EnrollmentCreate.student_id d) s = Some st ->
        course_by_id (EnrollmentCreate.course_id d) s = Some c ->
        may_enroll u st c s = true ->
        find (active_pair (EnrollmentCreate.student_id d)
                (EnrollmentCreate.course_id d)) (enrollments s) = None ->
        (create_enrollment d u t s
         = (HTTPException HTTP_400_BAD_REQUEST "Course is full", s)
         <-> Course.max_students c
             <= enrolled_count (EnrollmentCreate.course_id d) s))
  /\ (forall d u t s e s',
        create_enrollment d u t s = (Ok e, s') ->
        exists c,
          course_by_id (EnrollmentCreate.course_id d) s' = Some c
          /\ enrolled_count (EnrollmentCreate.course_id d) s'
             <= Course.max_students c).
Proof.
  split; [|split; [exact overfills_exact|split]].
  - apply (never_along overfills within_capacity empty_store).
    + intros c [].
    + exact overfills_exact.
  - intros d u t s st c Hst Hc Hmay Hnone.
    rewrite (create_enrollment_found d u t s st c Hst Hc), Hmay, Hnone. cbn.
    destruct (Z.leb_spec (Course.max_students c)
                (enrolled_count (EnrollmentCreate.course_id d) s)).
    + tauto.
    + split; [discriminate | lia].
  - intros d u t s e s' H.
    destruct (create_enrollment_ok d u t s s' e H)
      as (st & c & _ & Hc & _ & _ & Hroom & He & ->).
    exists c. split; [exact Hc|].
    rewrite (enrolled_count_appended _ s
               (put_enrollments (enrollments s ++ [e]) (enrollment_seq s + 1)
                  s) e eq_refl).
    destruct (enrolled_in _ e); lia.
Qed.

(** C2 on the campus: a term with a refused update of the capacity, a
    raise of the capacity and a row set back to enrolled while a seat is
    free; no call overfills and no course ends over its capacity. *)
Lemma capacity_bound_witness :
  never overfills Campus.term empty_store = true
  /\ forall n, within_capacity (run (firstn n Campus.term) empty_store).
Proof.
  assert (H : never overfills Campus.term empty_store = true)
    by (vm_compute; reflexivity).
  split; [exact H | exact (proj1 (proj1 capacity_bound Campus.term) H)].
Defined.

(** C2, counterexample: Alice holds the only seat of CS101 and the
    administrator lowers [max_students] to 0; the course then has one
    enrolled-status row and a capacity of zero. *)
Lemma capacity_exceeded_after_update :
  ~ within_capacity (run Campus.lowered_capacity empty_store).
Proof.
  intros H.
  specialize
    (H {| Course.id := 1; Course.course_code := "CS101";
          Course.title := "Introduction to Programming";
          Course.description := None; Course.credits := 3;
          Course.instructor_id := 1; Course.max_students := 0;
          Course.status := CourseStatusEnum.ACTIVE;
          Course.created_at := 1700000000 |}
       (or_introl eq_refl)).
  vm_compute in H. apply H. reflexivity.
Qed.

(** ** One enrolled row per pair *)

(** A call that does not duplicate keeps one enrolled-status row per
    pair. *)
Lemma not_duplicated (c : Call) (s : Store) :
  duplicates c s = false ->
  one_active_per_pair s -> one_active_per_pair (snd (serve c s)).
Proof.
  unfold duplicates, succeeds. intros E Hinv.
  apply andb_false_iff in E. destruct E as [E|E].
  - apply negb_false_iff in E. now rewrite (serve_error_unchanged c s E).
  - exact (effect_keeps_one_active_on _ _ _ E (serve_effect c s) Hinv).
Qed.

(** A call that duplicates leaves a pair with two enrolled-status rows. *)
Lemma duplicated (c : Call) (s : Store) :
  duplicates c s = true -> ~ one_active_per_pair (snd (serve c s)).
Proof.
  unfold duplicates. intros E Hinv.
  apply andb_true_iff in E. destruct E as [Hok Hr].
  destruct (serve_succeeds c s Hok) as (u & Hserve & Hsucc).
  rewrite Hserve in Hinv.
  destruct (request c) as
    [ | | | | | | | | | | | | | | | | | | | | | | i d | ];
    try discriminate; cbn [route duplicating] in *.
  destruct (returning_ok _ _ _ Hsucc) as (x & Hx).
  set (s' := snd (returning _ _ s)) in *. clearbody s'.
  destruct (readmitted i d s) as [e|] eqn:Hre; [|discriminate].
  destruct (readmitted_inv _ _ _ _ Hre) as (Hfind & Hd & Hst).
  apply existsb_exists in Hr. destruct Hr as (e2 & Hin2 & Hactive2).
  destruct (update_enrollment_ok _ _ _ _ _ _ Hx)
    as (e0 & before & after & Hfind0 & Hupd & Hl & ->).
  assert (e0 = e) as -> by congruence.
  destruct Hupd as (_ & Hsid & Hcid & _ & Hstatus & _).
  rewrite Hd in Hstatus. cbn in Hstatus. injection Hstatus as Hstatus.
  specialize (Hinv (Enrollment.student_id e) (Enrollment.course_id e)).
  unfold active_count in Hinv. cbn [enrollments put_enrollments] in Hinv.
  rewrite count_around in Hinv.
  replace (active_pair (Enrollment.student_id e) (Enrollment.course_id e) x)
    with true in Hinv
    by (symmetry; apply active_pair_spec; repeat split; assumption).
  rewrite Hl in Hin2. apply in_app_or in Hin2.
  destruct Hin2 as [Hin2|[<-|Hin2]].
  - pose proof (count_in _ _ _ Hin2 Hactive2). lia.
  - apply active_pair_spec in Hactive2. now destruct Hactive2 as (_ & _ & ?).
  - pose proof (count_in _ _ _ Hin2 Hactive2). lia.
Qed.

(** The calls that duplicate are those that break the rule. *)
Lemma duplicates_exact (c : Call) (s : Store) :
  one_active_per_pair s ->
  (one_active_per_pair (snd (serve c s)) <-> duplicates c s = false).
Proof.
  intros Hinv. split.
  - intros Hinv'. destruct (duplicates c s) eqn:E; [|reflexivity].
    now destruct (duplicated c s E).
  - intros E. now apply not_duplicated.
Qed.

(** C3 (amended): a pair keeps at most one enrolled-status row as long as
    no call duplicates one, and such calls are all that break the rule.  A
    call duplicates when it succeeds in setting back to enrolled a row of
    another status while its (student, course) pair has an enrolled-status
    row.  Along a trace from the empty store, every pair has at most one
    enrolled-status row in every state exactly when none of the calls
    duplicates on the store it is made on.  From any store with that
    property, the store after one more call has it exactly when that call
    does not duplicate.  For a caller who may
    enroll the existing student in the existing course, creation is
    rejected with the conflict error when the pair has an enrolled-status
    row, and succeeds, the course having room, when every row of the pair
    has another status. *)
Theorem one_active_enrollment :
  (forall calls,
     never duplicates calls empty_store = true
     <-> forall n, one_active_per_pair (run (firstn n calls) empty_store))
  /\ (forall c s,
        one_active_per_pair s ->
        (one_active_per_pair (snd (serve c s)) <-> duplicates c s = false))
  /\ (forall d u t s st c e,
        student_by_id (EnrollmentCreate.student_id d) s = Some st ->
        course_by_id (EnrollmentCreate.course_id d) s = Some c ->
        may_enroll u st c s = true ->
        In e (enrollments s) ->
        Enrollment.student_id e = EnrollmentCreate.student_id d ->
        Enrollment.course_id e = EnrollmentCreate.course_id d ->
        Enrollment.status e = EnrollmentStatusEnum.ENROLLED ->
        create_enrollment d u t s
        = (HTTPException HTTP_400_BAD_REQUEST
             "Student is already enrolled in this course", s))
  /\ (forall d u t s st c,
        student_by_id (EnrollmentCreate.student_id d) s = Some st ->
        course_by_id (EnrollmentCreate.course_id d) s = Some c ->
        may_enroll u st c s = true ->
        (forall e, In e (enrollments s) ->
           Enrollment.student_id e = EnrollmentCreate.student_id d ->
           Enrollment.course_id e = EnrollmentCreate.course_id d ->
           Enrollment.status e <> EnrollmentStatusEnum.ENROLLED) ->
        enrolled_count (EnrollmentCreate.course_id d) s
        < Course.max_students c ->
        exists e s',
          create_enrollment d u t s = (Ok e, s')
          /\ enrollments s' = enrollments s ++ [e]
          /\ Enrollment.student_id e = EnrollmentCreate.student_id d
          /\ Enrollment.course_id e = EnrollmentCreate.course_id d
          /\ Enrollment.status e = EnrollmentStatusEnum.ENROLLED).
Proof.
  split; [|split; [exact duplicates_exact|split]].
  - apply (never_along duplicates one_active_per_pair empty_store).
    + intros sid cid. cbn. lia.
    + intros calls c Hinv. rewrite run_snoc. now apply duplicates_exact.
  - intros d u t s st c e Hst Hc Hmay Hin Hs Hcid Hstatus.
    rewrite (create_enrollment_found d u t s st c Hst Hc), Hmay. cbn.
    destruct (find _ (enrollments s)) eqn:E; [reflexivity|].
    apply (find_none _ _ E) in Hin.
    assert (active_pair (EnrollmentCreate.student_id d)
              (EnrollmentCreate.course_id d) e = true)
      by (apply active_pair_spec; auto).
    congruence.
  - intros d u t s st c Hst Hc Hmay Hfree Hroom.
    rewrite (create_enrollment_found d u t s st c Hst Hc), Hmay. cbn.
    destruct (find _ (enrollments s)) as [e|] eqn:E.
    + apply find_some in E. destruct E as [Hin E].
      apply active_pair_spec in E. destruct E as (E1 & E2 & E3).
      now destruct (Hfree e Hin E1 E2).
    + apply Z.leb_gt in Hroom. rewrite Hroom.
      unfold insert_enrollment. eexists _, _.
      split; [reflexivity|]. cbn. auto.
Qed.

(** C3 on the campus: in a term where Smith sets Alice's first enrollment
    back to enrolled after she dropped the second, no call duplicates and
    her pair ends with one enrolled-status row. *)
Lemma one_active_enrollment_witness :
  never duplicates Campus.term empty_store = true
  /\ forall n, one_active_per_pair (run (firstn n Campus.term) empty_store).
Proof.
  assert (H : never duplicates Campus.term empty_store = true)
    by (vm_compute; reflexivity).
  split;
    [exact H | exact (proj1 (proj1 one_active_enrollment Campus.term) H)].
Defined.

(** C3, counterexample: Alice enrolls in CS101, drops, enrolls again, and
    the instructor sets her first enrollment back to enrolled; the pair
    (Alice, CS101) then has two enrolled-status rows. *)
Lemma two_active_after_reactivation :
  ~ one_active_per_pair (run Campus.reactivation empty_store).
Proof.
  intros H. specialize (H 1 1). vm_compute in H. lia.
Qed.
